(** * Expo / React Native CI-CD workflow generator: command extraction,
      command signatures and integration-test matrices

    Shallow embedding of
    - [integration-tests/scripts/command-extractor.ts]
      ([categorizeCommand], [hasGHAExpressions], [extractTestJobCommands],
      [extractBuildJobCommands], [extractAllCommands], [commandSignature]),
    - [integration-tests/scripts/matrix-generator.ts]
      ([baseConfig], [fixtureForPkgMgr], [generatePrMatrix],
      [allTestSubsets], [allJestCombinations], [generateNightlyMatrix],
      [generateEasMatrix]),
    - [integration-tests/scripts/integration-runner.ts] ([runCommands],
      [printResults], [allPassed]),
    - [integration-tests/scripts/community-runner.ts]
      ([buildConfigForRepo], [filterForAvailableScripts]),
    - [integration-tests/scripts/run-single.ts],
    - [webapp/app/utils/workflowTester.ts] ([generateAllWorkflows],
      [generateSpecificWorkflow], [generateWorkflowManifest]),
    together with a model of the pipeline compiler
    ([webapp/app/utils/workflowGenerator.ts]), whose source is not part of
    the tree and which is therefore written from the specification. *)

From stdpp Require Import gmap strings list sorting.
From Stdlib Require Import Ascii String ZArith.
From Stdlib Require Import DecimalString DecimalNat.

Open Scope string_scope.
Open Scope list_scope.

(** ** JavaScript built-ins used by the sources

    Strings are sequences of bytes, the UTF-8 encoding of the text.  Case
    folding and trimming are exact on ASCII text, which is all the sources
    compare against: bytes above 127 are never case-folded and never count
    as white space.  Line terminators are the four of the language, the
    two Unicode separators included. *)

Module JS.

(** [String.prototype.toLowerCase], one character. *)
Definition toLowerChar (c : ascii) : ascii :=
  let n := nat_of_ascii c in
  if Nat.leb 65 n && Nat.leb n 90 then ascii_of_nat (n + 32) else c.

Fixpoint toLowerCase (s : string) : string :=
  match s with
  | EmptyString => EmptyString
  | String c s' => String (toLowerChar c) (toLowerCase s')
  end.

(** [s.startsWith(p)]. *)
Definition startsWith (s p : string) : bool := String.prefix p s.

(** [s.includes(sub)]. *)
Fixpoint includes (s sub : string) : bool :=
  String.prefix sub s
  || match s with
     | EmptyString => false
     | String _ s' => includes s' sub
     end.

(** White space removed by [trim]: TAB, LF, VT, FF, CR and SPACE. *)
Definition isWhiteSpace (c : ascii) : bool :=
  let n := nat_of_ascii c in
  (Nat.leb 9 n && Nat.leb n 13) || Nat.eqb n 32.

Fixpoint trimStart (s : string) : string :=
  match s with
  | EmptyString => EmptyString
  | String c s' => if isWhiteSpace c then trimStart s' else s
  end.

Fixpoint trimEnd (s : string) : string :=
  match s with
  | EmptyString => EmptyString
  | String c s' =>
      match trimEnd s' with
      | EmptyString => if isWhiteSpace c then EmptyString else String c EmptyString
      | t => String c t
      end
  end.

(** [s.trim()]. *)
Definition trim (s : string) : string := trimEnd (trimStart s).

(** Line terminators of regular expressions ([^], [$] in multi-line
    mode, and the characters [.] refuses): LF, CR, U+2028 and U+2029.
    The first two are one byte each. *)
Definition isLineTerminator (c : ascii) : bool :=
  let n := nat_of_ascii c in Nat.eqb n 10 || Nat.eqb n 13.

(** U+2028 (LINE SEPARATOR) and U+2029 (PARAGRAPH SEPARATOR) are the bytes
    E2 80 A8 and E2 80 A9 in UTF-8; in well-formed text these three bytes
    in a row are nothing else. *)
Definition isSeparator (c1 c2 c3 : ascii) : bool :=
  Nat.eqb (nat_of_ascii c1) 226 && Nat.eqb (nat_of_ascii c2) 128
  && (Nat.eqb (nat_of_ascii c3) 168 || Nat.eqb (nat_of_ascii c3) 169).

(** A line terminator starts [s]. *)
Definition startsWithLineTerminator (s : string) : bool :=
  match s with
  | EmptyString => false
  | String c s' =>
      isLineTerminator c
      || match s' with
         | String c2 (String c3 _) => isSeparator c c2 c3
         | _ => false
         end
  end.

(** The pieces of [s] between line terminators. *)
Fixpoint splitLines (s : string) : list string :=
  match s with
  | EmptyString => [EmptyString]
  | String c s' =>
      if isLineTerminator c then EmptyString :: splitLines s'
      else
        match s' with
        | String c2 (String c3 s3) =>
            if isSeparator c c2 c3 then EmptyString :: splitLines s3
            else match splitLines s' with
                 | l :: ls => String c l :: ls
                 | [] => [String c EmptyString]
                 end
        | _ =>
            match splitLines s' with
            | l :: ls => String c l :: ls
            | [] => [String c EmptyString]
            end
        end
  end.

(** [/^(a1|a2|...)$/m.test(s)] for alternatives without line
    terminators: some line of [s] is one of the alternatives. *)
Definition testWholeLine (alts : list string) (s : string) : bool :=
  existsb (fun l => existsb (String.eqb l) alts) (splitLines s).

(** Truthiness of a string: only the empty string is falsy. *)
Definition truthy (s : string) : bool := negb (String.eqb s EmptyString).

(** [o || d] for an optional string [o]. *)
Definition orElse (o : option string) (d : string) : string :=
  match o with
  | Some s => if truthy s then s else d
  | None => d
  end.

(** [l.join(sep)]. *)
Definition join (sep : string) (l : list string) : string :=
  String.concat sep l.

(** [l.sort()] on strings: ascending in the order of code units, stable. *)
Fixpoint insertSorted (x : string) (l : list string) : list string :=
  match l with
  | [] => [x]
  | y :: l' => if String.leb x y then x :: l else y :: insertSorted x l'
  end.

Definition sort (l : list string) : list string :=
  foldr insertSorted [] l.

End JS.

(** ** Data model ([command-extractor.ts], lines 361-431) *)

Inductive PackageManager := yarn | npm | pnpm.

Inductive NotificationType := slack | discord | both.

Record AdvancedOptions := {
  iOSSupport : bool;
  publishToExpo : bool;
  publishToStores : bool;
  jestTests : bool;
  rntlTests : bool;
  renderHookTests : bool;
  caching : bool;
  notifications : bool;
  notificationType : option NotificationType
}.

Record FormValues := {
  projectName : option string;
  expoVersion : option string;
  packageManager : option PackageManager;
  storageType : option string;
  platform : option string;
  buildType : option string;
  nodeVersion : option string;
  expoCli : option string;
  eas : option string;
  reactNativeCli : option string;
  fastlane : option string;
  workflow : option string;
  buildTypes : list string;
  tests : list string;
  triggers : list string;
  advancedOptions : option AdvancedOptions
}.

Inductive Category :=
  | install | typecheck | lint | format | jest | rntl | hooks
  | cache_dir | eas_install | build | other.

(** The string each category is in the source. *)
Definition categoryName (c : Category) : string :=
  match c with
  | install => "install"
  | typecheck => "typecheck"
  | lint => "lint"
  | format => "format"
  | jest => "jest"
  | rntl => "rntl"
  | hooks => "hooks"
  | cache_dir => "cache-dir"
  | eas_install => "eas-install"
  | build => "build"
  | other => "other"
  end.

#[global] Instance Category_eq_dec : EqDecision Category.
Proof. solve_decision. Defined.

Record ExtractedCommand := {
  stepName : string;
  command : string;
  category : Category;
  hasGHAExpressions_flag : bool
}.

Record WorkflowStep := {
  step_name : option string;
  step_run : option string;
  step_uses : option string;
  step_id : option string;
  step_if : option string;
  step_with : list (string * string);
  step_env : list (string * string)
}.

(** [needs?: string | string[]]. *)
Inductive Needs :=
  | NeedsOne (id : string)
  | NeedsMany (ids : list string).

Record WorkflowJob := {
  job_steps : option (list WorkflowStep);
  job_needs : option Needs;
  job_runs_on : option string;
  job_if : option string;
  job_strategy : list (string * list string)
}.

(** A parsed workflow.  [jobs] is a JavaScript object used as a map whose
    key order is observed ([Object.keys(...).find]): an association list in
    insertion order. *)
Record WorkflowYaml := {
  wf_name : option string;
  wf_on : list (string * list (string * list string));
  wf_env : list (string * string);
  wf_jobs : option (list (string * WorkflowJob))
}.

(** [jobs[id]]: the job stored under [id]. *)
Fixpoint jobLookup (id : string) (jobs : list (string * WorkflowJob))
  : option WorkflowJob :=
  match jobs with
  | [] => None
  | (k, j) :: rest => if String.eqb k id then Some j else jobLookup id rest
  end.

(** ** [categorizeCommand] (lines 433-515) *)

Definition categorizeCommand (stepName command : string) : Category :=
  let lower := JS.toLowerCase command in
  let nameLower := JS.toLowerCase stepName in
  if JS.includes nameLower "install dependencies"
     || JS.testWholeLine ["yarn install"; "npm install"; "pnpm install"]
          (JS.trim command)
  then install
  else if JS.includes nameLower "typescript"
          || JS.includes lower "tsc"
          || JS.includes lower "typecheck"
          || JS.includes lower "type-check"
  then typecheck
  else if JS.includes nameLower "eslint"
          || JS.includes lower "eslint"
          || JS.includes lower "run lint"
  then lint
  else if JS.includes nameLower "prettier"
          || JS.includes lower "prettier"
          || JS.includes lower "format:check"
  then format
  else if JS.includes nameLower "renderhook" || JS.includes lower "test:hooks"
  then hooks
  else if JS.includes nameLower "react native testing library"
          || JS.includes lower "test:rntl"
  then rntl
  else if JS.includes nameLower "jest"
          || (JS.includes nameLower "test"
              && negb (JS.includes nameLower "rntl")
              && negb (JS.includes nameLower "hook")
              && negb (JS.includes nameLower "react native testing"))
  then
    if JS.includes lower "test:rntl" then rntl
    else if JS.includes lower "test:hooks" then hooks
    else jest
  else if JS.includes nameLower "cache directory"
          || JS.includes lower "cache dir"
          || JS.includes lower "npm config get cache"
          || JS.includes lower "pnpm store path"
  then cache_dir
  else if JS.includes lower "eas-cli"
          || JS.includes lower "yarn global add eas"
          || JS.includes lower "npm install -g eas"
          || JS.includes lower "pnpm add -g eas"
  then eas_install
  else if JS.includes lower "eas build" || JS.includes lower "eas submit"
  then build
  else other.

(** ** [hasGHAExpressions] (lines 517-519): [/\$\{\{.*?\}\}/.test(command)] *)

(** [}}] occurs in [s] before any line terminator. *)
Fixpoint closesOnLine (s : string) : bool :=
  String.prefix "}}" s
  || match s with
     | EmptyString => false
     | String _ s' =>
         if JS.startsWithLineTerminator s then false else closesOnLine s'
     end.

Fixpoint hasGHAExpressions (command : string) : bool :=
  match command with
  | EmptyString => false
  | String c s' =>
      (String.prefix "${{" command
       && match s' with
          | String _ (String _ after) => closesOnLine after
          | _ => false
          end)
      || hasGHAExpressions s'
  end.


(** ** The extractors (lines 521-640) *)

(** [options?: { includeBuildCommands?: boolean }]. *)
Record BuildOptions := {
  includeBuildCommands : option bool
}.

(** [options?: { includeGHAExpressions?: boolean; includeBuildCommands?: boolean }]. *)
Record AllOptions := {
  all_includeGHAExpressions : option bool;
  all_includeBuildCommands : option bool
}.

(** Truthiness of an optional boolean ([undefined] is falsy). *)
Definition truthyFlag (b : option bool) : bool := default false b.

Section Extractor.

(** [yaml.load(generateWorkflowYaml(config))]: the pipeline compiler
    followed by the YAML parser.  [None] is a parse result that is [null]
    or [undefined]. *)
Variable loadWorkflow : FormValues -> option WorkflowYaml.

(** The record built in the body of both loops for a step whose [run]
    is [run]. *)
Definition mkCommand (step : WorkflowStep) (run : string) : ExtractedCommand :=
  {| stepName := JS.orElse (step_name step) "unnamed";
     command := run;
     category := categorizeCommand (JS.orElse (step_name step) "") run;
     hasGHAExpressions_flag := hasGHAExpressions run |}.

(** [if (step.run)]: the command of a step that has a non-empty one. *)
Definition stepRun (step : WorkflowStep) : option string :=
  match step_run step with
  | Some run => if JS.truthy run then Some run else None
  | None => None
  end.

(** One iteration of the loop over the steps of the test job; [commands]
    is the array being filled. *)
Definition testLoopBody (commands : list ExtractedCommand)
    (step : WorkflowStep) : list ExtractedCommand :=
  match stepRun step with
  | Some run => commands ++ [mkCommand step run]
  | None => commands
  end.

Definition extractTestJobCommands (config : FormValues)
  : list ExtractedCommand :=
  match loadWorkflow config with
  | None => []
  | Some parsed =>
      match wf_jobs parsed with
      | None => []
      | Some jobs =>
          match jobLookup "test" jobs with
          | Some testJob =>
              match job_steps testJob with
              | Some steps => foldl testLoopBody [] steps
              | None => []
              end
          | None => []
          end
      end
  end.

(** One iteration of the loop over the steps of the build job. *)
Definition buildLoopBody (options : option BuildOptions)
    (commands : list ExtractedCommand) (step : WorkflowStep)
  : list ExtractedCommand :=
  match stepRun step with
  | Some run =>
      let cmd := mkCommand step run in
      if negb (truthyFlag (options ≫= includeBuildCommands))
         && (bool_decide (category cmd = build)
             || bool_decide (category cmd = other))
      then commands
      else commands ++ [cmd]
  | None => commands
  end.

Definition extractBuildJobCommands (config : FormValues)
    (options : option BuildOptions) : list ExtractedCommand :=
  match loadWorkflow config with
  | None => []
  | Some parsed =>
      match wf_jobs parsed with
      | None => []
      | Some jobs =>
          match find (fun name => JS.startsWith name "build-and-") jobs.*1 with
          | Some buildJobName =>
              match jobLookup buildJobName jobs with
              | Some buildJob =>
                  match job_steps buildJob with
                  | Some steps => foldl (buildLoopBody options) [] steps
                  | None => []
                  end
              | None => []
              end
          | None => []
          end
      end
  end.

Definition extractAllCommands (config : FormValues)
    (options : option AllOptions) : list ExtractedCommand :=
  let testCommands := extractTestJobCommands config in
  let buildCommands :=
    extractBuildJobCommands config
      (Some {| includeBuildCommands := options ≫= all_includeBuildCommands |}) in
  let allCommands := testCommands ++ buildCommands in
  if negb (truthyFlag (options ≫= all_includeGHAExpressions))
  then List.filter (fun cmd => negb (hasGHAExpressions_flag cmd)) allCommands
  else allCommands.

(** [commandSignature] (lines 634-640). *)
Definition commandSignature (config : FormValues) : string :=
  JS.join "|"
    (JS.sort
       ((fun c => categoryName (category c) +:+ ":" +:+ JS.trim (command c))
          <$> extractTestJobCommands config)).

End Extractor.

(** ** The matrix generator ([matrix-generator.ts]) *)

Inductive Fixture := yarn_app | npm_app.

#[global] Instance Fixture_eq_dec : EqDecision Fixture.
Proof. solve_decision. Defined.

#[global] Instance PackageManager_eq_dec : EqDecision PackageManager.
Proof. solve_decision. Defined.

Record MatrixEntry := {
  name : string;
  config : FormValues;
  fixture : Fixture
}.

(** The keys of [Partial<FormValues>] that [baseConfig] has a default for;
    [None] is an absent key.  No caller passes any other key. *)
Record PartialFormValues := {
  o_storageType : option string;
  o_buildTypes : option (list string);
  o_tests : option (list string);
  o_triggers : option (list string);
  o_packageManager : option PackageManager;
  o_advancedOptions : option AdvancedOptions
}.

Definition noOverrides : PartialFormValues :=
  {| o_storageType := None; o_buildTypes := None; o_tests := None;
     o_triggers := None; o_packageManager := None;
     o_advancedOptions := None |}.

(** The advanced options every literal of the file starts from. *)
Definition baseAdvancedOptions : AdvancedOptions :=
  {| iOSSupport := false; publishToExpo := false; publishToStores := false;
     jestTests := false; rntlTests := false; renderHookTests := false;
     caching := true; notifications := false; notificationType := None |}.

(** [baseConfig] (lines 16-35): defaults, then the overrides spread over
    them. *)
Definition baseConfig (overrides : PartialFormValues) : FormValues :=
  {| projectName := None; expoVersion := None;
     packageManager := Some (default yarn (o_packageManager overrides));
     storageType := Some (default "github-release" (o_storageType overrides));
     platform := None; buildType := None; nodeVersion := None;
     expoCli := None; eas := None; reactNativeCli := None;
     fastlane := None; workflow := None;
     buildTypes := default ["dev"] (o_buildTypes overrides);
     tests := default [] (o_tests overrides);
     triggers := default ["push-main"] (o_triggers overrides);
     advancedOptions :=
       Some (default baseAdvancedOptions (o_advancedOptions overrides)) |}.

(** [fixtureForPkgMgr] (lines 37-41).  The parameter is annotated
    ["yarn" | "npm" | undefined]; the body compares with ["npm"] only, so
    it is given here on every value [FormValues.packageManager] can hold. *)
Definition fixtureForPkgMgr (pkgMgr : option PackageManager) : Fixture :=
  match pkgMgr with
  | Some npm => npm_app
  | _ => yarn_app
  end.

(** A package manager inside a template literal. *)
Definition pkgMgrName (p : PackageManager) : string :=
  match p with
  | yarn => "yarn"
  | npm => "npm"
  | pnpm => "pnpm"
  end.

(** The overrides [{ packageManager, tests }] and
    [{ packageManager, tests, advancedOptions }]. *)
Definition withTests (p : PackageManager) (ts : list string)
  : PartialFormValues :=
  {| o_storageType := None; o_buildTypes := None; o_tests := Some ts;
     o_triggers := None; o_packageManager := Some p;
     o_advancedOptions := None |}.

Definition withTestsAndOptions (p : PackageManager) (ts : list string)
    (jestT rntlT hookT cachingT : bool) : PartialFormValues :=
  {| o_storageType := None; o_buildTypes := None; o_tests := Some ts;
     o_triggers := None; o_packageManager := Some p;
     o_advancedOptions :=
       Some {| iOSSupport := false; publishToExpo := false;
               publishToStores := false; jestTests := jestT;
               rntlTests := rntlT; renderHookTests := hookT;
               caching := cachingT; notifications := false;
               notificationType := None |} |}.

(** [generatePrMatrix] (lines 46-238). *)
Definition generatePrMatrix : list MatrixEntry :=
  [ {| name := "npm-no-tests";
       config := baseConfig (withTests npm []);
       fixture := npm_app |};
    {| name := "yarn-no-tests";
       config := baseConfig (withTests yarn []);
       fixture := yarn_app |};
    {| name := "npm-typescript-only";
       config := baseConfig (withTests npm ["typescript"]);
       fixture := npm_app |};
    {| name := "yarn-typescript-only";
       config := baseConfig (withTests yarn ["typescript"]);
       fixture := yarn_app |};
    {| name := "npm-all-static";
       config := baseConfig (withTests npm ["typescript"; "eslint"; "prettier"]);
       fixture := npm_app |};
    {| name := "yarn-all-static";
       config := baseConfig (withTests yarn ["typescript"; "eslint"; "prettier"]);
       fixture := yarn_app |};
    {| name := "npm-jest-only";
       config := baseConfig (withTestsAndOptions npm [] true false false true);
       fixture := npm_app |};
    {| name := "yarn-jest-only";
       config := baseConfig (withTestsAndOptions yarn [] true false false true);
       fixture := yarn_app |};
    {| name := "npm-all-tests";
       config := baseConfig (withTestsAndOptions npm
                   ["typescript"; "eslint"; "prettier"] true true true true);
       fixture := npm_app |};
    {| name := "yarn-all-tests";
       config := baseConfig (withTestsAndOptions yarn
                   ["typescript"; "eslint"; "prettier"] true true true true);
       fixture := yarn_app |};
    {| name := "npm-no-caching";
       config := baseConfig (withTestsAndOptions npm
                   ["typescript"; "eslint"] true false false false);
       fixture := npm_app |};
    {| name := "yarn-no-caching";
       config := baseConfig (withTestsAndOptions yarn
                   ["typescript"; "eslint"] true false false false);
       fixture := yarn_app |};
    {| name := "npm-eslint-only";
       config := baseConfig (withTests npm ["eslint"]);
       fixture := npm_app |};
    {| name := "npm-rntl-hooks";
       config := baseConfig (withTestsAndOptions npm [] false true true true);
       fixture := npm_app |};
    {| name := "yarn-prettier-only";
       config := baseConfig (withTests yarn ["prettier"]);
       fixture := yarn_app |} ].

(** [allTestSubsets] (lines 243-253): for each item, every subset found so
    far is pushed again with the item appended. *)
Definition allTestSubsets : list (list string) :=
  foldl (fun subsets item =>
           let current := subsets in
           foldl (fun subsets subset => subsets ++ [subset ++ [item]])
                 subsets current)
        [[]] ["typescript"; "eslint"; "prettier"].

Record JestCombo := {
  combo_jestTests : bool;
  combo_rntlTests : bool;
  combo_renderHookTests : bool
}.

(** [allJestCombinations] (lines 258-276). *)
Definition allJestCombinations : list JestCombo :=
  foldl (fun combos j =>
    foldl (fun combos r =>
      foldl (fun combos h =>
               combos ++ [{| combo_jestTests := j; combo_rntlTests := r;
                             combo_renderHookTests := h |}])
            combos [false; true])
      combos [false; true])
    [] [false; true].

Section MatrixGenerator.

Variable loadWorkflow : FormValues -> option WorkflowYaml.

(** The state of the loops of [generateNightlyMatrix]: the set [seen] and
    the array [entries]. *)
Definition NightlyState : Type := gset string * list MatrixEntry.

Definition nightlyConfig (pkgMgr : PackageManager) (tests : list string)
    (jestCombo : JestCombo) (caching : bool) : FormValues :=
  baseConfig
    {| o_storageType := None; o_buildTypes := None; o_tests := Some tests;
       o_triggers := None; o_packageManager := Some pkgMgr;
       o_advancedOptions :=
         Some {| iOSSupport := false; publishToExpo := false;
                 publishToStores := false;
                 jestTests := combo_jestTests jestCombo;
                 rntlTests := combo_rntlTests jestCombo;
                 renderHookTests := combo_renderHookTests jestCombo;
                 caching := caching; notifications := false;
                 notificationType := None |} |}.

Definition nightlyName (pkgMgr : PackageManager) (tests : list string)
    (jestCombo : JestCombo) (caching : bool) : string :=
  let joined :=
    JS.join "-"
      (tests
       ++ (if combo_jestTests jestCombo then ["jest"] else [])
       ++ (if combo_rntlTests jestCombo then ["rntl"] else [])
       ++ (if combo_renderHookTests jestCombo then ["hooks"] else [])) in
  let testDesc := if JS.truthy joined then joined else "no-tests" in
  let cachingDesc := if caching then EmptyString else "-nocache" in
  pkgMgrName pkgMgr +:+ "-" +:+ testDesc +:+ cachingDesc.

(** The body of the innermost loop (lines 303-336). *)
Definition nightlyBody (pkgMgr : PackageManager) (tests : list string)
    (jestCombo : JestCombo) (st : NightlyState) (caching : bool)
  : NightlyState :=
  let config := nightlyConfig pkgMgr tests jestCombo caching in
  let sig := commandSignature loadWorkflow config in
  if bool_decide (sig ∈ st.1) then st
  else ({[sig]} ∪ st.1,
        st.2 ++ [{| name := nightlyName pkgMgr tests jestCombo caching;
                    config := config;
                    fixture := fixtureForPkgMgr (Some pkgMgr) |}]).

Definition cachingOptions (tests : list string) (jestCombo : JestCombo)
  : list bool :=
  let cachingValues := [true; false] in
  let hasTests :=
    Nat.ltb 0 (List.length tests)
    || combo_jestTests jestCombo
    || combo_rntlTests jestCombo
    || combo_renderHookTests jestCombo in
  if hasTests then cachingValues else [true].

(** [generateNightlyMatrix] (lines 281-343): four nested loops over one
    state. *)
Definition nightlyLoops (st0 : NightlyState) : NightlyState :=
  foldl (fun st pkgMgr =>
    foldl (fun st tests =>
      foldl (fun st jestCombo =>
        foldl (nightlyBody pkgMgr tests jestCombo) st
              (cachingOptions tests jestCombo))
        st allJestCombinations)
      st allTestSubsets)
    st0 [yarn; npm].

Definition generateNightlyMatrix : list MatrixEntry :=
  (nightlyLoops (∅, [])).2.

End MatrixGenerator.

(** [buildTypeMap] of [generateEasMatrix]: a record used as a map. *)
Definition buildTypeMap : gmap string (list string) :=
  {[ "development" := ["dev"];
     "production-apk" := ["prod-apk"];
     "production" := ["prod-aab"] ]}.

(** [generateEasMatrix] (lines 348-374).  [buildTypeMap[profile]] is
    passed on as the [buildTypes] override; every profile of the list is a
    key of the map. *)
Definition generateEasMatrix : list MatrixEntry :=
  let packageManagers := [yarn; npm] in
  let profiles := ["development"; "production-apk"; "production"] in
  foldl (fun entries pkgMgr =>
    foldl (fun entries profile =>
             entries ++
               [{| name := pkgMgrName pkgMgr +:+ "-eas-" +:+ profile;
                   config :=
                     baseConfig
                       {| o_storageType := None;
                          o_buildTypes := buildTypeMap !! profile;
                          o_tests := Some []; o_triggers := None;
                          o_packageManager := Some pkgMgr;
                          o_advancedOptions := None |};
                   fixture := fixtureForPkgMgr (Some pkgMgr) |}])
          entries profiles)
    [] packageManagers.

(** ** The command runner ([integration-runner.ts]) *)

Record CommandResult := {
  res_stepName : string;
  res_command : string;
  res_category : Category;
  exitCode : Z;
  stdout : string;
  stderr : string;
  durationMs : Z;
  skipped : bool;
  skipReason : option string
}.

(** [allPassed] (lines 211-215). *)
Definition allPassed (results : list CommandResult) : bool :=
  forallb (fun r => Z.eqb (exitCode r) 0)
          (List.filter (fun r => negb (skipped r)) results).


(** ** The pipeline compiler

    [generateWorkflowYaml] ([webapp/app/utils/workflowGenerator.ts]) is not
    in the tree; only its tests and one sample of its output are.  Every
    definition of this part, down to [generateWorkflowYaml], is modelled
    from sections 4.1 and 6 of the specification, rule by rule.  Literal
    texts the specification leaves open (step labels, the commands of the
    yarn and npm rows, action references, secret names) are those the tests
    of the generator and of the extractor read back; step labels are given
    without their leading pictograph, and the shell scripts of the build
    job are cut down to their first command. *)

Definition dquote : string := String (ascii_of_nat 34) EmptyString.
Definition newline : string := String (ascii_of_nat 10) EmptyString.

(** Modelled from the spec: the columns of the package-manager command
    table of section 4.1 (the table itself is part of the missing
    generator). *)
Record PkgMgrCommands := {
  pm_install : string;
  pm_cacheDir : string;
  pm_lockFile : string;
  pm_easInstall : string;
  pm_typecheck : string;
  pm_lint : string;
  pm_format : string;
  pm_jest : string;
  pm_rntl : string;
  pm_hooks : string
}.

(** Modelled from the spec: the rows of the package-manager command table
    of the missing generator.  The yarn and npm rows are the commands the
    tests read back; the pnpm row is not observed by any test and follows
    the patterns [categorizeCommand] looks for. *)
Definition pkgMgrCommands (p : PackageManager) : PkgMgrCommands :=
  match p with
  | yarn =>
      {| pm_install := "yarn install"; pm_cacheDir := "yarn cache dir";
         pm_lockFile := "yarn.lock";
         pm_easInstall := "yarn global add eas-cli@latest";
         pm_typecheck := "yarn tsc"; pm_lint := "yarn lint";
         pm_format := "yarn format:check"; pm_jest := "yarn test";
         pm_rntl := "yarn test:rntl"; pm_hooks := "yarn test:hooks" |}
  | npm =>
      {| pm_install := "npm install"; pm_cacheDir := "npm config get cache";
         pm_lockFile := "package-lock.json";
         pm_easInstall := "npm install -g eas-cli@latest";
         pm_typecheck := "npx tsc"; pm_lint := "npm run lint";
         pm_format := "npm run format:check"; pm_jest := "npm test";
         pm_rntl := "npm run test:rntl"; pm_hooks := "npm run test:hooks" |}
  | pnpm =>
      {| pm_install := "pnpm install"; pm_cacheDir := "pnpm store path";
         pm_lockFile := "pnpm-lock.yaml";
         pm_easInstall := "pnpm add -g eas-cli@latest";
         pm_typecheck := "pnpm exec tsc"; pm_lint := "pnpm run lint";
         pm_format := "pnpm run format:check"; pm_jest := "pnpm test";
         pm_rntl := "pnpm run test:rntl"; pm_hooks := "pnpm run test:hooks" |}
  end.

(** A step is an action invocation or a shell command, never both. *)
Definition usesStep (label uses : string) (params : list (string * string))
  : WorkflowStep :=
  {| step_name := Some label; step_run := None; step_uses := Some uses;
     step_id := None; step_if := None; step_with := params; step_env := [] |}.

Definition runStep (label run : string) : WorkflowStep :=
  {| step_name := Some label; step_run := Some run; step_uses := None;
     step_id := None; step_if := None; step_with := []; step_env := [] |}.

Definition withId (id : string) (s : WorkflowStep) : WorkflowStep :=
  {| step_name := step_name s; step_run := step_run s;
     step_uses := step_uses s; step_id := Some id; step_if := step_if s;
     step_with := step_with s; step_env := step_env s |}.

Definition withIf (cond : string) (s : WorkflowStep) : WorkflowStep :=
  {| step_name := step_name s; step_run := step_run s;
     step_uses := step_uses s; step_id := step_id s; step_if := Some cond;
     step_with := step_with s; step_env := step_env s |}.

Definition withEnv (env : list (string * string)) (s : WorkflowStep)
  : WorkflowStep :=
  {| step_name := step_name s; step_run := step_run s;
     step_uses := step_uses s; step_id := step_id s; step_if := step_if s;
     step_with := step_with s; step_env := env |}.

(** [l.includes(x)]. *)
Definition selected (x : string) (l : list string) : bool :=
  existsb (String.eqb x) l.

(** Modelled from the spec: the defaults of the missing generator, yarn
    and caching alone, for a configuration that leaves the package manager
    or the advanced options out. *)
Definition effectivePkgMgr (config : FormValues) : PackageManager :=
  default yarn (packageManager config).

Definition effectiveOptions (config : FormValues) : AdvancedOptions :=
  default baseAdvancedOptions (advancedOptions config).

(** Modelled from the spec: an entry of the environment block of the
    missing generator that passes a secret on under its own name. *)
Definition secret (n : string) : string * string :=
  (n, "${{ secrets." +:+ n +:+ " }}").

(** Modelled from the spec: the job-graph rule of the missing generator
    (section 4.1), the test job exists iff a test kind is selected or one
    of the three test flags is set. *)
Definition hasTestJob (config : FormValues) : bool :=
  let o := effectiveOptions config in
  Nat.ltb 0 (List.length (tests config))
  || jestTests o || rntlTests o || renderHookTests o.

(** Modelled from the spec: the job-graph rule of the missing generator
    (section 4.1), the build job is named by the storage type. *)
Definition buildJobName (config : FormValues) : string :=
  if bool_decide (storageType config = Some "github-release")
  then "build-and-release" else "build-and-deploy".

(** Modelled from the spec: the first steps of the test and build jobs of
    the missing generator; checkout, Node set-up and, gated by [caching],
    the cache-directory lookup and the cache restore keyed by the lock
    file (section 4.1, advanced-option rules). *)
Definition setupSteps (config : FormValues) : list WorkflowStep :=
  let p := effectivePkgMgr config in
  let t := pkgMgrCommands p in
  [ usesStep "Checkout repository" "actions/checkout@v4" [];
    usesStep "Setup Node.js" "actions/setup-node@v4"
      [("node-version", "20"); ("cache", pkgMgrName p)] ]
  ++ (if caching (effectiveOptions config)
      then [ withId (pkgMgrName p +:+ "-cache-dir-path")
               (runStep ("Get " +:+ pkgMgrName p +:+ " cache directory path")
                  ("echo dir=$(" +:+ pm_cacheDir t +:+ ") >> $GITHUB_OUTPUT"));
             usesStep ("Setup " +:+ pkgMgrName p +:+ " cache") "actions/cache@v3"
               [("path", "${{ steps." +:+ pkgMgrName p
                         +:+ "-cache-dir-path.outputs.dir }}");
                ("key", "${{ runner.os }}-" +:+ pkgMgrName p
                        +:+ "-${{ hashFiles('**/" +:+ pm_lockFile t +:+ "') }}")] ]
      else []).

(** Modelled from the spec: the check-skip job of the missing generator,
    guarded by the skip marker of the commit message. *)
Definition checkSkipJob : WorkflowJob :=
  {| job_steps :=
       Some [runStep "Skip CI check"
               ("echo " +:+ dquote +:+ "Proceeding with workflow" +:+ dquote)];
     job_needs := None;
     job_runs_on := Some "ubuntu-latest";
     job_if := Some "!contains(github.event.head_commit.message, '[skip ci]')";
     job_strategy := [] |}.

(** Modelled from the spec: the test job of the missing generator; the
    install step, one step for each selected test kind and one for each
    test flag, all through the command table, in rule-table order. *)
Definition testJob (config : FormValues) : WorkflowJob :=
  let t := pkgMgrCommands (effectivePkgMgr config) in
  let o := effectiveOptions config in
  {| job_steps :=
       Some (setupSteps config
             ++ [runStep "Install dependencies" (pm_install t)]
             ++ (if selected "typescript" (tests config)
                 then [runStep "Run TypeScript check" (pm_typecheck t)] else [])
             ++ (if selected "eslint" (tests config)
                 then [runStep "Run ESLint" (pm_lint t)] else [])
             ++ (if selected "prettier" (tests config)
                 then [runStep "Run Prettier check" (pm_format t)] else [])
             ++ (if jestTests o
                 then [runStep "Run Jest Tests" (pm_jest t)] else [])
             ++ (if rntlTests o
                 then [runStep "Run React Native Testing Library Tests"
                         (pm_rntl t)] else [])
             ++ (if renderHookTests o
                 then [runStep "Run renderHook Tests" (pm_hooks t)] else []));
     job_needs := Some (NeedsOne "check-skip");
     job_runs_on := Some "ubuntu-latest";
     job_if := None;
     job_strategy := [] |}.

(** Modelled from the spec: the build-type rules of the missing generator
    (section 4.1); label, profile, artifact and [NODE_ENV] of each build
    type, in rule-table order. *)
Definition buildRules : list (string * (string * string * string * string)) :=
  [ ("dev", ("Build Development APK", "development", "./app-dev.apk",
             "development"));
    ("prod-apk", ("Build Production APK", "production-apk", "./app-prod.apk",
                  "production"));
    ("prod-aab", ("Build Production AAB", "production", "./app-prod.aab",
                  "production")) ].

(** Modelled from the spec: the command of a build step of the missing
    generator, with the fixed memory limit, the profile and the artifact
    path. *)
Definition easBuild (platformName profile output : string) : string :=
  "export NODE_OPTIONS=" +:+ dquote
  +:+ "--openssl-legacy-provider --max_old_space_size=4096" +:+ dquote
  +:+ newline
  +:+ "eas build --platform " +:+ platformName +:+ " --profile " +:+ profile
  +:+ " --local --non-interactive --output=" +:+ output.

(** Modelled from the spec: the guard of the steps of one build type in
    the missing generator, as the sample output has it. *)
Definition buildTypeGuard (bt : string) : string :=
  "github.event.inputs.buildType == 'all' || github.event.inputs.buildType == '"
  +:+ bt +:+ "' || github.event_name == 'push'".

(** Modelled from the spec: one build step of the missing generator for
    each selected build type. *)
Definition buildSteps (config : FormValues) : list WorkflowStep :=
  flat_map
    (fun rule =>
       match rule with
       | (bt, (label, profile, output, nodeEnv)) =>
           if selected bt (buildTypes config)
           then [withEnv [("NODE_ENV", nodeEnv)]
                   (withIf (buildTypeGuard bt)
                      (runStep label (easBuild "android" profile output)))]
           else []
       end)
    buildRules.

(** Modelled from the spec: the iOS build steps of the missing generator,
    a development and a production one when the matching build types are
    selected. *)
Definition iosBuildSteps (config : FormValues) : list WorkflowStep :=
  if iOSSupport (effectiveOptions config)
  then (if selected "dev" (buildTypes config)
        then [withIf "matrix.platform == 'ios'"
                (runStep "Build iOS Development"
                   (easBuild "ios" "development" "./app-ios-dev.app"))]
        else [])
       ++ (if selected "prod-apk" (buildTypes config)
              || selected "prod-aab" (buildTypes config)
           then [withIf "matrix.platform == 'ios'"
                   (runStep "Build iOS Production"
                      (easBuild "ios" "production" "./app-ios-prod.ipa"))]
           else [])
  else [].

(** Modelled from the spec: the artifacts of the selected build types in
    the missing generator. *)
Definition artifacts (config : FormValues) : list (string * string) :=
  flat_map
    (fun rule =>
       match rule with
       | (bt, (_, _, output, _)) =>
           if selected bt (buildTypes config) then [(bt, output)] else []
       end)
    buildRules.

(** Modelled from the spec: the storage rules of the missing generator
    (section 4.1); a release step for github-release, the sync-tool
    set-up, its configuration and one upload per artifact for every other
    storage type. *)
Definition storageSteps (config : FormValues) : list WorkflowStep :=
  if bool_decide (storageType config = Some "github-release")
  then [usesStep "Create GitHub Release" "softprops/action-gh-release@v1"
          [("files", JS.join newline (artifacts config).*2)]]
  else [ usesStep "Setup rclone" "AnimMouse/setup-rclone@v1"
           [("version", "latest")];
         runStep "Configure cloud storage" "mkdir -p ~/.config/rclone" ]
       ++ ((fun a : string * string =>
              withIf (buildTypeGuard a.1)
                (runStep ("Upload " +:+ a.1 +:+ " build to cloud storage")
                   ("rclone copy " +:+ a.2 +:+ " cloud:builds -v")))
             <$> artifacts config).

(** Modelled from the spec: the publish and submit steps of the missing
    generator, gated on the manual trigger; the App Store step needs iOS
    support as well. *)
Definition publishSteps (config : FormValues) : list WorkflowStep :=
  let o := effectiveOptions config in
  let manual := "github.event_name == 'workflow_dispatch'" in
  (if publishToExpo o
   then [withIf manual (runStep "Publish to Expo" "eas update --auto")]
   else [])
  ++ (if publishToStores o
      then [withIf manual
              (runStep "Submit to Play Store"
                 "eas submit -p android --latest --non-interactive")]
           ++ (if iOSSupport o
               then [withIf manual
                       (runStep "Submit to App Store"
                          "eas submit -p ios --latest --non-interactive")]
               else [])
      else []).

(** Modelled from the spec: the notification rule of the missing
    generator (section 4.1); Slack, Discord or both by the channel, both
    when the channel is left out. *)
Definition notifiesSlack (o : AdvancedOptions) : bool :=
  match default both (notificationType o) with
  | discord => false
  | _ => true
  end.

(** Modelled from the spec: the Discord half of the same rule. *)
Definition notifiesDiscord (o : AdvancedOptions) : bool :=
  match default both (notificationType o) with
  | slack => false
  | _ => true
  end.

(** Modelled from the spec: the notification steps of the missing
    generator, absent when [notifications] is off. *)
Definition notificationSteps (config : FormValues) : list WorkflowStep :=
  let o := effectiveOptions config in
  if notifications o
  then
    (if notifiesSlack o
     then [usesStep "Notify Slack" "rtCamp/action-slack-notify@v2" []]
     else [])
    ++ (if notifiesDiscord o
        then [usesStep "Notify Discord" "Ilshidur/action-discord@0.3.2" []]
        else [])
  else [].

(** Modelled from the spec: the build job of the missing generator; it
    needs the test job when there is one and check-skip otherwise, and
    runs on a platform matrix under iOS support. *)
Definition buildJob (config : FormValues) : WorkflowJob :=
  let t := pkgMgrCommands (effectivePkgMgr config) in
  let ios := iOSSupport (effectiveOptions config) in
  {| job_steps :=
       Some (setupSteps config
             ++ [ runStep "Install dependencies"
                    (pm_install t +:+ newline +:+ pm_easInstall t);
                  usesStep "Setup EAS build cache" "actions/cache@v3"
                    [("path", "~/.eas-build-local");
                     ("key", "${{ runner.os }}-eas-build-local-${{ hashFiles('**/package.json') }}")];
                  runStep "Verify EAS CLI installation" "eas --version";
                  runStep "Fix package.json main entry"
                    "jq '.main = node_modules/expo/AppEntry.js' package.json";
                  runStep "Update metro.config.js for SVG support"
                    "cp ./metro.config.js ./metro.config.js.backup" ]
             ++ buildSteps config
             ++ iosBuildSteps config
             ++ storageSteps config
             ++ [usesStep "Upload build artifacts to GitHub"
                   "actions/upload-artifact@v4"
                   [("name", "app-builds");
                    ("path", JS.join newline (artifacts config).*2);
                    ("retention-days", "7")]]
             ++ publishSteps config
             ++ notificationSteps config);
     job_needs :=
       Some (NeedsOne (if hasTestJob config then "test" else "check-skip"));
     job_runs_on :=
       Some (if ios
             then "${{ matrix.platform == 'ios' && 'macos-latest' || 'ubuntu-latest' }}"
             else "ubuntu-latest");
     job_if := None;
     job_strategy := if ios then [("platform", ["android"; "ios"])] else [] |}.

(** Modelled from the spec: the trigger rules of the missing generator
    (section 4.1). *)
Definition triggerSection (config : FormValues)
  : list (string * list (string * list string)) :=
  let pathsIgnore :=
    ["**.md"; "LICENSE"; ".github/ISSUE_TEMPLATE/**";
     ".github/PULL_REQUEST_TEMPLATE.md"; "docs/**"] in
  (if selected "push-main" (triggers config)
   then [("push", [("branches", ["main"; "master"]);
                   ("paths-ignore", pathsIgnore)])]
   else [])
  ++ (if selected "pull-request" (triggers config)
      then [("pull_request", [("branches", ["main"; "master"]);
                              ("paths-ignore", pathsIgnore)])]
      else [])
  ++ (if selected "manual" (triggers config)
      then [("workflow_dispatch",
             [("buildType", (artifacts config).*1 ++ ["all"])]
             ++ (if iOSSupport (effectiveOptions config)
                 then [("platform", ["android"; "ios"])] else []))]
      else []).

(** Modelled from the spec: the environment and secrets contract of the
    missing generator (section 6). *)
Definition envSection (config : FormValues) : list (string * string) :=
  let o := effectiveOptions config in
  [secret "EXPO_TOKEN"]
  ++ (match storageType config with
      | Some "github-release" => [secret "GITHUB_TOKEN"]
      | Some "zoho-drive" =>
          [secret "RCLONE_CONFIG_ZOHODRIVE_TYPE";
           secret "RCLONE_CONFIG_ZOHODRIVE_TOKEN";
           secret "RCLONE_CONFIG_ZOHODRIVE_DRIVE_ID"]
      | Some "google-drive" =>
          [secret "RCLONE_CONFIG_GDRIVE_TYPE";
           secret "RCLONE_CONFIG_GDRIVE_TOKEN";
           secret "RCLONE_CONFIG_GDRIVE_ROOT_FOLDER_ID"]
      | Some "custom" =>
          [secret "CLOUD_STORAGE_TYPE"; secret "CLOUD_STORAGE_TOKEN";
           secret "CLOUD_STORAGE_ROOT_ID"]
      | _ => []
      end)
  ++ (if iOSSupport o
      then [secret "EXPO_APPLE_ID"; secret "EXPO_APPLE_PASSWORD";
            secret "EXPO_TEAM_ID"]
      else [])
  ++ (if publishToStores o then [secret "GOOGLE_PLAY_SERVICE_ACCOUNT"] else [])
  ++ (if notifications o
      then (if notifiesSlack o then [secret "SLACK_WEBHOOK"] else [])
           ++ (if notifiesDiscord o then [secret "DISCORD_WEBHOOK"] else [])
      else [])
  ++ [("NODE_OPTIONS", "--openssl-legacy-provider")].

(** Modelled from the spec: [generateWorkflowYaml]
    ([webapp/app/utils/workflowGenerator.ts], missing from the tree), as
    the document that [yaml.load] reads back from the generated text; the
    check-skip job, the test job when it exists, the build job, in this
    order. *)
Definition generateWorkflowYaml (config : FormValues) : WorkflowYaml :=
  {| wf_name := Some "React Native CI/CD";
     wf_on := triggerSection config;
     wf_env := envSection config;
     wf_jobs :=
       Some ([("check-skip", checkSkipJob)]
             ++ (if hasTestJob config then [("test", testJob config)] else [])
             ++ [(buildJobName config, buildJob config)]) |}.

(** The parse of the generated text, as the extractors receive it. *)
Definition loadGenerated (config : FormValues) : option WorkflowYaml :=
  Some (generateWorkflowYaml config).

(** [makeConfig] of the extractor's tests: the base configuration under a
    storage type, a package manager, test kinds and advanced options. *)
Definition makeConfig (storage : string) (p : PackageManager)
    (ts : list string) (o : AdvancedOptions) : FormValues :=
  baseConfig
    {| o_storageType := Some storage; o_buildTypes := None;
       o_tests := Some ts; o_triggers := None; o_packageManager := Some p;
       o_advancedOptions := Some o |}.

Definition allTestOptions : AdvancedOptions :=
  {| iOSSupport := false; publishToExpo := false; publishToStores := false;
     jestTests := true; rntlTests := true; renderHookTests := true;
     caching := true; notifications := false; notificationType := None |}.


(** ** Vocabulary of the properties *)

Definition NightlyCandidate : Type :=
  PackageManager * list string * JestCombo * bool.

(** The configurations the loops visit, in the order they visit them. *)
Definition nightlyCandidates : list NightlyCandidate :=
  pkgMgr ← [yarn; npm];
  tests ← allTestSubsets;
  jestCombo ← allJestCombinations;
  caching ← cachingOptions tests jestCombo;
  [(pkgMgr, tests, jestCombo, caching)].

(** The entry pushed for a candidate that is kept. *)
Definition nightlyEntry (cand : NightlyCandidate) : MatrixEntry :=
  match cand with
  | (pkgMgr, tests, jestCombo, caching) =>
      {| name := nightlyName pkgMgr tests jestCombo caching;
         config := nightlyConfig pkgMgr tests jestCombo caching;
         fixture := fixtureForPkgMgr (Some pkgMgr) |}
  end.

Section NightlyPass.

Variable loadWorkflow : FormValues -> option WorkflowYaml.

(** One iteration of the innermost loop, on the candidate it visits. *)
Definition nightlyStep (st : NightlyState) (cand : NightlyCandidate)
  : NightlyState :=
  match cand with
  | (pkgMgr, tests, jestCombo, caching) =>
      nightlyBody loadWorkflow pkgMgr tests jestCombo st caching
  end.

(** The signature of an entry's configuration. *)
Definition sigOf (e : MatrixEntry) : string :=
  commandSignature loadWorkflow (config e).

(** Every entry's signature is in [seen], and no signature is there
    twice. *)
Definition sigInvariant (st : NightlyState) : Prop :=
  NoDup (sigOf <$> st.2) ∧ ∀ e, e ∈ st.2 → sigOf e ∈ st.1.

End NightlyPass.

(** The fixture of an entry is the one of its configuration's package
    manager. *)
Definition fixtureBound (e : MatrixEntry) : Prop :=
  fixture e = fixtureForPkgMgr (packageManager (config e)).

#[global] Instance fixtureBound_dec e : Decision (fixtureBound e).
Proof. unfold fixtureBound. apply _. Defined.

(** The job identifiers of a document, in order. *)
Definition jobIds (doc : WorkflowYaml) : list string :=
  (default [] (wf_jobs doc)).*1.

(** The build job of a document, found the way [extractBuildJobCommands]
    finds it. *)
Definition buildJobOf (doc : WorkflowYaml) : option WorkflowJob :=
  jobs ← wf_jobs doc;
  buildJobName ← find (fun id => JS.startsWith id "build-and-") jobs.*1;
  jobLookup buildJobName jobs.

(** The test job of the document compiled for a configuration, found the
    way [extractTestJobCommands] finds it. *)
Definition testJobOf (loadWorkflow : FormValues -> option WorkflowYaml)
    (config : FormValues) : option WorkflowJob :=
  parsed ← loadWorkflow config;
  jobs ← wf_jobs parsed;
  jobLookup "test" jobs.

(** One of the three test flags of the configuration is set. *)
Definition anyTestFlag (config : FormValues) : Prop :=
  ∃ o, advancedOptions config = Some o
       ∧ (jestTests o = true ∨ rntlTests o = true ∨ renderHookTests o = true).

(** The configuration [c] with its [storageType] replaced by [s]. *)
Definition setStorageType (s : option string) (c : FormValues) : FormValues :=
  {| projectName := projectName c; expoVersion := expoVersion c;
     packageManager := packageManager c; storageType := s;
     platform := platform c; buildType := buildType c;
     nodeVersion := nodeVersion c; expoCli := expoCli c; eas := eas c;
     reactNativeCli := reactNativeCli c; fastlane := fastlane c;
     workflow := workflow c; buildTypes := buildTypes c; tests := tests c;
     triggers := triggers c; advancedOptions := advancedOptions c |}.

(** The steps of the test job of a configuration. *)
Definition testSteps (config : FormValues) : list WorkflowStep :=
  default [] (job_steps (testJob config)).

(** ** Vocabulary of the further properties *)

(** A line terminator (LF, CR, U+2028 or U+2029) starts somewhere in
    [s]. *)
Fixpoint hasLineTerminator (s : string) : bool :=
  match s with
  | EmptyString => false
  | String _ s' => JS.startsWithLineTerminator s || hasLineTerminator s'
  end.

(** The key [commandSignature] sorts a command under. *)
Definition signatureKey (c : ExtractedCommand) : string :=
  categoryName (category c) +:+ ":" +:+ JS.trim (command c).

(** What the extractors promise of a command: it is the non-empty [run] of
    a step, its flag is the one of its text, and its category and label
    come from one step label. *)
Definition extractedFrom (c : ExtractedCommand) : Prop :=
  JS.truthy (command c) = true
  ∧ JS.truthy (stepName c) = true
  ∧ hasGHAExpressions_flag c = hasGHAExpressions (command c)
  ∧ ∃ label : option string,
      stepName c = JS.orElse label "unnamed"
      ∧ category c = categorizeCommand (JS.orElse label EmptyString) (command c).

(** The order [sort] sorts by. *)
Definition stringLe (s1 s2 : string) : Prop := String.leb s1 s2 = true.

(** The test of the build loop, negated: the category is neither [build]
    nor [other]. *)
Definition neitherBuildNorOther (c : ExtractedCommand) : bool :=
  negb (bool_decide (category c = build) || bool_decide (category c = other)).

(** A document with a test job of the given steps and nothing else, and
    the compiler that yields it for every configuration. *)
Definition testOnlyDocument (steps : list WorkflowStep) : WorkflowYaml :=
  {| wf_name := Some "sample"; wf_on := []; wf_env := [];
     wf_jobs :=
       Some [("test",
              {| job_steps := Some steps; job_needs := None;
                 job_runs_on := Some "ubuntu-latest"; job_if := None;
                 job_strategy := [] |})] |}.

Definition constantWorkflow (doc : WorkflowYaml)
  : FormValues -> option WorkflowYaml :=
  fun _ => Some doc.

(** Every signature in [seen] is the signature of an entry. *)
Definition seenCovered (loadWorkflow : FormValues -> option WorkflowYaml)
    (st : NightlyState) : Prop :=
  ∀ s, s ∈ st.1 → ∃ e, e ∈ st.2 ∧ sigOf loadWorkflow e = s.

(** The first candidate the nightly loops visit: yarn, no test kind, no
    test flag, caching on. *)
Definition firstNightlyCandidate : NightlyCandidate :=
  (yarn, [],
   {| combo_jestTests := false; combo_rntlTests := false;
      combo_renderHookTests := false |},
   true).

(** The fields of a configuration that the nightly loops never vary. *)
Definition nightlyFixedFields (c : FormValues) : Prop :=
  storageType c = Some "github-release"
  ∧ buildTypes c = ["dev"]
  ∧ triggers c = ["push-main"]
  ∧ (packageManager c = Some yarn ∨ packageManager c = Some npm)
  ∧ ∃ o, advancedOptions c = Some o
         ∧ iOSSupport o = false ∧ publishToExpo o = false
         ∧ publishToStores o = false ∧ notifications o = false.

(** ** The command runner, continued ([integration-runner.ts]) *)

Record RunnerOptions := {
  fixtureDir : string;
  continueOnError : option bool;
  timeout : option Z;
  skipBuild : option bool;
  verbose : option bool
}.

Definition SKIP_CATEGORIES : list Category := [build].

(** What a call of [execSync] comes to: the output of the command, or an
    error thrown with the fields [status], [stdout] and [stderr] it may
    have. *)
Inductive ExecOutcome :=
  | Returned (output : string)
  | Threw (status : option Z) (out err : option string).

(** [execErr.status || 1]: an absent status and the status 0 count as 1. *)
Definition thrownExitCode (status : option Z) : Z :=
  match status with
  | Some n => if Z.eqb n 0 then 1%Z else n
  | None => 1%Z
  end.

(** The result pushed for a command that is not run. *)
Definition skippedResult (cmd : ExtractedCommand) (reason : string)
  : CommandResult :=
  {| res_stepName := stepName cmd; res_command := command cmd;
     res_category := category cmd; exitCode := 0; stdout := EmptyString;
     stderr := EmptyString; durationMs := 0; skipped := true;
     skipReason := Some reason |}.

Section Runner.

(** The world outside: processes, files and the clock.  [execSync] gets
    the command, the working directory and the time limit (its environment
    is fixed by the source); [dateNow] is [Date.now()]; [makeTempFiles] is
    the creation of the temporary directory and its three files,
    [removeTempFiles] its removal, whose errors the source ignores.  Lines
    written to the console are left out. *)
Context {World : Type}.
Variable execSync : string → string → Z → World → ExecOutcome * World.
Variable dateNow : World → Z * World.
Variable makeTempFiles : World → World.
Variable removeTempFiles : World → World.
Variable pathResolve : string → string.
Variable jsonStringify : string → string.

(** The loop of [runCommands] (lines 49-146) from a given command on;
    [results] is the array being filled, and [break] ends the loop. *)
Fixpoint runLoop (options : RunnerOptions) (dir : string) (limit : Z)
    (commands : list ExtractedCommand) (results : list CommandResult)
    (w : World) : list CommandResult * World :=
  match commands with
  | [] => (results, w)
  | cmd :: rest =>
      if truthyFlag (skipBuild options)
         && bool_decide (category cmd ∈ SKIP_CATEGORIES)
      then runLoop options dir limit rest
             (results
              ++ [skippedResult cmd "build commands skipped (--skip-build)"])
             w
      else if hasGHAExpressions_flag cmd
      then runLoop options dir limit rest
             (results
              ++ [skippedResult cmd "contains GitHub Actions expressions"])
             w
      else
        let (start, w1) := dateNow w in
        let execCommand :=
          if JS.includes (command cmd) newline
          then "bash -c " +:+ jsonStringify (command cmd)
          else command cmd in
        let (outcome, w2) := execSync execCommand dir limit w1 in
        let code :=
          match outcome with
          | Returned _ => 0%Z
          | Threw status _ _ => thrownExitCode status
          end in
        let out :=
          match outcome with
          | Returned output => output
          | Threw _ o _ => JS.orElse o EmptyString
          end in
        let err :=
          match outcome with
          | Returned _ => EmptyString
          | Threw _ _ e => JS.orElse e EmptyString
          end in
        let (finish, w3) := dateNow w2 in
        let results' :=
          results
          ++ [{| res_stepName := stepName cmd; res_command := command cmd;
                 res_category := category cmd; exitCode := code;
                 stdout := out; stderr := err;
                 durationMs := finish - start; skipped := false;
                 skipReason := None |}] in
        if negb (Z.eqb code 0) && negb (truthyFlag (continueOnError options))
        then (results', w3)
        else runLoop options dir limit rest results' w3
  end.

(** [runCommands] (lines 32-156). *)
Definition runCommands (commands : list ExtractedCommand)
    (options : RunnerOptions) (w : World) : list CommandResult * World :=
  let dir := pathResolve (fixtureDir options) in
  let limit :=
    match timeout options with
    | Some t => if Z.eqb t 0 then 120000%Z else t
    | None => 120000%Z
    end in
  let (results, w') :=
    runLoop options dir limit commands [] (makeTempFiles w) in
  (results, removeTempFiles w').

End Runner.

(** The label [printResults] prints for a result (lines 172-179). *)
Inductive Status := SKIP | PASS | FAIL.

#[global] Instance Status_eq_dec : EqDecision Status.
Proof. solve_decision. Defined.

Definition resultStatus (r : CommandResult) : Status :=
  if skipped r then SKIP
  else if Z.eqb (exitCode r) 0 then PASS
  else FAIL.

(** The three counters of the summary line of [printResults]
    (lines 197-199). *)
Definition passedCount (results : list CommandResult) : nat :=
  List.length
    (List.filter (fun r => negb (skipped r) && Z.eqb (exitCode r) 0) results).

Definition failedCount (results : list CommandResult) : nat :=
  List.length
    (List.filter (fun r => negb (skipped r) && negb (Z.eqb (exitCode r) 0))
       results).

Definition skippedCount (results : list CommandResult) : nat :=
  List.length (List.filter (fun r => skipped r) results).

(** What a result keeps of its command. *)
Definition resultOrigin (r : CommandResult) : string * string * Category :=
  (res_stepName r, res_command r, res_category r).

Definition commandOrigin (c : ExtractedCommand) : string * string * Category :=
  (stepName c, command c, category c).

(** The commands [runCommands] does not run. *)
Definition notRun (options : RunnerOptions) (cmd : ExtractedCommand) : bool :=
  (truthyFlag (skipBuild options) && bool_decide (category cmd = build))
  || hasGHAExpressions_flag cmd.

(** A result of a command that was run and failed. *)
Definition failedResult (r : CommandResult) : bool :=
  negb (skipped r) && negb (Z.eqb (exitCode r) 0).

(** A world without state, in which the command [yarn tsc] fails with
    status 2 and every other command succeeds, for the examples of the
    runner. *)
Definition sampleExec (cmd dir : string) (limit : Z) (w : unit)
  : ExecOutcome * unit :=
  (if String.eqb cmd "yarn tsc" then Threw (Some 2%Z) None (Some "error TS")
   else Returned "ok", w).

Definition sampleClock (w : unit) : Z * unit := (0%Z, w).

Definition sampleRun (commands : list ExtractedCommand)
    (options : RunnerOptions) : list CommandResult :=
  (runCommands sampleExec sampleClock id id id id commands options tt).1.

Definition sampleCommands : list ExtractedCommand :=
  [ {| stepName := "Install dependencies"; command := "yarn install";
       category := install; hasGHAExpressions_flag := false |};
    {| stepName := "Run TypeScript check"; command := "yarn tsc";
       category := typecheck; hasGHAExpressions_flag := false |};
    {| stepName := "Run ESLint"; command := "yarn lint";
       category := lint; hasGHAExpressions_flag := false |} ].

Definition stopOnError : RunnerOptions :=
  {| fixtureDir := "fixtures/yarn-app"; continueOnError := None;
     timeout := None; skipBuild := Some true; verbose := None |}.

(** ** The community runner ([community-runner.ts]) *)

(** [buildConfigForRepo] (lines 36-70): the checks whose script the
    repository has.  The parameter is annotated ["yarn" | "npm"]. *)
Definition buildConfigForRepo (scripts : gset string)
    (packageManager : PackageManager) : FormValues :=
  let tests := [] in
  let tests :=
    if bool_decide ("lint" ∈ scripts) then tests ++ ["eslint"] else tests in
  let tests :=
    if bool_decide ("format:check" ∈ scripts) then tests ++ ["prettier"]
    else tests in
  {| projectName := None; expoVersion := None;
     packageManager := Some packageManager;
     storageType := Some "github-release";
     platform := None; buildType := None; nodeVersion := None;
     expoCli := None; eas := None; reactNativeCli := None;
     fastlane := None; workflow := None;
     buildTypes := ["dev"];
     tests := tests;
     triggers := ["push-main"];
     advancedOptions :=
       Some {| iOSSupport := false; publishToExpo := false;
               publishToStores := false;
               jestTests := bool_decide ("test" ∈ scripts);
               rntlTests := bool_decide ("test:rntl" ∈ scripts);
               renderHookTests := bool_decide ("test:hooks" ∈ scripts);
               caching := true; notifications := false;
               notificationType := None |} |}.

(** [scriptMap] of [filterForAvailableScripts]: the script a category
    needs, a record used as a map from the name of the category. *)
Definition scriptMap : gmap string string :=
  {[ "lint" := "lint"; "format" := "format:check"; "jest" := "test";
     "rntl" := "test:rntl"; "hooks" := "test:hooks" ]}.

Section CommunityRunner.

(** [fs.existsSync] and [path.join]. *)
Variable existsSync : string → bool.
Variable pathJoin : string → string → string.

(** The test of the filter of [filterForAvailableScripts]
    (lines 80-106). *)
Definition scriptAvailable (scripts : gset string) (repoDir : string)
    (cmd : ExtractedCommand) : bool :=
  if bool_decide (category cmd = install)
     || bool_decide (category cmd = cache_dir)
  then true
  else if bool_decide (category cmd = typecheck)
  then existsSync (pathJoin repoDir "tsconfig.json")
  else
    match scriptMap !! categoryName (category cmd) with
    | Some requiredScript =>
        if JS.truthy requiredScript
        then bool_decide (requiredScript ∈ scripts)
        else true
    | None => true
    end.

(** [filterForAvailableScripts] (lines 75-107). *)
Definition filterForAvailableScripts (commands : list ExtractedCommand)
    (scripts : gset string) (repoDir : string) : list ExtractedCommand :=
  List.filter (scriptAvailable scripts repoDir) commands.

End CommunityRunner.

(** The script a category needs, if any, as the source lists them. *)
Definition requiredScriptOf (c : Category) : option string :=
  match c with
  | lint => Some "lint"
  | format => Some "format:check"
  | jest => Some "test"
  | rntl => Some "test:rntl"
  | hooks => Some "test:hooks"
  | _ => None
  end.

(** ** Running one entry of a matrix ([run-single.ts]) *)

(** [program.opts()]: [configIndex] is what [parseInt] made of the
    argument, [None] standing for [NaN]; the four flags are booleans with
    a default. *)
Record SingleOptions := {
  opt_matrixFile : string;
  opt_configIndex : option Z;
  opt_fixtureDir : string;
  opt_skipBuild : bool;
  opt_continueOnError : bool;
  opt_verbose : bool;
  opt_includeBuildJob : bool
}.

(** How the script ends: [process.exit(code)], or an exception nobody
    catches. *)
Inductive ProcessEnd :=
  | Exit (code : Z)
  | Uncaught.

Section RunSingle.

Context {World : Type}.
Variable loadWorkflow : FormValues -> option WorkflowYaml.
Variable execSync : string → string → Z → World → ExecOutcome * World.
Variable dateNow : World → Z * World.
Variable makeTempFiles : World → World.
Variable removeTempFiles : World → World.
Variable pathResolve : string → string.
Variable jsonStringify : string → string.

(** [fs.existsSync]; [JSON.parse(fs.readFileSync(file, "utf-8"))], [None]
    when it throws; [path.resolve] with two arguments; and
    [path.resolve(__dirname, "..")]. *)
Variable existsSync : string → World → bool.
Variable readMatrix : string → World → option (list MatrixEntry).
Variable pathResolve2 : string → string → string.
Variable integrationDir : string.

(** The commands of an entry (lines 75-80). *)
Definition singleCommands (includeBuildJob : bool) (config : FormValues)
  : list ExtractedCommand :=
  let commands := extractTestJobCommands loadWorkflow config in
  if includeBuildJob
  then commands ++ extractBuildJobCommands loadWorkflow config None
  else commands.

(** The options handed to [runCommands] (lines 88-93). *)
Definition singleRunnerOptions (opts : SingleOptions) : RunnerOptions :=
  {| fixtureDir := pathResolve2 integrationDir (opt_fixtureDir opts);
     continueOnError := Some (opt_continueOnError opts);
     timeout := None;
     skipBuild := Some (opt_skipBuild opts);
     verbose := Some (opt_verbose opts) |}.

(** The script (lines 37-99).  With [NaN] both comparisons of line 61 are
    false and [matrix[index]] is [undefined], so that [entry.name] throws;
    lines written to the console are left out. *)
Definition runSingle (opts : SingleOptions) (w : World) : ProcessEnd * World :=
  let matrixFile := pathResolve2 integrationDir (opt_matrixFile opts) in
  let fixtureDir := pathResolve2 integrationDir (opt_fixtureDir opts) in
  if negb (existsSync matrixFile w) then (Exit 1, w)
  else if negb (existsSync fixtureDir w) then (Exit 1, w)
  else
    match readMatrix matrixFile w with
    | None => (Uncaught, w)
    | Some matrix =>
        match opt_configIndex opts with
        | None => (Uncaught, w)
        | Some index =>
            if Z.ltb index 0 || Z.leb (Z.of_nat (List.length matrix)) index
            then (Exit 1, w)
            else
              match matrix !! Z.to_nat index with
              | None => (Uncaught, w)
              | Some entry =>
                  let commands :=
                    singleCommands (opt_includeBuildJob opts) (config entry) in
                  let (results, w') :=
                    runCommands execSync dateNow makeTempFiles removeTempFiles
                      pathResolve jsonStringify commands
                      (singleRunnerOptions opts) w in
                  (Exit (if allPassed results then 0 else 1), w')
              end
        end
    end.

End RunSingle.

(** A world for the examples: every file exists, the matrix file holds
    one entry, and the compiler yields a test job with one step. *)
Definition sampleMatrix : list MatrixEntry :=
  [ {| name := "yarn-no-tests"; config := baseConfig noOverrides;
       fixture := yarn_app |} ].

Definition sampleLoad : FormValues -> option WorkflowYaml :=
  constantWorkflow
    (testOnlyDocument
       [ {| step_name := Some "Install dependencies"; step_id := None;
            step_uses := None; step_run := Some "yarn install";
            step_if := None; step_with := []; step_env := [] |} ]).

Definition sampleExists (file : string) (w : unit) : bool := true.

Definition sampleRead (file : string) (w : unit) : option (list MatrixEntry) :=
  Some sampleMatrix.

Definition sampleResolve (dir file : string) : string := file.

Definition sampleSingle (opts : SingleOptions) : ProcessEnd * unit :=
  runSingle sampleLoad sampleExec sampleClock id id id id
    sampleExists sampleRead sampleResolve "/repo/integration-tests" opts tt.

Definition sampleSingleOptions (index : option Z) : SingleOptions :=
  {| opt_matrixFile := "configs/pr-matrix.json"; opt_configIndex := index;
     opt_fixtureDir := "fixtures/yarn-app"; opt_skipBuild := true;
     opt_continueOnError := false; opt_verbose := false;
     opt_includeBuildJob := false |}.

(** ** The workflow tester ([workflowTester.ts]) *)

Module JSText.

(** [s.split(sep)] for a separator of one character. *)
Fixpoint split (sep : ascii) (s : string) : list string :=
  match s with
  | EmptyString => [EmptyString]
  | String c s' =>
      if Ascii.eqb c sep then EmptyString :: split sep s'
      else match split sep s' with
           | l :: ls => String c l :: ls
           | [] => [String c EmptyString]
           end
  end.

(** [s] without its first [n] characters. *)
Fixpoint dropChars (n : nat) (s : string) : string :=
  match n, s with
  | S n', String _ s' => dropChars n' s'
  | _, _ => s
  end.

(** [s.replace(pat, rep)] for a pattern that is a string, and a
    replacement without [$]: the first occurrence only. *)
Fixpoint replace (pat rep s : string) : string :=
  if String.prefix pat s then rep +:+ dropChars (String.length pat) s
  else match s with
       | EmptyString => EmptyString
       | String c s' => String c (replace pat rep s')
       end.

(** A count in a template literal: its decimal digits. *)
Definition numberToString (n : nat) : string :=
  NilEmpty.string_of_uint (Nat.to_uint n).

(** An optional string in a template literal. *)
Definition template (o : option string) : string :=
  match o with
  | Some s => s
  | None => "undefined"
  end.

End JSText.

(** [validCombinations] (lines 8-20). *)
Module validCombinations.

Definition names : list string := ["TestApp"; "ExpoProject"].
Definition expoVersions : list string := ["52"; "53"; "54"].
Definition storageTypes : list string :=
  ["github-release"; "zoho-drive"; "google-drive"; "custom"].
Definition platforms : list string := ["android"; "ios"].
Definition buildTypes : list string := ["dev"; "prod-apk"; "prod-aab"].
Definition nodeVersions : list string := ["18"; "20"].
Definition expoCliTypes : list string := ["classic"; "modern"].
Definition reactNativeCliOptions : list string := ["true"; "false"].
Definition fastlaneOptions : list string := ["true"; "false"].
Definition workflowTypes : list string :=
  ["manual"; "push-main"; "pull-request"].
Definition easOptions : list string := ["true"; "false"].

End validCombinations.

(** The variables of the eleven loops of [generateAllWorkflows]. *)
Record Combination := {
  c_name : string;
  c_expoVersion : string;
  c_storageType : string;
  c_platform : string;
  c_buildType : string;
  c_nodeVersion : string;
  c_expoCli : string;
  c_reactNativeCli : string;
  c_fastlane : string;
  c_workflow : string;
  c_eas : string
}.

(** The combinations in the order the loops visit them (lines 40-50). *)
Definition allCombinations : list Combination :=
  name ← validCombinations.names;
  expoVersion ← validCombinations.expoVersions;
  storageType ← validCombinations.storageTypes;
  platform ← validCombinations.platforms;
  buildType ← validCombinations.buildTypes;
  nodeVersion ← validCombinations.nodeVersions;
  expoCli ← validCombinations.expoCliTypes;
  reactNativeCli ← validCombinations.reactNativeCliOptions;
  fastlane ← validCombinations.fastlaneOptions;
  workflow ← validCombinations.workflowTypes;
  eas ← validCombinations.easOptions;
  [ {| c_name := name; c_expoVersion := expoVersion;
       c_storageType := storageType; c_platform := platform;
       c_buildType := buildType; c_nodeVersion := nodeVersion;
       c_expoCli := expoCli; c_reactNativeCli := reactNativeCli;
       c_fastlane := fastlane; c_workflow := workflow; c_eas := eas |} ].

(** [formValues] (lines 56-72). *)
Definition combinationValues (c : Combination) : FormValues :=
  {| projectName := Some (c_name c);
     expoVersion := Some (c_expoVersion c);
     packageManager := None;
     storageType := Some (c_storageType c);
     platform := Some (c_platform c);
     buildType := Some (c_buildType c);
     nodeVersion := Some (c_nodeVersion c);
     expoCli := Some (c_expoCli c);
     eas := Some (c_eas c);
     reactNativeCli := Some (c_reactNativeCli c);
     fastlane := Some (c_fastlane c);
     workflow := Some (c_workflow c);
     buildTypes := [c_buildType c];
     tests := ["typescript"; "eslint"];
     triggers := [c_workflow c];
     advancedOptions := None |}.

(** The file name of line 78. *)
Definition combinationFileName (c : Combination) (count : nat) : string :=
  "workflow_" +:+ c_name c +:+ "_" +:+ c_platform c +:+ "_"
  +:+ c_buildType c +:+ "_" +:+ c_expoCli c +:+ "_" +:+ c_storageType c
  +:+ "_" +:+ JSText.numberToString count +:+ ".yml".

(** The file name of line 121. *)
Definition specificFileName (config : FormValues) : string :=
  "workflow_" +:+ JS.orElse (projectName config) "test" +:+ "_"
  +:+ JSText.template (platform config) +:+ "_"
  +:+ JSText.template (buildType config) +:+ "_"
  +:+ JSText.template (expoCli config) +:+ "_"
  +:+ JSText.template (storageType config) +:+ ".yml".

(** [limit && count >= limit] (line 52), for a limit that is an integer:
    the limit 0 is no limit. *)
Definition limitReached (limit : option Z) (count : nat) : bool :=
  match limit with
  | Some l => negb (Z.eqb l 0) && Z.leb l (Z.of_nat count)
  | None => false
  end.

(** The configuration an entry of the manifest gives (lines 148-155);
    [None] is [undefined]. *)
Record ManifestConfiguration := {
  cfg_name : option string;
  cfg_platform : option string;
  cfg_buildType : option string;
  cfg_expoCli : option string;
  cfg_storageType : option string;
  cfg_index : option string
}.

Record ManifestEntry := {
  m_path : string;
  m_filename : string;
  m_configuration : ManifestConfiguration
}.

Section WorkflowTester.

(** The compiler, here with the text it returns, and the functions of
    [path]; the files are a map from paths to contents, directories are
    left out. *)
Variable generateYaml : FormValues → string.
Variable pathResolve : string → string.
Variable pathJoin : string → string → string.
Variable pathBasename : string → string.
Variable jsonStringifyManifest : list ManifestEntry → string.

(** The loops of [generateAllWorkflows] from a given combination on
    (lines 40-98); [return] ends them. *)
Fixpoint allLoop (limit : option Z) (dir : string)
    (combinations : list Combination) (count : nat)
    (filePaths : list string) (files : gmap string string)
  : list string * gmap string string :=
  match combinations with
  | [] => (filePaths, files)
  | c :: rest =>
      if limitReached limit count then (filePaths, files)
      else
        let yamlContent := generateYaml (combinationValues c) in
        let filename := combinationFileName c count in
        let filePath := pathJoin dir filename in
        allLoop limit dir rest (S count) (filePaths ++ [filePath])
          (<[filePath := yamlContent]> files)
  end.

(** [generateAllWorkflows] (lines 27-101). *)
Definition generateAllWorkflows (outputDir : string) (limit : option Z)
    (files : gmap string string) : list string * gmap string string :=
  let exampleWorkflowsDir := pathResolve outputDir in
  allLoop limit exampleWorkflowsDir allCombinations 0 [] files.

(** [generateSpecificWorkflow] (lines 108-128). *)
Definition generateSpecificWorkflow (config : FormValues)
    (outputDir : string) (files : gmap string string)
  : string * gmap string string :=
  let exampleWorkflowsDir := pathResolve outputDir in
  let yamlContent := generateYaml config in
  let filename := specificFileName config in
  let filePath := pathJoin exampleWorkflowsDir filename in
  (filePath, <[filePath := yamlContent]> files).

(** An entry of the manifest (lines 139-157). *)
Definition manifestEntry (filePath : string) : ManifestEntry :=
  let filename := pathBasename filePath in
  let parts :=
    JSText.split "_" (JSText.replace ".yml" EmptyString filename) in
  {| m_path := filePath;
     m_filename := filename;
     m_configuration :=
       {| cfg_name := parts !! 1%nat;
          cfg_platform := parts !! 2%nat;
          cfg_buildType := parts !! 3%nat;
          cfg_expoCli := parts !! 4%nat;
          cfg_storageType := parts !! 5%nat;
          cfg_index := parts !! 6%nat |} |}.

(** [generateWorkflowManifest] (lines 135-163). *)
Definition generateWorkflowManifest (outputDir : string)
    (workflowPaths : list string) (files : gmap string string)
  : gmap string string :=
  let manifest := manifestEntry <$> workflowPaths in
  <[pathJoin outputDir "workflow-manifest.json"
    := jsonStringifyManifest manifest]> files.

End WorkflowTester.

(** The combinations that get a file under [limit], of those left when
    the counter is at [count]. *)
Definition withinLimit (limit : option Z) (count : nat)
    (combinations : list Combination) : list Combination :=
  match limit with
  | Some l =>
      if Z.eqb l 0 then combinations
      else take (Z.to_nat l - count) combinations
  | None => combinations
  end.

(** What [path.join] does with a file name that needs no normalisation,
    and [path.basename], for the examples. *)
Definition samplePathJoin (dir file : string) : string :=
  dir +:+ "/" +:+ file.

Definition sampleBasename (p : string) : string :=
  default p (last (JSText.split "/" p)).

Definition sampleCombination : Combination :=
  {| c_name := "TestApp"; c_expoVersion := "52";
     c_storageType := "github-release"; c_platform := "android";
     c_buildType := "dev"; c_nodeVersion := "18"; c_expoCli := "classic";
     c_reactNativeCli := "true"; c_fastlane := "true";
     c_workflow := "manual"; c_eas := "true" |}.

(** The fields of a combination that go into its file name hold no
    underscore and no dot. *)
Definition plainText (s : string) : Prop :=
  JS.includes s "_" = false ∧ JS.includes s "." = false.

Definition plainFields (c : Combination) : Prop :=
  plainText (c_name c) ∧ plainText (c_platform c)
  ∧ plainText (c_buildType c) ∧ plainText (c_expoCli c)
  ∧ plainText (c_storageType c).

(** The first npm candidate the nightly loops visit: like the first
    candidate, no test kind, no test flag, caching on. *)
Definition firstNpmCandidate : NightlyCandidate :=
  (npm, [],
   {| combo_jestTests := false; combo_rntlTests := false;
      combo_renderHookTests := false |},
   true).

(** A [path.join] that normalises as Node's does in one respect: a
    leading [./] of the file name is dropped, so that two file names can
    give one path. *)
Definition sampleNormalisingJoin (dir file : string) : string :=
  if String.prefix "./" file
  then dir +:+ "/" +:+ JSText.dropChars 2 file
  else dir +:+ "/" +:+ file.

(** * Properties *)

(** ** The loops as list operations *)

Lemma foldl_testLoopBody (steps : list WorkflowStep) (acc : list ExtractedCommand) :
  foldl testLoopBody acc steps
  = acc ++ omap (fun step => mkCommand step <$> stepRun step) steps.
Proof.
  revert acc. induction steps as [|step steps IH]; intros acc; simpl.
  - by rewrite app_nil_r.
  - rewrite IH. unfold testLoopBody.
    destruct (stepRun step) as [run|]; simpl; [|done].
    by rewrite <- app_assoc.
Qed.

(** The extracted test commands, and with them the signature, depend on
    the compiled document through its test job alone. *)
Lemma extractTestJobCommands_testJobOf loadWorkflow config :
  extractTestJobCommands loadWorkflow config
  = match testJobOf loadWorkflow config ≫= job_steps with
    | Some steps => omap (fun step => mkCommand step <$> stepRun step) steps
    | None => []
    end.
Proof.
  unfold extractTestJobCommands, testJobOf.
  destruct (loadWorkflow config) as [parsed|]; simpl; [|done].
  destruct (wf_jobs parsed) as [jobs|]; simpl; [|done].
  destruct (jobLookup "test" jobs) as [testJob|]; simpl; [|done].
  destruct (job_steps testJob) as [steps|]; [|done].
  apply foldl_testLoopBody.
Qed.

Lemma commandSignature_testJobOf loadWorkflow c1 c2 :
  testJobOf loadWorkflow c1 = testJobOf loadWorkflow c2 →
  commandSignature loadWorkflow c1 = commandSignature loadWorkflow c2.
Proof.
  intros Hjob. unfold commandSignature.
  by rewrite !extractTestJobCommands_testJobOf, Hjob.
Qed.

Lemma buildLoopBody_app options acc step :
  buildLoopBody options acc step
  = acc ++ buildLoopBody options [] step.
Proof.
  unfold buildLoopBody. destruct (stepRun step) as [run|]; simpl.
  - by destruct (_ && _); rewrite ?app_nil_r.
  - by rewrite app_nil_r.
Qed.

Lemma foldl_buildLoopBody options (steps : list WorkflowStep)
    (acc : list ExtractedCommand) :
  foldl (buildLoopBody options) acc steps
  = acc ++ steps ≫= buildLoopBody options [].
Proof.
  revert acc. induction steps as [|step steps IH]; intros acc; simpl.
  - by rewrite app_nil_r.
  - rewrite IH, (buildLoopBody_app _ acc). by rewrite <- app_assoc.
Qed.

(** A command the build loop keeps of a step is not a build or deploy
    command, unless these were asked for. *)
Lemma buildLoopBody_category options step c :
  c ∈ buildLoopBody options [] step →
  category c = build ∨ category c = other →
  options ≫= includeBuildCommands = Some true.
Proof.
  unfold buildLoopBody.
  destruct (stepRun step) as [run|];
    [|intros Hc; by apply elem_of_nil in Hc].
  cbv zeta. generalize (mkCommand step run). intros cmd.
  destruct (options ≫= includeBuildCommands) as [[|]|]; [done| |].
  all: unfold truthyFlag; simpl; repeat case_bool_decide; simpl.
  all: intros Hc Hcat; try (by apply elem_of_nil in Hc).
  all: apply list_elem_of_singleton in Hc; subst c; by destruct Hcat.
Qed.

Lemma extractBuildJobCommands_category loadWorkflow config options c :
  c ∈ extractBuildJobCommands loadWorkflow config options →
  category c = build ∨ category c = other →
  options ≫= includeBuildCommands = Some true.
Proof.
  unfold extractBuildJobCommands.
  destruct (loadWorkflow config) as [parsed|];
    [|intros Hc; by apply elem_of_nil in Hc].
  destruct (wf_jobs parsed) as [jobs|];
    [|intros Hc; by apply elem_of_nil in Hc].
  destruct (find _ _) as [buildJobName|];
    [|intros Hc; by apply elem_of_nil in Hc].
  destruct (jobLookup buildJobName jobs) as [buildJob|];
    [|intros Hc; by apply elem_of_nil in Hc].
  destruct (job_steps buildJob) as [steps|];
    [|intros Hc; by apply elem_of_nil in Hc].
  rewrite foldl_buildLoopBody. simpl.
  intros Hc. apply list_elem_of_bind in Hc as (step & Hc & _).
  by apply buildLoopBody_category with step.
Qed.

(** C8: whatever document the compiler yields, a command returned by
    [extractBuildJobCommands] called without [includeBuildCommands] (no
    options, the field left out, or [false]) has a category other than
    [build] and [other]; a command of one of these two categories is in the
    result only when [includeBuildCommands] is [true]. *)
Theorem extractBuildJobCommands_skips_build_and_other
    (loadWorkflow : FormValues -> option WorkflowYaml) (config : FormValues) :
  (∀ options,
      options ≫= includeBuildCommands ≠ Some true →
      Forall (fun c => category c ≠ build ∧ category c ≠ other)
             (extractBuildJobCommands loadWorkflow config options))
  ∧ (∀ options c,
        c ∈ extractBuildJobCommands loadWorkflow config options →
        category c = build ∨ category c = other →
        options ≫= includeBuildCommands = Some true).
Proof.
  split.
  - intros options Hopt. apply Forall_forall. intros c Hc.
    split; intros Hcat; apply Hopt;
      eapply extractBuildJobCommands_category; eauto.
  - intros options c. apply extractBuildJobCommands_category.
Qed.

(** ** The command runner *)

Lemma allPassed_cons r results :
  allPassed (r :: results)
  = (skipped r || Z.eqb (exitCode r) 0) && allPassed results.
Proof. unfold allPassed. simpl. by destruct (skipped r). Qed.

Lemma allPassed_app l1 l2 :
  allPassed (l1 ++ l2) = allPassed l1 && allPassed l2.
Proof.
  induction l1 as [|r l1 IH]; [done|].
  rewrite <- app_comm_cons, !allPassed_cons, IH. by rewrite andb_assoc.
Qed.

(** C9: [allPassed] answers [true] exactly when every result that was not
    skipped has exit code 0; a skipped result, whatever its other fields,
    leaves the answer as it is without that result. *)
Theorem allPassed_iff_executed_succeeded (results : list CommandResult) :
  (allPassed results = true
   ↔ ∀ r, r ∈ results → skipped r = false → exitCode r = 0%Z)
  ∧ (∀ before r after,
        results = before ++ r :: after →
        skipped r = true →
        allPassed results = allPassed (before ++ after)).
Proof.
  split.
  - induction results as [|r results IH].
    + split; [|done]. intros _ r Hr. by apply elem_of_nil in Hr.
    + rewrite allPassed_cons, andb_true_iff, IH, orb_true_iff, Z.eqb_eq.
      split.
      * intros [Hr Hall] r' Hin Hs.
        apply elem_of_cons in Hin as [->|Hin]; [|by apply Hall].
        destruct Hr as [Hr|Hr]; [congruence|done].
      * intros Hall. split.
        -- destruct (skipped r) eqn:Hs; [by left|right].
           apply Hall; [apply elem_of_cons; by left|done].
        -- intros r' Hin. apply Hall. apply elem_of_cons. by right.
  - intros before r after -> Hs.
    rewrite !allPassed_app, allPassed_cons, Hs. done.
Qed.

(** ** The fixed matrices *)

(** C5, on the code: [generateEasMatrix] returns six entries, the two
    package managers yarn and npm crossed with the three build profiles;
    every entry has exactly one build type.  The test of the function and
    the claim ask for nine entries, three of them for pnpm. *)
Theorem generateEasMatrix_six_entries :
  List.length generateEasMatrix = 6%nat
  ∧ Forall (fun e => List.length (buildTypes (config e)) = 1%nat)
           generateEasMatrix
  ∧ (packageManager ∘ config) <$> generateEasMatrix
    = [Some yarn; Some yarn; Some yarn; Some npm; Some npm; Some npm].
Proof.
  split; [by vm_compute|]. split; [|by vm_compute].
  vm_compute. repeat constructor.
Qed.

(** Every profile of [generateEasMatrix] is a key of [buildTypeMap]. *)
Lemma buildTypeMap_profiles :
  Forall (fun profile => is_Some (buildTypeMap !! profile))
         ["development"; "production-apk"; "production"].
Proof.
  repeat (apply Forall_cons_2; [eexists; vm_compute; reflexivity|]).
  apply Forall_nil_2.
Qed.

Lemma fixtureForPkgMgr_npm (pkgMgr : option PackageManager) :
  fixtureForPkgMgr pkgMgr = npm_app ↔ pkgMgr = Some npm.
Proof. destruct pkgMgr as [[]|]; simpl; split; congruence. Qed.

Lemma fixtureForPkgMgr_other (pkgMgr : option PackageManager) :
  pkgMgr ≠ Some npm → fixtureForPkgMgr pkgMgr = yarn_app.
Proof. destruct pkgMgr as [[]|]; simpl; congruence. Qed.

Lemma generatePrMatrix_fixtures : Forall fixtureBound generatePrMatrix.
Proof. unfold generatePrMatrix. repeat constructor. Qed.

Lemma generateEasMatrix_fixtures : Forall fixtureBound generateEasMatrix.
Proof. vm_compute. repeat constructor. Qed.

(** ** The nightly matrix: the four loops as one pass over the candidates *)

Section NightlyMatrix.

Variable loadWorkflow : FormValues -> option WorkflowYaml.

Lemma foldl_pointwise {A B} (f g : A → B → A) (l : list B) (a : A) :
  (∀ a x, f a x = g a x) → foldl f a l = foldl g a l.
Proof.
  intros Hfg. revert a. induction l as [|x l IH]; intros a; simpl; [done|].
  by rewrite Hfg, IH.
Qed.

Lemma foldl_bind_list {A B C} (f : A → C → A) (g : B → list C)
    (l : list B) (a : A) :
  foldl f a (l ≫= g) = foldl (fun a x => foldl f a (g x)) a l.
Proof.
  revert a. induction l as [|x l IH]; intros a; [done|].
  change ((x :: l) ≫= g) with (g x ++ l ≫= g).
  by rewrite foldl_app, IH.
Qed.

Lemma nightlyLoops_candidates (st : NightlyState) :
  nightlyLoops loadWorkflow st
  = foldl (nightlyStep loadWorkflow) st nightlyCandidates.
Proof.
  unfold nightlyLoops, nightlyCandidates.
  rewrite foldl_bind_list. apply foldl_pointwise. intros st1 pkgMgr.
  rewrite foldl_bind_list. apply foldl_pointwise. intros st2 tests.
  rewrite foldl_bind_list. apply foldl_pointwise. intros st3 jestCombo.
  rewrite foldl_bind_list. by apply foldl_pointwise.
Qed.

Lemma nightlyStep_cases (st : NightlyState) (cand : NightlyCandidate) :
  (sigOf loadWorkflow (nightlyEntry cand) ∈ st.1
   ∧ nightlyStep loadWorkflow st cand = st)
  ∨ ((sigOf loadWorkflow (nightlyEntry cand) ∉ st.1)
     ∧ nightlyStep loadWorkflow st cand
       = ({[sigOf loadWorkflow (nightlyEntry cand)]} ∪ st.1,
          st.2 ++ [nightlyEntry cand])).
Proof.
  destruct cand as [[[pkgMgr tests] jestCombo] caching].
  unfold nightlyStep, nightlyBody, sigOf. simpl.
  case_bool_decide; [by left|by right].
Qed.

(** The entries are those of a subsequence of the candidates. *)
Lemma nightlyStep_entries (cands : list NightlyCandidate) (st : NightlyState) :
  ∃ kept, kept `sublist_of` cands
          ∧ (foldl (nightlyStep loadWorkflow) st cands).2
            = st.2 ++ (nightlyEntry <$> kept).
Proof.
  revert st. induction cands as [|cand cands IH]; intros st; simpl.
  - exists []. split; [done|]. by rewrite app_nil_r.
  - destruct (nightlyStep_cases st cand) as [[_ ->]|[_ ->]].
    + destruct (IH st) as (kept & Hsub & ->).
      exists kept. split; [by apply sublist_cons|done].
    + destruct (IH ({[sigOf loadWorkflow (nightlyEntry cand)]} ∪ st.1,
                    st.2 ++ [nightlyEntry cand])) as (kept & Hsub & ->).
      exists (cand :: kept). split; [by apply sublist_skip|].
      simpl. by rewrite <- app_assoc.
Qed.

Lemma nightlyStep_sigInvariant (st : NightlyState) (cand : NightlyCandidate) :
  sigInvariant loadWorkflow st →
  sigInvariant loadWorkflow (nightlyStep loadWorkflow st cand).
Proof.
  intros [Hnd Hseen].
  destruct (nightlyStep_cases st cand) as [[_ ->]|[Hnew ->]]; [done|].
  split; simpl.
  - rewrite fmap_app. simpl. apply NoDup_app. split; [done|].
    split; [|apply NoDup_singleton].
    intros sig Hsig Hsig'. apply list_elem_of_singleton in Hsig'. subst sig.
    apply list_elem_of_fmap in Hsig as (e & Heq & He).
    apply Hnew. rewrite Heq. by apply Hseen.
  - intros e He. apply elem_of_app in He as [He|He].
    + apply elem_of_union. right. by apply Hseen.
    + apply list_elem_of_singleton in He. subst e.
      apply elem_of_union. left. by apply elem_of_singleton.
Qed.

Lemma foldl_sigInvariant (cands : list NightlyCandidate) (st : NightlyState) :
  sigInvariant loadWorkflow st →
  sigInvariant loadWorkflow (foldl (nightlyStep loadWorkflow) st cands).
Proof.
  revert st. induction cands as [|cand cands IH]; intros st Hst; [done|].
  simpl. by apply IH, nightlyStep_sigInvariant.
Qed.

Lemma generateNightlyMatrix_kept :
  ∃ kept, kept `sublist_of` nightlyCandidates
          ∧ generateNightlyMatrix loadWorkflow = nightlyEntry <$> kept.
Proof.
  unfold generateNightlyMatrix. rewrite nightlyLoops_candidates.
  destruct (nightlyStep_entries nightlyCandidates (∅, []))
    as (kept & Hsub & ->).
  by exists kept.
Qed.

End NightlyMatrix.

(** No two candidates of the nightly loops are given the same name. *)
Lemma nightlyCandidates_names :
  NoDup ((name ∘ nightlyEntry) <$> nightlyCandidates).
Proof. apply (bool_decide_unpack _). by vm_compute. Qed.

(** C4: whatever document the compiler yields, the names of the entries of
    [generateNightlyMatrix] are pairwise distinct, and so are the command
    signatures of their configurations. *)
Theorem generateNightlyMatrix_unique
    (loadWorkflow : FormValues -> option WorkflowYaml) :
  NoDup (name <$> generateNightlyMatrix loadWorkflow)
  ∧ NoDup ((fun e => commandSignature loadWorkflow (config e))
             <$> generateNightlyMatrix loadWorkflow).
Proof.
  split.
  - destruct (generateNightlyMatrix_kept loadWorkflow) as (kept & Hsub & ->).
    rewrite <- list_fmap_compose.
    eapply sublist_NoDup; [apply nightlyCandidates_names|].
    by apply fmap_sublist.
  - unfold generateNightlyMatrix. rewrite nightlyLoops_candidates.
    apply (foldl_sigInvariant loadWorkflow nightlyCandidates (∅, [])).
    split; simpl; [apply NoDup_nil_2|].
    intros e He. by apply elem_of_nil in He.
Qed.

Lemma nightlyEntry_fixture (cand : NightlyCandidate) :
  fixtureBound (nightlyEntry cand).
Proof. by destruct cand as [[[pkgMgr tests] jestCombo] caching]. Qed.

Lemma generateNightlyMatrix_fixtures
    (loadWorkflow : FormValues -> option WorkflowYaml) :
  Forall fixtureBound (generateNightlyMatrix loadWorkflow).
Proof.
  destruct (generateNightlyMatrix_kept loadWorkflow) as (kept & _ & ->).
  apply Forall_fmap, Forall_forall. intros cand _.
  apply nightlyEntry_fixture.
Qed.

(** C10: whatever document the compiler yields, an entry of any of the
    three matrices is bound to [npm_app] when the package manager of its
    configuration is npm and to [yarn_app] otherwise; [Fixture] has no
    third value, and [fixtureForPkgMgr] sends pnpm, like an unset package
    manager, to [yarn_app]. *)
Theorem matrix_fixture_follows_package_manager
    (loadWorkflow : FormValues -> option WorkflowYaml) :
  Forall (fun e =>
            (packageManager (config e) = Some npm → fixture e = npm_app)
            ∧ (packageManager (config e) ≠ Some npm → fixture e = yarn_app))
         (generatePrMatrix ++ generateNightlyMatrix loadWorkflow
          ++ generateEasMatrix)
  ∧ (∀ f : Fixture, f = yarn_app ∨ f = npm_app)
  ∧ fixtureForPkgMgr (Some pnpm) = yarn_app
  ∧ fixtureForPkgMgr None = yarn_app.
Proof.
  split; [|split; [intros []; auto|done]].
  eapply Forall_impl.
  - apply Forall_app_2; [apply generatePrMatrix_fixtures|].
    apply Forall_app_2; [apply generateNightlyMatrix_fixtures|].
    apply generateEasMatrix_fixtures.
  - intros e He. unfold fixtureBound in He. rewrite He. split.
    + intros Hnpm. by apply fixtureForPkgMgr_npm.
    + apply fixtureForPkgMgr_other.
Qed.

(** ** The compiled document *)

Lemma hasTestJob_spec (config : FormValues) :
  hasTestJob config = true ↔ tests config ≠ [] ∨ anyTestFlag config.
Proof.
  unfold hasTestJob, anyTestFlag, effectiveOptions.
  rewrite !orb_true_iff, Nat.ltb_lt. split.
  - intros [[[Hlen|Hj]|Hr]|Hh].
    + left. intros Hnil. rewrite Hnil in Hlen. simpl in Hlen. lia.
    + right. destruct (advancedOptions config) as [o|]; [|done]. eauto.
    + right. destruct (advancedOptions config) as [o|]; [|done]. eauto 6.
    + right. destruct (advancedOptions config) as [o|]; [|done]. eauto 6.
  - intros [Hne|(o & -> & Hflag)].
    + left. left. left. destruct (tests config); [done|simpl; lia].
    + simpl. tauto.
Qed.

Lemma buildJobName_cases (config : FormValues) :
  (storageType config = Some "github-release"
   ∧ buildJobName config = "build-and-release")
  ∨ (storageType config ≠ Some "github-release"
     ∧ buildJobName config = "build-and-deploy").
Proof. unfold buildJobName. case_bool_decide; [by left|by right]. Qed.

Lemma jobIds_generated (config : FormValues) :
  jobIds (generateWorkflowYaml config)
  = "check-skip" :: (if hasTestJob config then ["test"] else [])
    ++ [buildJobName config].
Proof. unfold jobIds. simpl. by destruct (hasTestJob config). Qed.

Lemma test_in_jobIds (config : FormValues) :
  "test" ∈ jobIds (generateWorkflowYaml config) ↔ hasTestJob config = true.
Proof.
  rewrite jobIds_generated.
  destruct (hasTestJob config); simpl.
  - split; [done|]. intros _. apply elem_of_cons. right.
    apply elem_of_cons. by left.
  - split; [|done]. intros Hin.
    apply elem_of_cons in Hin as [?|Hin]; [done|].
    apply list_elem_of_singleton in Hin.
    by destruct (buildJobName_cases config) as [[_ Hn]|[_ Hn]];
      rewrite Hn in Hin.
Qed.

Lemma buildJobOf_generated (config : FormValues) :
  buildJobOf (generateWorkflowYaml config) = Some (buildJob config).
Proof.
  unfold buildJobOf. simpl.
  destruct (buildJobName_cases config) as [[_ Hn]|[_ Hn]]; rewrite Hn;
    by destruct (hasTestJob config).
Qed.

(** C1: the compiled document has a job [test] exactly when a test kind
    is selected or one of [jestTests], [rntlTests], [renderHookTests] is
    set; without the test job the build job needs [check-skip]; so it is
    for every npm configuration with no test kind, the push-main trigger
    and the three flags off. *)
Theorem test_job_iff_tests_selected (config : FormValues) :
  let doc := generateWorkflowYaml config in
  ("test" ∈ jobIds doc ↔ tests config ≠ [] ∨ anyTestFlag config)
  ∧ ("test" ∉ jobIds doc →
     job_needs <$> buildJobOf doc = Some (Some (NeedsOne "check-skip")))
  ∧ (packageManager config = Some npm →
     tests config = [] →
     triggers config = ["push-main"] →
     ¬ anyTestFlag config →
     ("test" ∉ jobIds doc)
     ∧ job_needs <$> buildJobOf doc = Some (Some (NeedsOne "check-skip"))).
Proof.
  assert (Hneeds : "test" ∉ jobIds (generateWorkflowYaml config) →
            job_needs <$> buildJobOf (generateWorkflowYaml config)
            = Some (Some (NeedsOne "check-skip"))).
  { rewrite test_in_jobIds, buildJobOf_generated. simpl.
    by destruct (hasTestJob config). }
  cbv zeta. split; [|split; [done|]].
  - by rewrite test_in_jobIds, hasTestJob_spec.
  - intros _ Htests _ Hflags.
    assert ("test" ∉ jobIds (generateWorkflowYaml config)) as Habsent; [|auto].
    rewrite test_in_jobIds, hasTestJob_spec. intros [Hne|Hflag]; auto.
Qed.

(** C2: the compiled document has exactly one of the job identifiers
    [build-and-release] and [build-and-deploy]: the first when the storage
    type is github-release, the second for every other storage type. *)
Theorem exactly_one_build_job (config : FormValues) :
  let ids := jobIds (generateWorkflowYaml config) in
  (storageType config = Some "github-release" →
   "build-and-release" ∈ ids ∧ "build-and-deploy" ∉ ids)
  ∧ (storageType config ≠ Some "github-release" →
     "build-and-deploy" ∈ ids ∧ "build-and-release" ∉ ids)
  ∧ List.length
      (List.filter (fun id => String.eqb id "build-and-release"
                              || String.eqb id "build-and-deploy") ids)
    = 1%nat.
Proof.
  cbv zeta. rewrite jobIds_generated.
  destruct (buildJobName_cases config) as [[Hst Hn]|[Hst Hn]]; rewrite Hn;
    destruct (hasTestJob config); simpl.
  all: split; [intros Hst'|split; [intros Hst'|done]]; try done.
  all: by apply (bool_decide_unpack _).
Qed.

(** ** Signatures *)

Lemma extractTestJobCommands_generated (config : FormValues) :
  extractTestJobCommands loadGenerated config
  = if hasTestJob config then foldl testLoopBody [] (testSteps config) else [].
Proof.
  unfold extractTestJobCommands, loadGenerated. simpl.
  destruct (hasTestJob config); simpl; [done|].
  by destruct (buildJobName_cases config) as [[_ ->]|[_ ->]].
Qed.

Lemma testJobOf_generated (config : FormValues) :
  testJobOf loadGenerated config
  = if hasTestJob config then Some (testJob config) else None.
Proof.
  unfold testJobOf, loadGenerated. simpl.
  destruct (hasTestJob config); simpl; [done|].
  by destruct (buildJobName_cases config) as [[_ ->]|[_ ->]].
Qed.

(** C3: two configurations that differ in their [storageType] at most have
    the same command signature. *)
Theorem commandSignature_ignores_storageType (c1 c2 : FormValues) :
  setStorageType (storageType c2) c1 = c2 →
  commandSignature loadGenerated c1 = commandSignature loadGenerated c2.
Proof.
  intros <-. apply commandSignature_testJobOf.
  by rewrite !testJobOf_generated.
Qed.

Lemma commandSignature_ignores_storageType_witness :
  let c1 := makeConfig "github-release" yarn ["typescript"] baseAdvancedOptions in
  let c2 := makeConfig "google-drive" yarn ["typescript"] baseAdvancedOptions in
  setStorageType (storageType c2) c1 = c2
  ∧ commandSignature loadGenerated c1 = commandSignature loadGenerated c2.
Proof.
  split; [reflexivity|].
  apply commandSignature_ignores_storageType. reflexivity.
Defined.

(** C6: for a yarn configuration with the test kinds typescript, eslint
    and prettier and with [jestTests], [rntlTests], [renderHookTests] and
    [caching] set, [extractTestJobCommands] returns eight commands, one of
    each of the categories cache-dir, install, typecheck, lint, format,
    jest, rntl and hooks. *)
Theorem all_tests_yarn_eight_commands (config : FormValues) (o : AdvancedOptions) :
  packageManager config = Some yarn →
  tests config = ["typescript"; "eslint"; "prettier"] →
  advancedOptions config = Some o →
  jestTests o = true →
  rntlTests o = true →
  renderHookTests o = true →
  caching o = true →
  List.length (extractTestJobCommands loadGenerated config) = 8%nat
  ∧ category <$> extractTestJobCommands loadGenerated config
    = [cache_dir; install; typecheck; lint; format; jest; rntl; hooks].
Proof.
  intros Hpm Htests Hopt Hj Hr Hh Hc.
  rewrite extractTestJobCommands_generated.
  unfold hasTestJob, testSteps, testJob, setupSteps, effectiveOptions,
    effectivePkgMgr.
  rewrite Hpm, Htests, Hopt. simpl. rewrite Hj, Hr, Hh, Hc. simpl.
  split; reflexivity.
Qed.

Lemma all_tests_yarn_eight_commands_witness :
  let config :=
    makeConfig "github-release" yarn ["typescript"; "eslint"; "prettier"]
      allTestOptions in
  List.length (extractTestJobCommands loadGenerated config) = 8%nat
  ∧ category <$> extractTestJobCommands loadGenerated config
    = [cache_dir; install; typecheck; lint; format; jest; rntl; hooks].
Proof.
  apply (all_tests_yarn_eight_commands _ allTestOptions); reflexivity.
Defined.

(** ** Checks on concrete inputs *)

(** The npm row, as the tests of the extractor read it back. *)
Example npm_all_tests_commands :
  (fun c => (category c, command c))
    <$> extractTestJobCommands loadGenerated
          (makeConfig "github-release" npm ["typescript"; "eslint"; "prettier"]
             allTestOptions)
  = [ (cache_dir, "echo dir=$(npm config get cache) >> $GITHUB_OUTPUT");
      (install, "npm install"); (typecheck, "npx tsc");
      (lint, "npm run lint"); (format, "npm run format:check");
      (jest, "npm test"); (rntl, "npm run test:rntl");
      (hooks, "npm run test:hooks") ].
Proof. by vm_compute. Qed.

(** Without test kinds and test flags nothing is extracted. *)
Example no_tests_no_commands :
  extractTestJobCommands loadGenerated (baseConfig noOverrides) = [].
Proof. by vm_compute. Qed.

(** The build job by default and with the build commands asked for. *)
Example build_commands_skipped_by_default :
  category <$> extractBuildJobCommands loadGenerated (baseConfig noOverrides) None
  = [cache_dir; install].
Proof. by vm_compute. Qed.

Example build_commands_on_request :
  category <$> extractBuildJobCommands loadGenerated (baseConfig noOverrides)
                 (Some {| includeBuildCommands := Some true |})
  = [cache_dir; install; other; other; other; build].
Proof. by vm_compute. Qed.

(** A step whose label mentions hooks is [hooks] though its command also
    is a test command. *)
Example hooks_before_jest :
  categorizeCommand "Run renderHook Tests" "yarn test" = hooks.
Proof. reflexivity. Qed.

Example expression_flagged :
  hasGHAExpressions "echo ${{ secrets.EXPO_TOKEN }}" = true
  ∧ hasGHAExpressions "echo ${ not an expression }" = false.
Proof. by vm_compute. Qed.

(** The loops of the nightly matrix visit 254 candidates: each package
    manager once without any test and 63 selections of tests under both
    caching values. *)
Example nightly_candidates_size :
  List.length nightlyCandidates = 254%nat.
Proof. by vm_compute. Qed.

(** All three selections empty. *)
Example empty_selections :
  jobIds (generateWorkflowYaml
            (baseConfig {| o_storageType := None; o_buildTypes := Some [];
                           o_tests := Some []; o_triggers := Some [];
                           o_packageManager := None;
                           o_advancedOptions := None |}))
  = ["check-skip"; "build-and-release"].
Proof. by vm_compute. Qed.

(** A failed command that was run fails the whole list; the same result
    marked as skipped does not. *)
Example allPassed_failed_and_skipped :
  let failed s :=
    {| res_stepName := "Install dependencies"; res_command := "npm install";
       res_category := install; exitCode := 1; stdout := EmptyString;
       stderr := EmptyString; durationMs := 0; skipped := s;
       skipReason := None |} in
  allPassed [failed false] = false ∧ allPassed [failed true] = true.
Proof. by vm_compute. Qed.

(** * Further properties *)

(** ** Text of commands *)

Lemma prefix_app_inv (p s : string) :
  String.prefix p s = true → ∃ r, s = p +:+ r.
Proof.
  revert s. induction p as [|c p IH]; intros s Hp.
  - by exists s.
  - destruct s as [|c' s]; [done|]. simpl in Hp.
    destruct (Ascii.ascii_dec c c') as [->|]; [|done].
    destruct (IH s Hp) as [r ->]. by exists r.
Qed.

Lemma prefix_app (p r : string) : String.prefix p (p +:+ r) = true.
Proof.
  induction p as [|c p IH]; simpl; [by destruct r|].
  by destruct (Ascii.ascii_dec c c).
Qed.

Lemma startsWithLineTerminator_closing (ch : ascii) (b c : string) :
  JS.startsWithLineTerminator (String ch b) = false →
  JS.startsWithLineTerminator (String ch (b +:+ "}}" +:+ c)) = false.
Proof.
  unfold JS.startsWithLineTerminator, JS.isSeparator.
  destruct (JS.isLineTerminator ch); [done|].
  destruct b as [|c2 [|c3 b]]; [| |done].
  - intros _. change (EmptyString +:+ "}}" +:+ c) with (String "}" (String "}" c)).
    cbn [orb]. by destruct (Nat.eqb (nat_of_ascii ch) 226).
  - intros _.
    change (String c2 EmptyString +:+ "}}" +:+ c)
      with (String c2 (String "}" (String "}" c))).
    cbn [orb].
    by destruct (Nat.eqb (nat_of_ascii ch) 226),
      (Nat.eqb (nat_of_ascii c2) 128).
Qed.

Lemma startsWithLineTerminator_app (s r : string) :
  JS.startsWithLineTerminator (s +:+ r) = false →
  JS.startsWithLineTerminator s = false.
Proof.
  destruct s as [|ch [|c2 [|c3 s]]]; [done| | |done].
  - change (String ch EmptyString +:+ r) with (String ch r).
    unfold JS.startsWithLineTerminator.
    destruct (JS.isLineTerminator ch); [done|]. done.
  - change (String ch (String c2 EmptyString) +:+ r)
      with (String ch (String c2 r)).
    unfold JS.startsWithLineTerminator.
    destruct (JS.isLineTerminator ch); [done|]. done.
Qed.

Lemma closesOnLine_spec (s : string) :
  closesOnLine s = true
  ↔ ∃ b c, s = b +:+ "}}" +:+ c ∧ hasLineTerminator b = false.
Proof.
  split.
  - induction s as [|ch s IH].
    + simpl. done.
    + intros Hc. unfold closesOnLine in Hc. fold closesOnLine in Hc.
      apply orb_true_iff in Hc as [Hp|Hc].
      * apply prefix_app_inv in Hp as [r Hr].
        exists EmptyString, r. by rewrite Hr.
      * destruct (JS.startsWithLineTerminator (String ch s)) eqn:Hch;
          [done|].
        destruct (IH Hc) as (b & c & -> & Hb).
        exists (String ch b), c. split; [done|].
        change (hasLineTerminator (String ch b))
          with (JS.startsWithLineTerminator (String ch b)
                || hasLineTerminator b).
        rewrite Hb, orb_false_r.
        by apply (startsWithLineTerminator_app (String ch b) ("}}" +:+ c)).
  - intros (b & c & -> & Hb). induction b as [|ch b IH].
    + by destruct c.
    + change (hasLineTerminator (String ch b))
        with (JS.startsWithLineTerminator (String ch b)
              || hasLineTerminator b) in Hb.
      apply orb_false_iff in Hb as [Hch Hb].
      change (String ch b +:+ "}}" +:+ c) with (String ch (b +:+ "}}" +:+ c)).
      unfold closesOnLine. fold closesOnLine.
      rewrite (startsWithLineTerminator_closing ch b c Hch), (IH Hb).
      apply orb_true_r.
Qed.

(** X1: [hasGHAExpressions] answers [true] exactly for the texts that hold
    the opening marker, then text without a line break, then the closing
    marker. *)
Theorem hasGHAExpressions_iff_marker_on_one_line (command : string) :
  hasGHAExpressions command = true
  ↔ ∃ a b c, command = a +:+ "${{" +:+ b +:+ "}}" +:+ c
             ∧ hasLineTerminator b = false.
Proof.
  split.
  - induction command as [|ch s IH]; [done|].
    intros Hc. unfold hasGHAExpressions in Hc. fold hasGHAExpressions in Hc.
    apply orb_true_iff in Hc as [Hc|Hc].
    + apply andb_true_iff in Hc as [Hp Hc].
      apply prefix_app_inv in Hp as [r Hr].
      injection Hr as -> ->.
      change (closesOnLine r = true) in Hc.
      apply closesOnLine_spec in Hc as (b & c & -> & Hb).
      by exists EmptyString, b, c.
    + destruct (IH Hc) as (a & b & c & -> & Hb).
      by exists (String ch a), b, c.
  - intros (a & b & c & -> & Hb). induction a as [|ch a IH].
    + change (EmptyString +:+ "${{" +:+ b +:+ "}}" +:+ c)
        with (String "$" (String "{" (String "{" (b +:+ "}}" +:+ c)))).
      unfold hasGHAExpressions. fold hasGHAExpressions.
      assert (closesOnLine (b +:+ "}}" +:+ c) = true) as Hcl
        by (apply closesOnLine_spec; eauto).
      simpl. rewrite Hcl. by destruct (b +:+ "}}" +:+ c).
    + change (String ch a +:+ "${{" +:+ b +:+ "}}" +:+ c)
        with (String ch (a +:+ "${{" +:+ b +:+ "}}" +:+ c)).
      unfold hasGHAExpressions. fold hasGHAExpressions.
      rewrite IH. apply orb_true_r.
Qed.

(** The marker must close before any of the four line terminators, the
    Unicode line separator (bytes E2 80 A8) included. *)
Example hasGHAExpressions_line_separator :
  let lineSeparator :=
    String (ascii_of_nat 226)
      (String (ascii_of_nat 128) (String (ascii_of_nat 168) EmptyString)) in
  hasGHAExpressions ("${{ a " +:+ lineSeparator +:+ " }}") = false
  ∧ hasGHAExpressions ("${{ a " +:+ newline +:+ " }}") = false
  ∧ hasGHAExpressions ("${{ a " +:+ lineSeparator +:+ " }} ${{ b }}") = true
  ∧ hasGHAExpressions "${{ secrets.EXPO_TOKEN }}" = true.
Proof. by vm_compute. Qed.

(** ** Ordering of strings and [sort] *)

Lemma stringLe_compare (s1 s2 : string) :
  stringLe s1 s2 ↔ String.compare s1 s2 ≠ Gt.
Proof.
  unfold stringLe, String.leb. by destruct (String.compare s1 s2).
Qed.

Lemma ascii_compare_refl (c : ascii) : Ascii.compare c c = Eq.
Proof. apply N.compare_refl. Qed.

#[global] Instance stringLe_trans : Transitive stringLe.
Proof.
  intros s1. induction s1 as [|c1 s1 IH]; intros s2 s3.
  - intros _ _. apply stringLe_compare. by destruct s3.
  - rewrite !stringLe_compare.
    destruct s2 as [|c2 s2]; [done|]. destruct s3 as [|c3 s3]; [done|].
    simpl. unfold Ascii.compare.
    destruct (N.compare_spec (N_of_ascii c1) (N_of_ascii c2)) as [H12|H12|H12];
      [|(intros _)|done];
      (destruct (N.compare_spec (N_of_ascii c2) (N_of_ascii c3))
        as [H23|H23|H23]; [| |done]).
    + rewrite H12, H23, N.compare_refl. rewrite <- !stringLe_compare.
      apply IH.
    + intros _ _. rewrite H12. by apply N.compare_lt_iff in H23 as ->.
    + intros _. rewrite <- H23. by apply N.compare_lt_iff in H12 as ->.
    + intros _. assert (N_of_ascii c1 < N_of_ascii c3)%N as H13 by lia.
      by apply N.compare_lt_iff in H13 as ->.
Qed.

#[global] Instance stringLe_antisym : AntiSymm eq stringLe.
Proof. intros s1 s2. apply String.leb_antisym. Qed.

Lemma insertSorted_perm (x : string) (l : list string) :
  JS.insertSorted x l ≡ₚ x :: l.
Proof.
  induction l as [|y l IH]; simpl; [done|].
  destruct (String.leb x y); [done|]. by rewrite IH, Permutation_swap.
Qed.

Lemma sort_perm (l : list string) : JS.sort l ≡ₚ l.
Proof.
  induction l as [|x l IH]; [done|].
  unfold JS.sort in *. simpl. by rewrite insertSorted_perm, IH.
Qed.

Lemma insertSorted_sorted (x : string) (l : list string) :
  Sorted stringLe l → Sorted stringLe (JS.insertSorted x l).
Proof.
  induction l as [|y l IH]; intros Hl; simpl.
  - by repeat constructor.
  - destruct (String.leb x y) eqn:Hxy.
    + constructor; [done|]. by constructor.
    + apply Sorted_inv in Hl as [Hl Hy]. constructor; [by apply IH|].
      assert (stringLe y x) as Hyx
        by (destruct (String.leb_total x y); [congruence|done]).
      destruct l as [|z l]; simpl; [by constructor|].
      destruct (String.leb x z); constructor; [done|].
      by inversion Hy.
Qed.

Lemma sort_sorted (l : list string) : Sorted stringLe (JS.sort l).
Proof.
  induction l as [|x l IH]; [constructor|].
  by apply insertSorted_sorted.
Qed.

(** [sort] gives the same array for every order of the same strings. *)
Lemma sort_permutation (l1 l2 : list string) :
  l1 ≡ₚ l2 → JS.sort l1 = JS.sort l2.
Proof.
  intros Hperm. apply (Sorted_unique stringLe); try apply sort_sorted.
  by rewrite !sort_perm.
Qed.

(** ** Extracted commands *)

(** X2: the category [build] is given only to a command whose text, in
    lower case, contains [eas build] or [eas submit], and [eas-install] only
    to one that contains one of the four installation patterns; a command
    that contains [eas build] or [eas submit] is never [other]. *)
Theorem categorizeCommand_build_keywords (stepName command : string) :
  let lower := JS.toLowerCase command in
  (categorizeCommand stepName command = build →
   JS.includes lower "eas build" = true ∨ JS.includes lower "eas submit" = true)
  ∧ (categorizeCommand stepName command = eas_install →
     JS.includes lower "eas-cli" = true
     ∨ JS.includes lower "yarn global add eas" = true
     ∨ JS.includes lower "npm install -g eas" = true
     ∨ JS.includes lower "pnpm add -g eas" = true)
  ∧ (JS.includes lower "eas build" = true ∨ JS.includes lower "eas submit" = true →
     categorizeCommand stepName command ≠ other).
Proof.
  cbv zeta. unfold categorizeCommand.
  repeat case_match; repeat split; try done.
  all: rewrite ?orb_true_iff, ?orb_false_iff in *.
  all: try tauto.
  all: intros [?|?]; intuition congruence.
Qed.

Lemma mkCommand_extractedFrom (step : WorkflowStep) (run : string) :
  stepRun step = Some run → extractedFrom (mkCommand step run).
Proof.
  intros Hrun. unfold stepRun in Hrun.
  destruct (step_run step) as [r|]; [|done].
  destruct (JS.truthy r) eqn:Hr; [|done]. injection Hrun as ->.
  split; [done|]. split.
  - simpl. unfold JS.orElse. destruct (step_name step) as [n|]; [|done].
    by destruct (JS.truthy n) eqn:Hn.
  - split; [done|]. by exists (step_name step).
Qed.

Lemma buildLoopBody_extractedFrom options step :
  Forall extractedFrom (buildLoopBody options [] step).
Proof.
  unfold buildLoopBody. destruct (stepRun step) as [run|] eqn:Hrun;
    [|constructor].
  destruct (_ && _); [constructor|].
  apply Forall_singleton. by apply mkCommand_extractedFrom.
Qed.

Lemma extractTestJobCommands_extractedFrom loadWorkflow config :
  Forall extractedFrom (extractTestJobCommands loadWorkflow config).
Proof.
  rewrite extractTestJobCommands_testJobOf.
  destruct (_ ≫= _) as [steps|]; [|constructor].
  apply Forall_forall. intros c Hc.
  apply list_elem_of_omap in Hc as (step & _ & Hc).
  destruct (stepRun step) as [run|] eqn:Hrun; [|done].
  injection Hc as <-. by apply mkCommand_extractedFrom.
Qed.

(** The steps of the build job, found as [extractBuildJobCommands] finds
    them. *)
Lemma extractBuildJobCommands_steps loadWorkflow config options :
  ∃ steps,
    extractBuildJobCommands loadWorkflow config options
    = steps ≫= buildLoopBody options []
    ∧ ∀ options',
        extractBuildJobCommands loadWorkflow config options'
        = steps ≫= buildLoopBody options' [].
Proof.
  unfold extractBuildJobCommands.
  destruct (loadWorkflow config) as [parsed|]; [|by exists []].
  destruct (wf_jobs parsed) as [jobs|]; [|by exists []].
  destruct (find _ _) as [buildJobName|]; [|by exists []].
  destruct (jobLookup buildJobName jobs) as [buildJob|]; [|by exists []].
  destruct (job_steps buildJob) as [steps|]; [|by exists []].
  exists steps. split; [|intros options']; by rewrite foldl_buildLoopBody.
Qed.

Lemma extractBuildJobCommands_extractedFrom loadWorkflow config options :
  Forall extractedFrom (extractBuildJobCommands loadWorkflow config options).
Proof.
  destruct (extractBuildJobCommands_steps loadWorkflow config options)
    as (steps & -> & _).
  apply Forall_forall. intros c Hc.
  apply list_elem_of_bind in Hc as (step & Hc & _).
  revert c Hc. apply Forall_forall, buildLoopBody_extractedFrom.
Qed.

Lemma extractAllCommands_extractedFrom loadWorkflow config options :
  Forall extractedFrom (extractAllCommands loadWorkflow config options).
Proof.
  unfold extractAllCommands. cbv zeta.
  assert (Forall extractedFrom
            (extractTestJobCommands loadWorkflow config
             ++ extractBuildJobCommands loadWorkflow config
                  (Some {| includeBuildCommands :=
                             options ≫= all_includeBuildCommands |})))
    as Hall.
  { apply Forall_app_2; [apply extractTestJobCommands_extractedFrom|].
    apply extractBuildJobCommands_extractedFrom. }
  destruct (negb _); [|done].
  apply Forall_forall. intros c Hc.
  apply list_elem_of_In, List.filter_In in Hc as [Hc _].
  apply list_elem_of_In in Hc. revert c Hc. by apply Forall_forall.
Qed.

(** X3: every command returned by [extractTestJobCommands],
    [extractBuildJobCommands] or [extractAllCommands] has a non-empty text
    and a non-empty label, carries the flag of its own text, and has the
    category [categorizeCommand] gives to its text under the label of its
    step. *)
Theorem extracted_commands_come_from_steps
    (loadWorkflow : FormValues -> option WorkflowYaml) (config : FormValues)
    (buildOptions : option BuildOptions) (allOptions : option AllOptions) :
  Forall extractedFrom (extractTestJobCommands loadWorkflow config)
  ∧ Forall extractedFrom
      (extractBuildJobCommands loadWorkflow config buildOptions)
  ∧ Forall extractedFrom (extractAllCommands loadWorkflow config allOptions).
Proof.
  split; [apply extractTestJobCommands_extractedFrom|].
  split; [apply extractBuildJobCommands_extractedFrom|].
  apply extractAllCommands_extractedFrom.
Qed.

Lemma buildLoopBody_filtered options step :
  options ≫= includeBuildCommands ≠ Some true →
  buildLoopBody options [] step
  = List.filter neitherBuildNorOther
      (buildLoopBody (Some {| includeBuildCommands := Some true |}) [] step).
Proof.
  intros Hopt. unfold buildLoopBody.
  destruct (stepRun step) as [run|]; [|done]. cbv zeta.
  generalize (mkCommand step run). intros cmd.
  assert (truthyFlag (options ≫= includeBuildCommands) = false) as ->
    by (by destruct (options ≫= includeBuildCommands) as [[|]|]).
  simpl. unfold neitherBuildNorOther.
  by destruct (_ || _).
Qed.

(** X4: called without [includeBuildCommands], [extractBuildJobCommands]
    returns the commands it returns with [includeBuildCommands: true],
    in the same order, less those of category [build] or [other]. *)
Theorem extractBuildJobCommands_default_is_filtered
    (loadWorkflow : FormValues -> option WorkflowYaml) (config : FormValues)
    (options : option BuildOptions) :
  options ≫= includeBuildCommands ≠ Some true →
  extractBuildJobCommands loadWorkflow config options
  = List.filter neitherBuildNorOther
      (extractBuildJobCommands loadWorkflow config
         (Some {| includeBuildCommands := Some true |})).
Proof.
  intros Hopt.
  destruct (extractBuildJobCommands_steps loadWorkflow config options)
    as (steps & -> & ->).
  induction steps as [|step steps IH]; [done|].
  change ((step :: steps) ≫= ?f) with (f step ++ steps ≫= f).
  by rewrite List.filter_app, <- IH,
    <- (buildLoopBody_filtered options step Hopt).
Qed.

Lemma extractBuildJobCommands_default_is_filtered_witness :
  (None : option BuildOptions) ≫= includeBuildCommands ≠ Some true
  ∧ extractBuildJobCommands loadGenerated (baseConfig noOverrides) None
    = List.filter neitherBuildNorOther
        (extractBuildJobCommands loadGenerated (baseConfig noOverrides)
           (Some {| includeBuildCommands := Some true |})).
Proof.
  split; [done|].
  apply (extractBuildJobCommands_default_is_filtered loadGenerated _ None).
  done.
Defined.

Lemma List_filter_sublist {A} (f : A → bool) (l : list A) :
  List.filter f l `sublist_of` l.
Proof.
  induction l as [|x l IH]; simpl; [done|].
  destruct (f x); [by apply sublist_skip|by apply sublist_cons].
Qed.

(** X5: unless [includeGHAExpressions] is [true], no command returned by
    [extractAllCommands] has a text with a platform expression; whatever
    the options, the result is a subsequence of the test-job commands
    followed by the build-job commands, and it is all of them when
    [includeGHAExpressions] is [true]. *)
Theorem extractAllCommands_drops_expressions
    (loadWorkflow : FormValues -> option WorkflowYaml) (config : FormValues)
    (options : option AllOptions) :
  let both :=
    extractTestJobCommands loadWorkflow config
    ++ extractBuildJobCommands loadWorkflow config
         (Some {| includeBuildCommands :=
                    options ≫= all_includeBuildCommands |}) in
  (options ≫= all_includeGHAExpressions ≠ Some true →
   Forall (fun c => hasGHAExpressions (command c) = false)
          (extractAllCommands loadWorkflow config options))
  ∧ extractAllCommands loadWorkflow config options `sublist_of` both
  ∧ (options ≫= all_includeGHAExpressions = Some true →
     extractAllCommands loadWorkflow config options = both).
Proof.
  cbv zeta. split; [|split].
  - intros Hopt.
    pose proof (extractAllCommands_extractedFrom loadWorkflow config options)
      as Hfrom.
    unfold extractAllCommands in *. cbv zeta in *.
    assert (truthyFlag (options ≫= all_includeGHAExpressions) = false) as Hf
      by (by destruct (options ≫= all_includeGHAExpressions) as [[|]|]).
    rewrite Hf in *. simpl in *.
    apply Forall_forall. intros c Hc.
    assert (extractedFrom c) as (_ & _ & <- & _)
      by (revert c Hc; by apply Forall_forall).
    apply list_elem_of_In, List.filter_In in Hc as [_ Hc].
    by destruct (hasGHAExpressions_flag c).
  - unfold extractAllCommands. cbv zeta.
    destruct (negb _); [apply List_filter_sublist|done].
  - intros Hopt. unfold extractAllCommands. cbv zeta. by rewrite Hopt.
Qed.

(** ** Signatures *)

Lemma commandSignature_keys loadWorkflow config :
  commandSignature loadWorkflow config
  = JS.join "|"
      (JS.sort (signatureKey <$> extractTestJobCommands loadWorkflow config)).
Proof. done. Qed.

(** X6: the signature does not depend on the order of the commands of the
    test job: two compiled documents whose test commands have the same
    categories and trimmed texts, in any order, have the same signature. *)
Theorem commandSignature_order_independent
    (loadWorkflow1 loadWorkflow2 : FormValues -> option WorkflowYaml)
    (config1 config2 : FormValues) :
  signatureKey <$> extractTestJobCommands loadWorkflow1 config1
  ≡ₚ signatureKey <$> extractTestJobCommands loadWorkflow2 config2 →
  commandSignature loadWorkflow1 config1
  = commandSignature loadWorkflow2 config2.
Proof.
  intros Hperm. rewrite !commandSignature_keys.
  by rewrite (sort_permutation _ _ Hperm).
Qed.

Lemma commandSignature_order_independent_witness :
  let lw1 :=
    constantWorkflow
      (testOnlyDocument [runStep "Run TypeScript check" "yarn tsc";
                         runStep "Run ESLint" " yarn lint "]) in
  let lw2 :=
    constantWorkflow
      (testOnlyDocument [runStep "Run ESLint" "yarn lint";
                         runStep "Run TypeScript check" "yarn tsc"]) in
  let config := baseConfig noOverrides in
  signatureKey <$> extractTestJobCommands lw1 config
  ≡ₚ signatureKey <$> extractTestJobCommands lw2 config
  ∧ commandSignature lw1 config = commandSignature lw2 config.
Proof.
  split; [apply Permutation_swap|].
  apply commandSignature_order_independent. apply Permutation_swap.
Defined.

Lemma signatureKey_nonempty (c : ExtractedCommand) :
  signatureKey c ≠ EmptyString.
Proof. unfold signatureKey. by destruct (category c). Qed.

Lemma join_nonempty (sep x : string) (l : list string) :
  x ≠ EmptyString → JS.join sep (x :: l) ≠ EmptyString.
Proof.
  intros Hx. unfold JS.join. simpl.
  destruct l; [done|]. by destruct x.
Qed.

(** X7: the signature is the empty string exactly when no command is
    extracted from the test job; every configuration without test commands
    therefore has the same signature. *)
Theorem commandSignature_empty_iff
    (loadWorkflow : FormValues -> option WorkflowYaml) (config : FormValues) :
  commandSignature loadWorkflow config = EmptyString
  ↔ extractTestJobCommands loadWorkflow config = [].
Proof.
  rewrite commandSignature_keys.
  destruct (extractTestJobCommands loadWorkflow config) as [|c l] eqn:Hl.
  - done.
  - split; [|done]. intros Hsig. exfalso.
    pose proof (sort_perm (signatureKey <$> c :: l)) as Hperm.
    destruct (JS.sort (signatureKey <$> c :: l)) as [|k ks] eqn:Hs.
    + by apply Permutation_nil_l in Hperm.
    + apply (join_nonempty "|" k ks); [|done].
      assert (k ∈ signatureKey <$> c :: l) as Hk
        by (rewrite <- Hperm; apply elem_of_cons; by left).
      apply list_elem_of_fmap in Hk as (c' & -> & _).
      apply signatureKey_nonempty.
Qed.

(** ** The nightly matrix, continued *)

Section NightlyDedup.

Variable loadWorkflow : FormValues -> option WorkflowYaml.

(** Visiting a candidate puts its signature into [seen], kept or not. *)
Lemma nightlyStep_seen (st : NightlyState) (cand : NightlyCandidate) :
  (nightlyStep loadWorkflow st cand).1
  = {[sigOf loadWorkflow (nightlyEntry cand)]} ∪ st.1.
Proof.
  destruct (nightlyStep_cases loadWorkflow st cand) as [[Hin ->]|[_ ->]];
    [|done].
  apply set_eq. intros s. rewrite elem_of_union, elem_of_singleton.
  split; [by right|]. by intros [->|?].
Qed.

Lemma foldl_nightlyStep_seen (cands : list NightlyCandidate) (st : NightlyState) :
  ∀ s, s ∈ (foldl (nightlyStep loadWorkflow) st cands).1
       ↔ s ∈ st.1
         ∨ ∃ cand, cand ∈ cands ∧ sigOf loadWorkflow (nightlyEntry cand) = s.
Proof.
  revert st. induction cands as [|cand cands IH]; intros st s; simpl.
  - split; [by left|]. intros [?|(cand & Hc & _)]; [done|].
    by apply elem_of_nil in Hc.
  - rewrite IH, nightlyStep_seen, elem_of_union, elem_of_singleton. split.
    + intros [[->|?]|(c & Hc & <-)]; [right|by left|right].
      * exists cand. split; [apply elem_of_cons; by left|done].
      * exists c. split; [apply elem_of_cons; by right|done].
    + intros [?|(c & Hc & <-)]; [left; by right|].
      apply elem_of_cons in Hc as [->|Hc]; [left; by left|right].
      by exists c.
Qed.

Lemma foldl_nightlyStep_covered (cands : list NightlyCandidate) (st : NightlyState) :
  seenCovered loadWorkflow st →
  seenCovered loadWorkflow (foldl (nightlyStep loadWorkflow) st cands).
Proof.
  revert st. induction cands as [|cand cands IH]; intros st Hst; [done|].
  simpl. apply IH.
  destruct (nightlyStep_cases loadWorkflow st cand) as [[_ ->]|[_ ->]];
    [done|].
  intros s Hs. simpl in Hs.
  apply elem_of_union in Hs as [Hs|Hs].
  - apply elem_of_singleton in Hs as ->.
    exists (nightlyEntry cand). split; [|done].
    apply elem_of_app. right. by apply list_elem_of_singleton.
  - destruct (Hst s Hs) as (e & He & <-).
    exists e. split; [|done]. apply elem_of_app. by left.
Qed.

End NightlyDedup.

Lemma generateNightlyMatrix_seen
    (loadWorkflow : FormValues -> option WorkflowYaml) (cand : NightlyCandidate) :
  cand ∈ nightlyCandidates →
  ∃ e, e ∈ generateNightlyMatrix loadWorkflow
       ∧ sigOf loadWorkflow e = sigOf loadWorkflow (nightlyEntry cand).
Proof.
  intros Hcand. unfold generateNightlyMatrix.
  rewrite nightlyLoops_candidates.
  apply (foldl_nightlyStep_covered loadWorkflow nightlyCandidates (∅, [])).
  - intros s Hs. by apply elem_of_empty in Hs.
  - apply foldl_nightlyStep_seen. right. by exists cand.
Qed.

(** X8: whatever document the compiler yields, the nightly matrix misses no
    behaviour: for every configuration the four loops visit, the matrix has
    an entry whose configuration has the same command signature. *)
Theorem generateNightlyMatrix_covers_every_signature
    (loadWorkflow : FormValues -> option WorkflowYaml) :
  Forall (fun cand =>
            ∃ e, e ∈ generateNightlyMatrix loadWorkflow
                 ∧ commandSignature loadWorkflow (config e)
                   = commandSignature loadWorkflow
                       (config (nightlyEntry cand)))
         nightlyCandidates.
Proof.
  apply Forall_forall. intros cand Hcand.
  by apply generateNightlyMatrix_seen.
Qed.

Lemma nightlyEntry_name_inj (c1 c2 : NightlyCandidate) :
  c1 ∈ nightlyCandidates → c2 ∈ nightlyCandidates →
  nightlyEntry c1 = nightlyEntry c2 → c1 = c2.
Proof.
  intros H1 H2 Heq.
  pose proof nightlyCandidates_names as Hnames.
  apply list_elem_of_lookup in H1 as [i Hi].
  apply list_elem_of_lookup in H2 as [j Hj].
  assert (i = j) as ->.
  { eapply NoDup_lookup; [exact Hnames| |].
    - rewrite list_lookup_fmap, Hi. reflexivity.
    - rewrite list_lookup_fmap, Hj. simpl. by rewrite Heq. }
  congruence.
Qed.

(** X9: first seen wins.  A configuration the loops visit is in the matrix
    exactly when no configuration visited before it has the same command
    signature. *)
Theorem generateNightlyMatrix_first_seen_wins
    (loadWorkflow : FormValues -> option WorkflowYaml)
    (before after : list NightlyCandidate) (cand : NightlyCandidate) :
  nightlyCandidates = before ++ cand :: after →
  nightlyEntry cand ∈ generateNightlyMatrix loadWorkflow
  ↔ ∀ earlier, earlier ∈ before →
      commandSignature loadWorkflow (config (nightlyEntry earlier))
      ≠ commandSignature loadWorkflow (config (nightlyEntry cand)).
Proof.
  intros Hsplit.
  assert (∀ c, c ∈ before → c ∈ nightlyCandidates) as Hbefore
    by (intros c Hc; rewrite Hsplit; apply elem_of_app; by left).
  assert (∀ c, c ∈ after → c ∈ nightlyCandidates) as Hafter.
  { intros c Hc. rewrite Hsplit. apply elem_of_app. right.
    apply elem_of_cons. by right. }
  assert (cand ∈ nightlyCandidates) as Hcand.
  { rewrite Hsplit. apply elem_of_app. right. apply elem_of_cons. by left. }
  assert ((cand ∉ before) ∧ (cand ∉ after)) as [Hnb Hna].
  { pose proof nightlyCandidates_names as Hnd. apply NoDup_fmap_1 in Hnd.
    rewrite Hsplit in Hnd. apply NoDup_app in Hnd as (_ & Hdisj & Hnd).
    apply NoDup_cons in Hnd as [Hna _]. split; [|done].
    intros Hb. apply (Hdisj cand Hb). apply elem_of_cons. by left. }
  unfold generateNightlyMatrix. rewrite nightlyLoops_candidates, Hsplit.
  rewrite foldl_app. simpl.
  set (st1 := foldl (nightlyStep loadWorkflow) (∅, []) before).
  destruct (nightlyStep_entries loadWorkflow before (∅, []))
    as (keptB & HsubB & HentB). fold st1 in HentB. simpl in HentB.
  pose proof (foldl_nightlyStep_seen loadWorkflow before (∅, [])) as Hseen.
  fold st1 in Hseen.
  assert (∀ kept, kept `sublist_of` before ∨ kept `sublist_of` after →
            nightlyEntry cand ∉ nightlyEntry <$> kept) as Hfresh.
  { intros kept Hkept Hin.
    apply list_elem_of_fmap in Hin as (c & Heq & Hc).
    assert (c ∈ before ∨ c ∈ after) as Hc'.
    { destruct Hkept as [Hk|Hk]; [left|right];
        by apply (elem_of_sublist _ _ _ Hc). }
    assert (cand = c) as <-.
    { apply nightlyEntry_name_inj; [done| |done].
      destruct Hc'; auto. }
    destruct Hc'; done. }
  destruct (nightlyStep_cases loadWorkflow st1 cand) as [[Hin ->]|[Hnew ->]].
  - destruct (nightlyStep_entries loadWorkflow after st1)
      as (keptA & HsubA & ->).
    rewrite HentB, <- fmap_app. split.
    + intros Hmem. exfalso.
      rewrite fmap_app in Hmem. apply elem_of_app in Hmem as [Hmem|Hmem];
        by eapply Hfresh in Hmem; eauto.
    + intros Hdiff. exfalso.
      apply Hseen in Hin as [Hin|(c & Hc & Heq)];
        [by apply elem_of_empty in Hin|].
      by apply (Hdiff c Hc).
  - destruct (nightlyStep_entries loadWorkflow after
                ({[sigOf loadWorkflow (nightlyEntry cand)]} ∪ st1.1,
                 st1.2 ++ [nightlyEntry cand])) as (keptA & HsubA & ->).
    split.
    + intros _ earlier Hearlier Heq. apply Hnew, Hseen. right.
      by exists earlier.
    + intros _. simpl. apply elem_of_app. left. apply elem_of_app. right.
      by apply list_elem_of_singleton.
Qed.

Lemma generateNightlyMatrix_first_seen_wins_witness :
  nightlyCandidates
  = take 127 nightlyCandidates
    ++ firstNpmCandidate :: drop 128 nightlyCandidates
  ∧ firstNightlyCandidate ∈ take 127 nightlyCandidates
  ∧ commandSignature loadGenerated
      (config (nightlyEntry firstNightlyCandidate))
    = commandSignature loadGenerated (config (nightlyEntry firstNpmCandidate))
  ∧ nightlyEntry firstNpmCandidate ∉ generateNightlyMatrix loadGenerated.
Proof.
  assert (nightlyCandidates
          = take 127 nightlyCandidates
            ++ firstNpmCandidate :: drop 128 nightlyCandidates) as Hsplit
    by (by vm_compute).
  assert (firstNightlyCandidate ∈ take 127 nightlyCandidates) as Hin
    by (apply elem_of_take; exists 0%nat; split; [by vm_compute|lia]).
  assert (commandSignature loadGenerated
            (config (nightlyEntry firstNightlyCandidate))
          = commandSignature loadGenerated
              (config (nightlyEntry firstNpmCandidate))) as Hsig
    by (by vm_compute).
  split; [exact Hsplit|]. split; [exact Hin|]. split; [exact Hsig|].
  intros Hkept.
  exact (proj1 (generateNightlyMatrix_first_seen_wins loadGenerated
                  (take 127 nightlyCandidates) (drop 128 nightlyCandidates)
                  firstNpmCandidate Hsplit)
           Hkept firstNightlyCandidate Hin Hsig).
Defined.

(** X10: whatever document the compiler yields, the nightly matrix starts
    with the entry [yarn-no-tests] and has between 1 and 254 entries, 254
    being the number of configurations the loops visit. *)
Theorem generateNightlyMatrix_size
    (loadWorkflow : FormValues -> option WorkflowYaml) :
  head (generateNightlyMatrix loadWorkflow)
  = Some (nightlyEntry firstNightlyCandidate)
  ∧ name (nightlyEntry firstNightlyCandidate) = "yarn-no-tests"
  ∧ (1 ≤ List.length (generateNightlyMatrix loadWorkflow) ≤ 254)%nat.
Proof.
  assert (head (generateNightlyMatrix loadWorkflow)
          = Some (nightlyEntry firstNightlyCandidate)) as Hhead.
  { unfold generateNightlyMatrix. rewrite nightlyLoops_candidates.
    assert (nightlyCandidates
            = firstNightlyCandidate :: tail nightlyCandidates) as ->
      by (by vm_compute).
    generalize (tail nightlyCandidates). intros rest.
    cbn [foldl].
    destruct (nightlyStep_cases loadWorkflow (∅, []) firstNightlyCandidate)
      as [[Hin _]|[_ ->]]; [by apply elem_of_empty in Hin|].
    match goal with
    | |- context [foldl _ ?st rest] =>
        destruct (nightlyStep_entries loadWorkflow rest st) as (kept & _ & ->)
    end.
    reflexivity. }
  split; [done|]. split; [done|]. split.
  - destruct (generateNightlyMatrix loadWorkflow); [done|simpl; lia].
  - destruct (generateNightlyMatrix_kept loadWorkflow) as (kept & Hsub & ->).
    rewrite length_fmap. apply sublist_length in Hsub.
    assert (List.length nightlyCandidates = 254%nat) as Hlen
      by (by vm_compute).
    lia.
Qed.

Lemma nightlyCandidates_shape (cand : NightlyCandidate) :
  cand ∈ nightlyCandidates →
  match cand with
  | (pkgMgr, tests, jestCombo, caching) =>
      (pkgMgr = yarn ∨ pkgMgr = npm)
      ∧ caching ∈ cachingOptions tests jestCombo
  end.
Proof.
  unfold nightlyCandidates. intros Hc.
  apply list_elem_of_bind in Hc as (pkgMgr & Hc & Hp).
  apply list_elem_of_bind in Hc as (tests & Hc & _).
  apply list_elem_of_bind in Hc as (jestCombo & Hc & _).
  apply list_elem_of_bind in Hc as (caching & Hc & Hcaching).
  apply list_elem_of_singleton in Hc as ->. split; [|done].
  apply elem_of_cons in Hp as [->|Hp]; [by left|].
  apply list_elem_of_singleton in Hp as ->. by right.
Qed.

(** X11: whatever document the compiler yields, an entry of the nightly
    matrix that has caching off selects a test kind or sets a test flag:
    a configuration without tests is entered with caching on only.  The
    entries differ from the base configuration in the package manager
    (yarn or npm), the test kinds, the three test flags and caching at
    most. *)
Theorem generateNightlyMatrix_caching_off_has_tests
    (loadWorkflow : FormValues -> option WorkflowYaml) :
  Forall (fun e =>
            nightlyFixedFields (config e)
            ∧ ∀ o, advancedOptions (config e) = Some o →
                   caching o = false →
                   tests (config e) ≠ [] ∨ anyTestFlag (config e))
         (generateNightlyMatrix loadWorkflow).
Proof.
  destruct (generateNightlyMatrix_kept loadWorkflow) as (kept & Hsub & ->).
  apply Forall_fmap, Forall_forall. intros cand Hcand.
  apply (elem_of_sublist _ _ _ Hcand), nightlyCandidates_shape in Hsub.
  destruct cand as [[[pkgMgr tests] jestCombo] caching].
  destruct Hsub as [Hpm Hcaching]. simpl. split.
  - repeat split; try done.
    + destruct Hpm as [-> | ->]; [by left|by right].
    + eexists. split; [done|]. done.
  - intros o Ho. injection Ho as <-. simpl. intros ->.
    unfold cachingOptions in Hcaching. cbv zeta in Hcaching.
    destruct (Nat.ltb 0 (List.length tests)) eqn:Hlen; simpl in Hcaching.
    { left. by destruct tests. }
    right. eexists. split; [done|]. simpl.
    destruct (combo_jestTests jestCombo); [by left|].
    destruct (combo_rntlTests jestCombo); [right; by left|].
    destruct (combo_renderHookTests jestCombo); [right; by right|].
    simpl in Hcaching. by apply list_elem_of_singleton in Hcaching.
Qed.

(** ** Running commands *)

Section RunnerProperties.

Context {World : Type}.
Variable execSync : string → string → Z → World → ExecOutcome * World.
Variable dateNow : World → Z * World.
Variable makeTempFiles : World → World.
Variable removeTempFiles : World → World.
Variable pathResolve : string → string.
Variable jsonStringify : string → string.

Lemma runLoop_acc options dir limit commands acc w :
  runLoop execSync dateNow jsonStringify options dir limit commands acc w
  = (acc ++ (runLoop execSync dateNow jsonStringify options dir limit
               commands [] w).1,
     (runLoop execSync dateNow jsonStringify options dir limit
        commands [] w).2).
Proof.
  revert acc w. induction commands as [|cmd rest IH]; intros acc w; simpl.
  - by rewrite app_nil_r.
  - destruct (_ && _).
    { rewrite IH, (IH [_]). simpl. by rewrite <- app_assoc. }
    destruct (hasGHAExpressions_flag cmd).
    { rewrite IH, (IH [_]). simpl. by rewrite <- app_assoc. }
    destruct (dateNow w) as [start w1].
    destruct (execSync _ dir limit w1) as [outcome w2].
    destruct (dateNow w2) as [finish w3].
    destruct (_ && _); [done|].
    rewrite IH, (IH [_]). simpl. by rewrite <- app_assoc.
Qed.

(** One turn of the loop: the result of the first command, and whether the
    loop goes on. *)
Lemma runLoop_cons options dir limit cmd rest w :
  ∃ r w1,
    ((failedResult r = true
      ∧ truthyFlag (continueOnError options) = false
      ∧ runLoop execSync dateNow jsonStringify options dir limit
          (cmd :: rest) [] w = ([r], w1))
     ∨ ((failedResult r = false
         ∨ truthyFlag (continueOnError options) = true)
        ∧ runLoop execSync dateNow jsonStringify options dir limit
            (cmd :: rest) [] w
          = (r :: (runLoop execSync dateNow jsonStringify options dir limit
                     rest [] w1).1,
             (runLoop execSync dateNow jsonStringify options dir limit
                rest [] w1).2)))
    ∧ resultOrigin r = commandOrigin cmd
    ∧ skipped r = notRun options cmd
    ∧ (skipped r = true → exitCode r = 0%Z ∧ w1 = w).
Proof.
  simpl. unfold notRun, SKIP_CATEGORIES.
  assert (bool_decide (category cmd ∈ [build])
          = bool_decide (category cmd = build)) as ->.
  { apply bool_decide_ext. by rewrite list_elem_of_singleton. }
  destruct (truthyFlag (skipBuild options)
            && bool_decide (category cmd = build)) eqn:Hbuild.
  { eexists _, w. split.
    - right. split; cycle 1; [by rewrite runLoop_acc|by left].
    - done. }
  destruct (hasGHAExpressions_flag cmd) eqn:Hflag.
  { eexists _, w. split.
    - right. split; cycle 1; [by rewrite runLoop_acc|by left].
    - done. }
  destruct (dateNow w) as [start w1].
  destruct (execSync _ dir limit w1) as [outcome w2].
  destruct (dateNow w2) as [finish w3].
  destruct (negb (Z.eqb _ 0)) eqn:Hcode; simpl.
  - destruct (truthyFlag (continueOnError options)) eqn:Hcont; simpl.
    + eexists _, w3. split.
      * right. split; cycle 1; [by rewrite runLoop_acc|by right].
      * done.
    + eexists _, w3. split.
      * left. split; cycle 1; [split; [done|reflexivity]|].
        unfold failedResult. simpl. by rewrite Hcode.
      * done.
  - eexists _, w3. split.
    + right. split; cycle 1; [by rewrite runLoop_acc|].
      left. unfold failedResult. simpl. by rewrite Hcode.
    + done.
Qed.

(** The results of the loop on [commands], and the world it leaves. *)
Lemma runCommands_loop commands options w :
  ∃ dir limit,
    runCommands execSync dateNow makeTempFiles removeTempFiles pathResolve
      jsonStringify commands options w
    = ((runLoop execSync dateNow jsonStringify options dir limit commands []
          (makeTempFiles w)).1,
       removeTempFiles
         (runLoop execSync dateNow jsonStringify options dir limit commands []
            (makeTempFiles w)).2).
Proof.
  unfold runCommands. cbv zeta.
  exists (pathResolve (fixtureDir options)).
  exists (match timeout options with
          | Some t => if Z.eqb t 0 then 120000%Z else t
          | None => 120000%Z
          end).
  by destruct (runLoop _ _ _ _ _ _ _ _ _).
Qed.

Lemma runLoop_origin options dir limit commands w :
  let results :=
    (runLoop execSync dateNow jsonStringify options dir limit commands [] w).1 in
  resultOrigin <$> results
  = commandOrigin <$> take (List.length results) commands
  ∧ (truthyFlag (continueOnError options) = true →
     List.length results = List.length commands).
Proof.
  cbv zeta. revert w. induction commands as [|cmd rest IH]; intros w.
  - done.
  - destruct (runLoop_cons options dir limit cmd rest w)
      as (r & w1 & [(_ & Hcont & ->)|(_ & ->)] & Horigin & _ & _).
    + simpl. rewrite Horigin. split; [done|]. congruence.
    + destruct (IH w1) as [IH1 IH2]. simpl. rewrite Horigin. split.
      * f_equal. exact IH1.
      * intros Hcont. f_equal. by apply IH2.
Qed.

(** X12: the results of [runCommands] follow the commands one by one: the
    i-th result has the label, the text and the category of the i-th
    command, so the results stand for a prefix of the commands; with
    [continueOnError] every command has its result. *)
Theorem runCommands_results_follow_commands
    (commands : list ExtractedCommand) (options : RunnerOptions) (w : World) :
  let results :=
    (runCommands execSync dateNow makeTempFiles removeTempFiles pathResolve
       jsonStringify commands options w).1 in
  resultOrigin <$> results
  = commandOrigin <$> take (List.length results) commands
  ∧ (List.length results ≤ List.length commands)%nat
  ∧ (continueOnError options = Some true →
     List.length results = List.length commands).
Proof.
  cbv zeta.
  destruct (runCommands_loop commands options w) as (dir & limit & ->).
  simpl.
  destruct (runLoop_origin options dir limit commands (makeTempFiles w))
    as [H1 H2].
  split; [done|]. split.
  - apply (f_equal List.length) in H1.
    rewrite !length_fmap, length_take in H1. lia.
  - intros Hcont. apply H2. by rewrite Hcont.
Qed.

Lemma failedCount_cons r results :
  failedCount (r :: results)
  = ((if failedResult r then 1 else 0) + failedCount results)%nat.
Proof.
  unfold failedCount, failedResult. simpl. by destruct (_ && _).
Qed.

Lemma allPassed_spec (results : list CommandResult) :
  allPassed results = true
  ↔ ∀ r, r ∈ results → skipped r = false → exitCode r = 0%Z.
Proof.
  induction results as [|r results IH].
  - split; [|done]. intros _ r Hr. by apply elem_of_nil in Hr.
  - rewrite allPassed_cons, andb_true_iff, IH, orb_true_iff, Z.eqb_eq.
    split.
    + intros [Hr Hall] r' Hin Hs.
      apply elem_of_cons in Hin as [->|Hin]; [|by apply Hall].
      destruct Hr; [congruence|done].
    + intros Hall. split.
      * destruct (skipped r) eqn:Hs; [by left|right].
        apply Hall; [apply elem_of_cons; by left|done].
      * intros r' Hin. apply Hall. apply elem_of_cons. by right.
Qed.

Lemma allPassed_cons_failed r results :
  allPassed (r :: results) = negb (failedResult r) && allPassed results.
Proof.
  rewrite allPassed_cons. unfold failedResult.
  by destruct (skipped r), (Z.eqb (exitCode r) 0).
Qed.

Lemma runLoop_stops options dir limit commands w :
  truthyFlag (continueOnError options) = false →
  let results :=
    (runLoop execSync dateNow jsonStringify options dir limit commands [] w).1 in
  Forall (fun r => failedResult r = false)
         (take (List.length results - 1) results)
  ∧ ((List.length results < List.length commands)%nat →
     ∃ r, last results = Some r ∧ failedResult r = true)
  ∧ (failedCount results ≤ 1)%nat.
Proof.
  intros Hcont. cbv zeta. revert w.
  induction commands as [|cmd rest IH]; intros w.
  - simpl. split; [constructor|]. split; [lia|]. unfold failedCount. simpl. lia.
  - destruct (runLoop_cons options dir limit cmd rest w)
      as (r & w1 & [(Hfailed & _ & ->)|([Hok|Hc] & ->)] & _);
      [| |congruence].
    + simpl. split; [constructor|]. split; [by exists r|].
      rewrite failedCount_cons, Hfailed. unfold failedCount. simpl. lia.
    + destruct (IH w1) as (IH1 & IH2 & IH3).
      set (rs := (runLoop execSync dateNow jsonStringify options dir limit
                    rest [] w1).1) in *.
      cbn [fst]. split; [|split].
      * destruct rs as [|r' rs']; [constructor|].
        simpl in *. rewrite Nat.sub_0_r in IH1.
        by constructor.
      * intros Hlen. simpl in Hlen.
        destruct IH2 as (r' & Hlast & Hr'); [lia|].
        exists r'. split; [|done].
        destruct rs as [|r0 rs']; [done|]. by rewrite last_cons, Hlast.
      * rewrite failedCount_cons, Hok. lia.
Qed.

(** X13: without [continueOnError] the run stops at the first failure: no
    result but the last is one of a command that ran and failed, at most
    one result is a failure, and when commands are left without a result
    the last result is a failure. *)
Theorem runCommands_stops_at_first_failure
    (commands : list ExtractedCommand) (options : RunnerOptions) (w : World) :
  continueOnError options ≠ Some true →
  let results :=
    (runCommands execSync dateNow makeTempFiles removeTempFiles pathResolve
       jsonStringify commands options w).1 in
  Forall (fun r => failedResult r = false)
         (take (List.length results - 1) results)
  ∧ ((List.length results < List.length commands)%nat →
     ∃ r, last results = Some r ∧ failedResult r = true)
  ∧ (failedCount results ≤ 1)%nat.
Proof.
  intros Hcont. cbv zeta.
  destruct (runCommands_loop commands options w) as (dir & limit & ->).
  apply runLoop_stops.
  by destruct (continueOnError options) as [[|]|].
Qed.

Lemma runLoop_skips options dir limit commands w :
  let run := runLoop execSync dateNow jsonStringify options dir limit
               commands [] w in
  (∀ i cmd r, commands !! i = Some cmd → run.1 !! i = Some r →
              skipped r = notRun options cmd
              ∧ (skipped r = true → exitCode r = 0%Z))
  ∧ (forallb (notRun options) commands = true →
     List.length run.1 = List.length commands ∧ run.2 = w).
Proof.
  cbv zeta. revert w. induction commands as [|cmd rest IH]; intros w.
  - split; [|done]. by intros i cmd r Hi.
  - destruct (runLoop_cons options dir limit cmd rest w)
      as (r & w1 & Hrun & _ & Hskipped & Hexit).
    destruct (IH w1) as [IH1 IH2]. split.
    + intros i c r'. destruct Hrun as [(_ & _ & ->)|(_ & ->)].
      * destruct i as [|i]; simpl; [|by intros _ Hi].
        intros Hc Hr. injection Hc as <-. injection Hr as <-.
        split; [done|]. by intros Hs; apply Hexit.
      * destruct i as [|i]; simpl; [|by apply IH1].
        intros Hc Hr. injection Hc as <-. injection Hr as <-.
        split; [done|]. by intros Hs; apply Hexit.
    + intros Hall. cbn [forallb] in Hall.
      apply andb_true_iff in Hall as [Hcmd Hall].
      rewrite Hcmd in Hskipped. destruct (Hexit Hskipped) as [Hcode ->].
      destruct Hrun as [(Hfailed & _)|(_ & ->)].
      * unfold failedResult in Hfailed. by rewrite Hskipped in Hfailed.
      * simpl. destruct (IH2 Hall) as [-> ->]. done.
Qed.

(** X14: [runCommands] does not run a command flagged as holding a
    platform expression, nor, under [skipBuild], a command of category
    [build]: its result is marked skipped with exit code 0, and these are
    the only results marked skipped.  When all commands are of these kinds
    every one of them has a result and the world is left as the creation
    and removal of the temporary files leave it. *)
Theorem runCommands_skips_without_running
    (commands : list ExtractedCommand) (options : RunnerOptions) (w : World) :
  let run :=
    runCommands execSync dateNow makeTempFiles removeTempFiles pathResolve
      jsonStringify commands options w in
  (∀ i cmd r, commands !! i = Some cmd → run.1 !! i = Some r →
              skipped r = notRun options cmd
              ∧ (skipped r = true → exitCode r = 0%Z))
  ∧ (forallb (notRun options) commands = true →
     List.length run.1 = List.length commands
     ∧ allPassed run.1 = true
     ∧ run.2 = removeTempFiles (makeTempFiles w)).
Proof.
  cbv zeta.
  destruct (runCommands_loop commands options w) as (dir & limit & ->).
  destruct (runLoop_skips options dir limit commands (makeTempFiles w))
    as [Hskip Hall].
  split; [exact Hskip|]. intros Hcommands.
  destruct (Hall Hcommands) as [Hlen Hw]. simpl.
  split; [done|]. split; [|by rewrite Hw].
  apply allPassed_spec.
  intros r Hr Hs. apply list_elem_of_lookup in Hr as [i Hi].
  destruct (lookup_lt_is_Some_2 commands i) as [cmd Hcmd].
  { rewrite <- Hlen. by apply lookup_lt_Some in Hi. }
  destruct (Hskip i cmd r Hcmd Hi) as [Hsk _].
  rewrite forallb_forall in Hcommands.
  apply list_elem_of_lookup_2, list_elem_of_In, Hcommands in Hcmd.
  congruence.
Qed.

Lemma runLoop_complete options dir limit commands w :
  let results :=
    (runLoop execSync dateNow jsonStringify options dir limit commands [] w).1 in
  (allPassed results = true → List.length results = List.length commands)
  ∧ ((List.length results < List.length commands)%nat →
     allPassed results = false).
Proof.
  cbv zeta.
  assert (∀ w, allPassed
                 (runLoop execSync dateNow jsonStringify options dir limit
                    commands [] w).1 = true →
               List.length
                 (runLoop execSync dateNow jsonStringify options dir limit
                    commands [] w).1 = List.length commands) as Hall.
  { induction commands as [|cmd rest IH]; intros w'; [done|].
    destruct (runLoop_cons options dir limit cmd rest w')
      as (r & w1 & [(Hfailed & _ & ->)|(_ & ->)] & _); simpl.
    - rewrite allPassed_cons_failed, Hfailed. done.
    - rewrite allPassed_cons_failed. intros Hp.
      apply andb_true_iff in Hp as [_ Hp]. f_equal. by apply IH. }
  split; [apply Hall|]. intros Hlen.
  destruct (allPassed _) eqn:Hp; [|done]. apply Hall in Hp. lia.
Qed.

(** X15: when [allPassed] holds of the results of [runCommands], every
    command has a result: none was left out by an early stop.  A run that
    left commands out never passes. *)
Theorem runCommands_passed_is_complete
    (commands : list ExtractedCommand) (options : RunnerOptions) (w : World) :
  let results :=
    (runCommands execSync dateNow makeTempFiles removeTempFiles pathResolve
       jsonStringify commands options w).1 in
  (allPassed results = true → List.length results = List.length commands)
  ∧ ((List.length results < List.length commands)%nat →
     allPassed results = false).
Proof.
  cbv zeta.
  destruct (runCommands_loop commands options w) as (dir & limit & ->).
  apply runLoop_complete.
Qed.

End RunnerProperties.

Lemma runCommands_stops_at_first_failure_witness :
  continueOnError stopOnError ≠ Some true
  ∧ (let results := sampleRun sampleCommands stopOnError in
     Forall (fun r => failedResult r = false)
            (take (List.length results - 1) results)
     ∧ ((List.length results < List.length sampleCommands)%nat →
        ∃ r, last results = Some r ∧ failedResult r = true)
     ∧ (failedCount results ≤ 1)%nat).
Proof.
  split; [done|].
  apply (runCommands_stops_at_first_failure sampleExec sampleClock id id id id
           sampleCommands stopOnError tt).
  done.
Defined.

(** The sample run stops after the second command. *)
Example sample_run_stops :
  exitCode <$> sampleRun sampleCommands stopOnError = [0%Z; 2%Z].
Proof. by vm_compute. Qed.

(** ** The summary of a run *)

(** X16: the three counters [printResults] prints add up to the number of
    results, the counter of failures is 0 exactly when [allPassed] holds,
    and it counts the results printed with the label FAIL. *)
Theorem printResults_counters (results : list CommandResult) :
  (passedCount results + failedCount results + skippedCount results
   = List.length results)%nat
  ∧ (failedCount results = 0%nat ↔ allPassed results = true)
  ∧ failedCount results
    = List.length
        (List.filter (fun r => bool_decide (resultStatus r = FAIL)) results).
Proof.
  split; [|split].
  - induction results as [|r results IH]; [done|].
    unfold passedCount, failedCount, skippedCount in *. simpl.
    destruct (skipped r), (Z.eqb (exitCode r) 0); simpl; lia.
  - induction results as [|r results IH]; [done|].
    rewrite failedCount_cons, allPassed_cons_failed.
    destruct (failedResult r); simpl; [|done].
    split; [lia|done].
  - induction results as [|r results IH]; [done|].
    rewrite failedCount_cons, IH. unfold failedResult, resultStatus. simpl.
    by destruct (skipped r), (Z.eqb (exitCode r) 0).
Qed.

(** ** The community runner *)

Lemma scriptMap_lookup (c : Category) :
  scriptMap !! categoryName c = requiredScriptOf c.
Proof. destruct c; by vm_compute. Qed.

Lemma List_filter_idemp {A} (f : A → bool) (l : list A) :
  List.filter f (List.filter f l) = List.filter f l.
Proof.
  induction l as [|x l IH]; [done|]. simpl.
  destruct (f x) eqn:Hx; [|done]. simpl. by rewrite Hx, IH.
Qed.

Lemma List_filter_sublist_impl {A} (f g : A → bool) (l : list A) :
  (∀ x, f x = true → g x = true) →
  List.filter f l `sublist_of` List.filter g l.
Proof.
  intros Hfg. induction l as [|x l IH]; [done|]. simpl.
  destruct (f x) eqn:Hx.
  - rewrite (Hfg x Hx). by apply sublist_skip.
  - destruct (g x); [by apply sublist_cons|done].
Qed.

(** X17: [filterForAvailableScripts] keeps the order of the commands and
    keeps every command of category install, cache-dir, eas-install, build
    or other; a command of category lint, format, jest, rntl or hooks is
    kept exactly when the script it needs is there.  Filtering twice
    changes nothing, and with more scripts no command is lost. *)
Theorem filterForAvailableScripts_keeps_what_can_run
    (existsSync : string → bool) (pathJoin : string → string → string)
    (commands : list ExtractedCommand) (scripts : gset string)
    (repoDir : string) :
  let kept := filterForAvailableScripts existsSync pathJoin commands scripts
                repoDir in
  kept `sublist_of` commands
  ∧ (∀ cmd, cmd ∈ commands →
            category cmd ∈ [install; cache_dir; eas_install; build; other] →
            cmd ∈ kept)
  ∧ (∀ cmd script, cmd ∈ commands →
                   requiredScriptOf (category cmd) = Some script →
                   (cmd ∈ kept ↔ script ∈ scripts))
  ∧ filterForAvailableScripts existsSync pathJoin kept scripts repoDir = kept
  ∧ (∀ scripts', scripts ⊆ scripts' →
       kept `sublist_of`
         filterForAvailableScripts existsSync pathJoin commands scripts'
           repoDir).
Proof.
  cbv zeta. unfold filterForAvailableScripts.
  split; [apply List_filter_sublist|].
  split; [|split; [|split; [apply List_filter_idemp|]]].
  - intros cmd Hcmd Hcat. apply list_elem_of_In, List.filter_In.
    split; [by apply list_elem_of_In|].
    unfold scriptAvailable. rewrite scriptMap_lookup.
    destruct (category cmd); try done.
    all: exfalso; revert Hcat; by apply (bool_decide_unpack _).
  - intros cmd script Hcmd Hscript.
    rewrite list_elem_of_In, List.filter_In, <- list_elem_of_In.
    unfold scriptAvailable. rewrite scriptMap_lookup, Hscript.
    destruct (category cmd); try done; simpl in *.
    all: injection Hscript as <-; simpl.
    all: rewrite bool_decide_eq_true; tauto.
  - intros scripts' Hsub. apply List_filter_sublist_impl.
    intros cmd. unfold scriptAvailable. rewrite scriptMap_lookup.
    destruct (category cmd); simpl; try done.
    all: rewrite !bool_decide_eq_true; by apply Hsub.
Qed.

Lemma buildConfigForRepo_candidate (scripts : gset string)
    (pkgMgr : PackageManager) :
  pkgMgr ≠ pnpm →
  ∃ cand, cand ∈ nightlyCandidates
          ∧ config (nightlyEntry cand) = buildConfigForRepo scripts pkgMgr.
Proof.
  intros Hpm.
  exists (pkgMgr, tests (buildConfigForRepo scripts pkgMgr),
          {| combo_jestTests := bool_decide ("test" ∈ scripts);
             combo_rntlTests := bool_decide ("test:rntl" ∈ scripts);
             combo_renderHookTests := bool_decide ("test:hooks" ∈ scripts) |},
          true).
  split; [|done].
  unfold nightlyCandidates.
  apply list_elem_of_bind. exists pkgMgr. split.
  2: { destruct pkgMgr; [| |done].
       - apply elem_of_cons. by left.
       - apply elem_of_cons. right. apply elem_of_cons. by left. }
  apply list_elem_of_bind.
  exists (tests (buildConfigForRepo scripts pkgMgr)). split.
  2: { unfold buildConfigForRepo. simpl.
       destruct (bool_decide ("lint" ∈ scripts)),
         (bool_decide ("format:check" ∈ scripts)); simpl;
         by apply (bool_decide_unpack _). }
  apply list_elem_of_bind.
  exists {| combo_jestTests := bool_decide ("test" ∈ scripts);
            combo_rntlTests := bool_decide ("test:rntl" ∈ scripts);
            combo_renderHookTests := bool_decide ("test:hooks" ∈ scripts) |}.
  split.
  2: { destruct (bool_decide ("test" ∈ scripts)),
         (bool_decide ("test:rntl" ∈ scripts)),
         (bool_decide ("test:hooks" ∈ scripts));
         vm_compute; repeat constructor. }
  apply list_elem_of_bind. exists true. split.
  - by apply list_elem_of_singleton.
  - unfold cachingOptions. cbv zeta. destruct (_ || _).
    + apply elem_of_cons. by left.
    + by apply list_elem_of_singleton.
Qed.

(** X18: whatever document the compiler yields, the configuration
    [buildConfigForRepo] builds for a yarn or npm repository is one the
    nightly loops visit, so the nightly matrix has an entry with the same
    command signature. *)
Theorem buildConfigForRepo_covered_by_nightly_matrix
    (loadWorkflow : FormValues -> option WorkflowYaml)
    (scripts : gset string) (pkgMgr : PackageManager) :
  pkgMgr ≠ pnpm →
  ∃ e, e ∈ generateNightlyMatrix loadWorkflow
       ∧ commandSignature loadWorkflow (config e)
         = commandSignature loadWorkflow (buildConfigForRepo scripts pkgMgr).
Proof.
  intros Hpm.
  destruct (buildConfigForRepo_candidate scripts pkgMgr Hpm)
    as (cand & Hcand & <-).
  by apply generateNightlyMatrix_seen.
Qed.

Lemma buildConfigForRepo_covered_by_nightly_matrix_witness :
  npm ≠ pnpm
  ∧ ∃ e, e ∈ generateNightlyMatrix loadGenerated
         ∧ commandSignature loadGenerated (config e)
           = commandSignature loadGenerated
               (buildConfigForRepo {[ "lint"; "test" ]} npm).
Proof.
  split; [done|].
  apply (buildConfigForRepo_covered_by_nightly_matrix loadGenerated
           {[ "lint"; "test" ]} npm).
  done.
Defined.

(** ** Running one entry of a matrix *)

Lemma runCommands_passed {World : Type}
    (execSync : string → string → Z → World → ExecOutcome * World)
    (dateNow : World → Z * World) (makeTempFiles removeTempFiles : World → World)
    (pathResolve jsonStringify : string → string)
    (commands : list ExtractedCommand) (options : RunnerOptions) (w : World) :
  let results :=
    (runCommands execSync dateNow makeTempFiles removeTempFiles pathResolve
       jsonStringify commands options w).1 in
  allPassed results = true →
  resultOrigin <$> results = commandOrigin <$> commands.
Proof.
  cbv zeta.
  destruct (runCommands_loop execSync dateNow makeTempFiles removeTempFiles
              pathResolve jsonStringify commands options w)
    as (dir & limit & ->).
  simpl. intros Hp.
  destruct (runLoop_complete execSync dateNow jsonStringify options dir limit
              commands (makeTempFiles w)) as [Hlen _].
  destruct (runLoop_origin execSync dateNow jsonStringify options dir limit
              commands (makeTempFiles w)) as [Horigin _].
  rewrite Horigin, (Hlen Hp). by rewrite firstn_all.
Qed.

Section RunSingleProperties.

Context {World : Type}.
Variable loadWorkflow : FormValues -> option WorkflowYaml.
Variable execSync : string → string → Z → World → ExecOutcome * World.
Variable dateNow : World → Z * World.
Variable makeTempFiles : World → World.
Variable removeTempFiles : World → World.
Variable pathResolve : string → string.
Variable jsonStringify : string → string.
Variable existsSync : string → World → bool.
Variable readMatrix : string → World → option (list MatrixEntry).
Variable pathResolve2 : string → string → string.
Variable integrationDir : string.

(** X19: [run-single] ends with exit code 1, and leaves the world as it
    found it (no temporary file, no command run), when the matrix file or
    the fixture directory does not exist, and when they exist and the index
    is a number below 0 or not below the length of the matrix.  An index
    that [parseInt] could not read ([NaN]) passes the range check: the
    script ends with an exception nobody catches. *)
Theorem runSingle_rejects_bad_input (opts : SingleOptions) (w : World) :
  let run :=
    runSingle loadWorkflow execSync dateNow makeTempFiles removeTempFiles
      pathResolve jsonStringify existsSync readMatrix pathResolve2
      integrationDir opts w in
  let matrixFile := pathResolve2 integrationDir (opt_matrixFile opts) in
  let fixtureDir := pathResolve2 integrationDir (opt_fixtureDir opts) in
  (existsSync matrixFile w = false ∨ existsSync fixtureDir w = false →
   run = (Exit 1, w))
  ∧ (existsSync matrixFile w = true → existsSync fixtureDir w = true →
     ∀ matrix, readMatrix matrixFile w = Some matrix →
       match opt_configIndex opts with
       | Some index =>
           (index < 0 ∨ Z.of_nat (List.length matrix) ≤ index)%Z →
           run = (Exit 1, w)
       | None => run = (Uncaught, w)
       end).
Proof.
  cbv zeta. unfold runSingle. cbv zeta. split.
  - intros [-> | ->]; [done|].
    by destruct (existsSync
                   (pathResolve2 integrationDir (opt_matrixFile opts)) w).
  - intros -> -> matrix ->. simpl.
    destruct (opt_configIndex opts) as [index|]; [|done].
    intros Hrange.
    assert (Z.ltb index 0 || Z.leb (Z.of_nat (List.length matrix)) index
            = true) as ->; [|done].
    apply orb_true_iff. rewrite Z.ltb_lt, Z.leb_le. lia.
Qed.

(** X20: [run-single] exits with 0 or 1 when it exits, and with 0 only
    after a complete run: both paths exist, the index is within the
    matrix, and [runCommands] gave one result for every command of the
    entry, in order, none of them a command that ran with a non-zero exit
    code. *)
Theorem runSingle_exit_code (opts : SingleOptions) (w w' : World) (code : Z) :
  runSingle loadWorkflow execSync dateNow makeTempFiles removeTempFiles
    pathResolve jsonStringify existsSync readMatrix pathResolve2
    integrationDir opts w = (Exit code, w') →
  (code = 0 ∨ code = 1)%Z
  ∧ (code = 0%Z →
     ∃ matrix index entry results,
       existsSync (pathResolve2 integrationDir (opt_matrixFile opts)) w = true
       ∧ existsSync (pathResolve2 integrationDir (opt_fixtureDir opts)) w
         = true
       ∧ readMatrix (pathResolve2 integrationDir (opt_matrixFile opts)) w
         = Some matrix
       ∧ opt_configIndex opts = Some index
       ∧ (0 ≤ index < Z.of_nat (List.length matrix))%Z
       ∧ matrix !! Z.to_nat index = Some entry
       ∧ runCommands execSync dateNow makeTempFiles removeTempFiles
           pathResolve jsonStringify
           (singleCommands loadWorkflow (opt_includeBuildJob opts)
              (config entry))
           (singleRunnerOptions pathResolve2 integrationDir opts) w
         = (results, w')
       ∧ resultOrigin <$> results
         = commandOrigin
             <$> singleCommands loadWorkflow (opt_includeBuildJob opts)
                   (config entry)
       ∧ ∀ r, r ∈ results → skipped r = false → exitCode r = 0%Z).
Proof.
  unfold runSingle. cbv zeta.
  destruct (existsSync (pathResolve2 integrationDir (opt_matrixFile opts)) w)
    eqn:Hm; simpl; [|intros [= <- <-]; split; [by right|done]].
  destruct (existsSync (pathResolve2 integrationDir (opt_fixtureDir opts)) w)
    eqn:Hf; simpl; [|intros [= <- <-]; split; [by right|done]].
  destruct (readMatrix _ w) as [matrix|] eqn:Hread; [|done].
  destruct (opt_configIndex opts) as [index|] eqn:Hindex; [|done].
  destruct (Z.ltb index 0 || Z.leb (Z.of_nat (List.length matrix)) index)
    eqn:Hrange; [intros [= <- <-]; split; [by right|done]|].
  destruct (matrix !! Z.to_nat index) as [entry|] eqn:Hentry; [|done].
  destruct (runCommands _ _ _ _ _ _ _ _ w) as [results w1] eqn:Hrun.
  destruct (allPassed results) eqn:Hp; intros [= <- <-];
    (split; [by auto|]); [intros _|done].
  exists matrix, index, entry, results.
  apply orb_false_iff in Hrange as [Hlo Hhi].
  apply Z.ltb_ge in Hlo. apply Z.leb_gt in Hhi.
  repeat (split; [done|]). split.
  - pose proof (runCommands_passed execSync dateNow makeTempFiles
                  removeTempFiles pathResolve jsonStringify
                  (singleCommands loadWorkflow (opt_includeBuildJob opts)
                     (config entry))
                  (singleRunnerOptions pathResolve2 integrationDir opts) w)
      as Hall.
    cbv zeta in Hall. rewrite Hrun in Hall. by apply Hall.
  - by apply allPassed_spec.
Qed.

(** X21: the commands [run-single] hands to the runner are those of the
    test job, followed, with [--include-build-job] only, by those of the
    build job; none of the latter has category [build] or [other], since
    [extractBuildJobCommands] is called without options. *)
Theorem singleCommands_never_from_build_steps
    (includeBuildJob : bool) (config : FormValues) :
  ∃ buildCmds,
    singleCommands loadWorkflow includeBuildJob config
    = extractTestJobCommands loadWorkflow config ++ buildCmds
    ∧ (includeBuildJob = false → buildCmds = [])
    ∧ buildCmds
      = (if includeBuildJob
         then List.filter neitherBuildNorOther
                (extractBuildJobCommands loadWorkflow config
                   (Some {| includeBuildCommands := Some true |}))
         else [])
    ∧ Forall (fun c => category c ≠ build ∧ category c ≠ other) buildCmds.
Proof.
  unfold singleCommands. cbv zeta. destruct includeBuildJob.
  - exists (extractBuildJobCommands loadWorkflow config None).
    split; [done|]. split; [done|]. split.
    + destruct (extractBuildJobCommands_steps loadWorkflow config None)
        as (steps & -> & ->).
      induction steps as [|step steps IH]; [done|].
      change ((step :: steps) ≫= ?f) with (f step ++ steps ≫= f).
      rewrite List.filter_app, <- IH.
      by rewrite <- (buildLoopBody_filtered None step).
    + apply Forall_forall. intros c Hc.
      split; intros Hcat;
        by pose proof (extractBuildJobCommands_category loadWorkflow config
                         None c Hc ltac:(auto)).
  - exists []. rewrite app_nil_r. by repeat split.
Qed.

End RunSingleProperties.

Lemma runSingle_exit_code_witness :
  sampleSingle (sampleSingleOptions (Some 0%Z)) = (Exit 0, tt)
  ∧ (0 = 0 ∨ 0 = 1)%Z
  ∧ ∃ results,
      runCommands sampleExec sampleClock id id id id
        (singleCommands sampleLoad false (baseConfig noOverrides))
        (singleRunnerOptions sampleResolve "/repo/integration-tests"
           (sampleSingleOptions (Some 0%Z)))
        tt
      = (results, tt)
      ∧ resultOrigin <$> results
        = [("Install dependencies", "yarn install", install)]
      ∧ ∀ r, r ∈ results → skipped r = false → exitCode r = 0%Z.
Proof.
  destruct (runSingle_exit_code sampleLoad sampleExec sampleClock id id id id
              sampleExists sampleRead sampleResolve "/repo/integration-tests"
              (sampleSingleOptions (Some 0%Z)) tt tt 0%Z eq_refl)
    as [Hcode Hrun].
  destruct (Hrun eq_refl)
    as (matrix & index & entry & results & _ & _ & Hread & Hindex & _
        & Hentry & Hresults & Horigin & Hexit).
  change (Some sampleMatrix = Some matrix) in Hread.
  injection Hread as <-.
  change (Some 0%Z = Some index) in Hindex.
  injection Hindex as <-.
  change (Some {| name := "yarn-no-tests"; config := baseConfig noOverrides;
                  fixture := yarn_app |} = Some entry) in Hentry.
  injection Hentry as <-.
  split; [reflexivity|]. split; [exact Hcode|].
  exists results. split; [exact Hresults|]. split; [exact Horigin|].
  exact Hexit.
Defined.

Example sample_single_bad_index :
  sampleSingle (sampleSingleOptions (Some 1%Z)) = (Exit 1, tt)
  ∧ sampleSingle (sampleSingleOptions (Some (-1)%Z)) = (Exit 1, tt)
  ∧ sampleSingle (sampleSingleOptions None) = (Uncaught, tt).
Proof. by repeat split. Qed.

(** ** The workflow tester *)

Lemma includes_char_cons x c s :
  JS.includes (String c s) (String x EmptyString)
  = Ascii.eqb x c || JS.includes s (String x EmptyString).
Proof.
  simpl. destruct (ascii_dec x c) as [->|Hne].
  - rewrite Ascii.eqb_refl. by destruct s.
  - apply Ascii.eqb_neq in Hne. by rewrite Hne.
Qed.

Lemma includes_char_app x a b :
  JS.includes (a +:+ b) (String x EmptyString)
  = JS.includes a (String x EmptyString)
    || JS.includes b (String x EmptyString).
Proof.
  induction a as [|c a IH]; [done|].
  change (String c a +:+ b) with (String c (a +:+ b)).
  by rewrite !includes_char_cons, IH, orb_assoc.
Qed.

Lemma append_nil_r (s : string) : s +:+ EmptyString = s.
Proof.
  induction s as [|c s IH]; [done|].
  change (String c (s +:+ EmptyString) = String c s). by f_equal.
Qed.

Lemma split_plain sep a :
  JS.includes a (String sep EmptyString) = false → JSText.split sep a = [a].
Proof.
  induction a as [|c a IH]; [done|].
  rewrite includes_char_cons. intros H.
  apply orb_false_iff in H as [Hc Ha]. simpl.
  rewrite Ascii.eqb_sym, Hc. by rewrite (IH Ha).
Qed.

Lemma split_app sep a rest :
  JS.includes a (String sep EmptyString) = false →
  JSText.split sep (a +:+ String sep rest) = a :: JSText.split sep rest.
Proof.
  induction a as [|c a IH].
  - intros _. change (EmptyString +:+ String sep rest) with (String sep rest).
    simpl. by rewrite Ascii.eqb_refl.
  - rewrite includes_char_cons. intros H.
    apply orb_false_iff in H as [Hc Ha].
    change (String c a +:+ String sep rest)
      with (String c (a +:+ String sep rest)).
    simpl. rewrite Ascii.eqb_sym, Hc. by rewrite (IH Ha).
Qed.

Lemma split_parts sep s :
  Forall (fun p => JS.includes p (String sep EmptyString) = false)
         (JSText.split sep s).
Proof.
  induction s as [|c s IH]; simpl.
  - by apply Forall_singleton.
  - destruct (Ascii.eqb c sep) eqn:Hc.
    + by apply Forall_cons_2.
    + destruct (JSText.split sep s) as [|l ls].
      * apply Forall_singleton. rewrite includes_char_cons.
        by rewrite Ascii.eqb_sym, Hc.
      * apply Forall_cons in IH as [Hl Hls]. apply Forall_cons_2; [|done].
        rewrite includes_char_cons. by rewrite Ascii.eqb_sym, Hc.
Qed.

(** Joining parts that are free of the separator and splitting again
    gives the parts back. *)
Lemma split_concat sep parts :
  parts ≠ [] →
  Forall (fun p => JS.includes p (String sep EmptyString) = false) parts →
  JSText.split sep (String.concat (String sep EmptyString) parts) = parts.
Proof.
  induction parts as [|x parts IH]; [done|]. intros _ Hall.
  apply Forall_cons in Hall as [Hx Hall].
  destruct parts as [|y parts]; [by apply split_plain|].
  change (String.concat (String sep EmptyString) (x :: y :: parts))
    with (x +:+ String sep
                  (String.concat (String sep EmptyString) (y :: parts))).
  rewrite (split_app _ _ _ Hx). f_equal. by apply IH.
Qed.

Lemma replace_yml_app a rest :
  JS.includes a "." = false →
  JSText.replace ".yml" EmptyString (a +:+ rest)
  = a +:+ JSText.replace ".yml" EmptyString rest.
Proof.
  induction a as [|c a IH]; [done|].
  rewrite includes_char_cons. intros H.
  apply orb_false_iff in H as [Hc Ha].
  change (String c a +:+ rest) with (String c (a +:+ rest)).
  cbn [JSText.replace String.prefix].
  destruct (ascii_dec "." c) as [Heq|_].
  { subst c. by rewrite Ascii.eqb_refl in Hc. }
  rewrite (IH Ha). done.
Qed.

Lemma uint_plain (x : ascii) (d : Decimal.uint) :
  (Nat.ltb (nat_of_ascii x) 48 || Nat.ltb 57 (nat_of_ascii x)) = true →
  JS.includes (NilEmpty.string_of_uint d) (String x EmptyString) = false.
Proof.
  intros Hx.
  assert (∀ c, (Nat.leb 48 (nat_of_ascii c) && Nat.leb (nat_of_ascii c) 57)
               = true → Ascii.eqb x c = false) as Hdigit.
  { intros c Hc. apply Ascii.eqb_neq. intros ->.
    apply andb_true_iff in Hc as [H1 H2].
    apply Nat.leb_le in H1, H2.
    apply orb_true_iff in Hx as [Hx|Hx]; apply Nat.ltb_lt in Hx; lia. }
  induction d; simpl NilEmpty.string_of_uint; [done|..];
    rewrite includes_char_cons, IHd, orb_false_r; by apply Hdigit.
Qed.

Lemma numberToString_plain n : plainText (JSText.numberToString n).
Proof. split; by apply uint_plain. Qed.

Lemma numberToString_inj i j :
  JSText.numberToString i = JSText.numberToString j → i = j.
Proof.
  unfold JSText.numberToString. intros H.
  apply (f_equal NilEmpty.uint_of_string) in H.
  rewrite !NilEmpty.usu in H. injection H as H.
  apply (f_equal Nat.of_uint) in H.
  by rewrite !DecimalNat.Unsigned.of_to in H.
Qed.

Lemma combinationFileName_parts c count :
  plainFields c →
  JSText.split "_"
    (JSText.replace ".yml" EmptyString (combinationFileName c count))
  = ["workflow"; c_name c; c_platform c; c_buildType c; c_expoCli c;
     c_storageType c; JSText.numberToString count].
Proof.
  intros ([Hn1 Hn2] & [Hp1 Hp2] & [Hb1 Hb2] & [He1 He2] & [Hs1 Hs2]).
  destruct (numberToString_plain count) as [Hc1 Hc2].
  unfold combinationFileName.
  rewrite (replace_yml_app "workflow_") by done.
  rewrite (replace_yml_app (c_name c)), (replace_yml_app "_") by done.
  rewrite (replace_yml_app (c_platform c)), (replace_yml_app "_") by done.
  rewrite (replace_yml_app (c_buildType c)), (replace_yml_app "_") by done.
  rewrite (replace_yml_app (c_expoCli c)), (replace_yml_app "_") by done.
  rewrite (replace_yml_app (c_storageType c)), (replace_yml_app "_") by done.
  rewrite (replace_yml_app (JSText.numberToString count)) by done.
  change (JSText.replace ".yml" EmptyString ".yml") with EmptyString.
  rewrite append_nil_r.
  apply (split_concat "_"
           ["workflow"; c_name c; c_platform c; c_buildType c; c_expoCli c;
            c_storageType c; JSText.numberToString count]); [done|].
  repeat (apply Forall_cons_2; [done|]). apply Forall_nil_2.
Qed.

Lemma combinationFileName_inj c c' i j :
  plainFields c → plainFields c' →
  combinationFileName c i = combinationFileName c' j → i = j.
Proof.
  intros Hc Hc' Heq.
  pose proof (combinationFileName_parts c i Hc) as H1.
  rewrite Heq, (combinationFileName_parts c' j Hc') in H1.
  apply numberToString_inj. congruence.
Qed.

Lemma allCombinations_plain c : c ∈ allCombinations → plainFields c.
Proof.
  unfold allCombinations. intros Hc.
  apply list_elem_of_bind in Hc as (name & Hc & Hname).
  apply list_elem_of_bind in Hc as (expoVersion & Hc & _).
  apply list_elem_of_bind in Hc as (storageType & Hc & HstorageType).
  apply list_elem_of_bind in Hc as (platform & Hc & Hplatform).
  apply list_elem_of_bind in Hc as (buildType & Hc & HbuildType).
  apply list_elem_of_bind in Hc as (nodeVersion & Hc & _).
  apply list_elem_of_bind in Hc as (expoCli & Hc & HexpoCli).
  apply list_elem_of_bind in Hc as (reactNativeCli & Hc & _).
  apply list_elem_of_bind in Hc as (fastlane & Hc & _).
  apply list_elem_of_bind in Hc as (workflow & Hc & _).
  apply list_elem_of_bind in Hc as (eas & Hc & _).
  apply list_elem_of_singleton in Hc as ->.
  assert (∀ l s, Forall plainText l → s ∈ l → plainText s) as Hin
    by (intros l s Hl; by apply Forall_forall).
  unfold plainFields. simpl. repeat split.
  all: match goal with
       | H : ?s ∈ ?l |- JS.includes ?s _ = false =>
           eapply (Hin l s); [|exact H]
       end.
  all: repeat (apply Forall_cons_2; [by split|]); apply Forall_nil_2.
Qed.

Lemma length_bind_constZ {A B} (f : A → list B) (l : list A) (n : Z) :
  (∀ x, Z.of_nat (List.length (f x)) = n) →
  Z.of_nat (List.length (l ≫= f)) = (Z.of_nat (List.length l) * n)%Z.
Proof.
  intros Hf. induction l as [|x l IH]; [done|].
  rewrite bind_cons, length_app, Nat2Z.inj_add, Hf, IH.
  simpl List.length. lia.
Qed.

Lemma allCombinations_length :
  Z.of_nat (List.length allCombinations) = 13824%Z.
Proof.
  unfold allCombinations.
  rewrite (length_bind_constZ _ _ 6912); [done|intros name].
  rewrite (length_bind_constZ _ _ 2304); [done|intros expoVersion].
  rewrite (length_bind_constZ _ _ 576); [done|intros storageType].
  rewrite (length_bind_constZ _ _ 288); [done|intros platform].
  rewrite (length_bind_constZ _ _ 96); [done|intros buildType].
  rewrite (length_bind_constZ _ _ 48); [done|intros nodeVersion].
  rewrite (length_bind_constZ _ _ 24); [done|intros expoCli].
  rewrite (length_bind_constZ _ _ 12); [done|intros reactNativeCli].
  rewrite (length_bind_constZ _ _ 6); [done|intros fastlane].
  rewrite (length_bind_constZ _ _ 2); [done|intros workflow].
  rewrite (length_bind_constZ _ _ 1); [done|intros eas]. done.
Qed.

Lemma withinLimit_elem limit count (combinations : list Combination) c :
  c ∈ withinLimit limit count combinations → c ∈ combinations.
Proof.
  unfold withinLimit. destruct limit as [l|]; [|done].
  destruct (Z.eqb l 0); [done|].
  intros Hc. eapply elem_of_sublist; [exact Hc|apply sublist_take].
Qed.

Lemma foldl_insert_lookup (written : list (string * string))
    (files : gmap string string) :
  NoDup written.*1 →
  (∀ p c, (p, c) ∈ written →
          foldl (fun fs pc => <[pc.1 := pc.2]> fs) files written !! p
          = Some c)
  ∧ (∀ p, p ∉ written.*1 →
          foldl (fun fs pc => <[pc.1 := pc.2]> fs) files written !! p
          = files !! p).
Proof.
  revert files. induction written as [|[p0 c0] written IH]; intros files Hnd.
  - split; [|done]. intros p c Hin. by apply elem_of_nil in Hin.
  - rewrite fmap_cons in Hnd. apply NoDup_cons in Hnd as [Hp0 Hnd].
    destruct (IH (<[p0 := c0]> files) Hnd) as [IH1 IH2].
    simpl. split.
    + intros p c Hin. apply elem_of_cons in Hin as [[= -> ->]|Hin].
      * rewrite (IH2 p0 Hp0). apply lookup_insert_eq.
      * by apply IH1.
    + intros p Hp. rewrite not_elem_of_cons in Hp.
      destruct Hp as [Hne Hp]. rewrite (IH2 p Hp).
      by apply lookup_insert_ne.
Qed.

Section WorkflowTesterProperties.

Variable generateYaml : FormValues → string.
Variable pathResolve : string → string.
Variable pathJoin : string → string → string.
Variable pathBasename : string → string.

(** The loops as a map over the combinations within the limit. *)
Lemma allLoop_spec limit dir combinations count acc files :
  allLoop generateYaml pathJoin limit dir combinations count acc files
  = (acc
     ++ (imap (fun i c =>
                 (pathJoin dir (combinationFileName c (count + i)),
                  generateYaml (combinationValues c)))
           (withinLimit limit count combinations)).*1,
     foldl (fun fs pc => <[pc.1 := pc.2]> fs) files
       (imap (fun i c =>
                (pathJoin dir (combinationFileName c (count + i)),
                 generateYaml (combinationValues c)))
          (withinLimit limit count combinations))).
Proof.
  revert count acc files.
  induction combinations as [|c rest IH]; intros count acc files.
  - assert (withinLimit limit count [] = []) as ->.
    { unfold withinLimit. destruct limit as [l|]; [|done].
      destruct (Z.eqb l 0); [done|]. by rewrite take_nil. }
    simpl. by rewrite app_nil_r.
  - assert (withinLimit limit count (c :: rest)
            = if limitReached limit count then []
              else c :: withinLimit limit (S count) rest) as ->.
    { unfold withinLimit, limitReached. destruct limit as [l|]; [|done].
      destruct (Z.eqb l 0) eqn:Hl; [done|]. simpl negb. cbn [andb].
      destruct (Z.leb l (Z.of_nat count)) eqn:Hle.
      - apply Z.leb_le in Hle.
        replace (Z.to_nat l - count)%nat with 0%nat by lia. done.
      - apply Z.leb_gt in Hle.
        replace (Z.to_nat l - count)%nat
          with (S (Z.to_nat l - S count)) by lia.
        done. }
    cbn [allLoop]. destruct (limitReached limit count).
    { simpl. by rewrite app_nil_r. }
    rewrite IH, imap_cons, fmap_cons, <- app_assoc. cbn [foldl fst snd].
    rewrite Nat.add_0_r.
    assert (imap
              ((fun i c0 =>
                  (pathJoin dir (combinationFileName c0 (count + i)),
                   generateYaml (combinationValues c0))) ∘ S)
              (withinLimit limit (S count) rest)
            = imap (fun i c0 =>
                      (pathJoin dir (combinationFileName c0 (S count + i)),
                       generateYaml (combinationValues c0)))
                (withinLimit limit (S count) rest)) as ->; [|done].
    apply imap_ext. intros i c0 _. simpl. by rewrite Nat.add_succ_r.
Qed.

(** X22: [generateAllWorkflows] returns one path for each of the first
    combinations of the eleven loops, in their order, the i-th file named
    after the i-th combination and the count i.  There are 13824
    combinations; an integer limit other than 0 cuts the paths to that
    many (to none when negative), the limit 0 is no limit. *)
Theorem generateAllWorkflows_paths
    (outputDir : string) (limit : option Z) (files : gmap string string) :
  let paths :=
    (generateAllWorkflows generateYaml pathResolve pathJoin outputDir limit
       files).1 in
  paths
  = imap (fun i c => pathJoin (pathResolve outputDir)
                       (combinationFileName c i))
      (withinLimit limit 0 allCombinations)
  ∧ Z.of_nat (List.length paths)
    = match limit with
      | Some l => if Z.eqb l 0 then 13824%Z
                  else Z.min (Z.max l 0) 13824
      | None => 13824%Z
      end.
Proof.
  cbv zeta. unfold generateAllWorkflows. cbv zeta.
  rewrite allLoop_spec. cbn [fst app]. rewrite fmap_imap.
  assert (∀ l : list Combination,
            imap (fun n =>
                    fst ∘ (fun c =>
                             (pathJoin (pathResolve outputDir)
                                (combinationFileName c (0 + n)),
                              generateYaml (combinationValues c)))) l
            = imap (fun i c => pathJoin (pathResolve outputDir)
                                 (combinationFileName c i)) l) as ->
    by (intros l; by apply imap_ext).
  split; [done|]. rewrite length_imap.
  pose proof allCombinations_length as Hlen.
  unfold withinLimit. destruct limit as [l|]; [|done].
  destruct (Z.eqb l 0); [done|]. rewrite length_take. lia.
Qed.

(** X23: when [path.join] gives different paths for different file names
    of the loops (it need not for other names: normalisation may identify
    those), the paths [generateAllWorkflows] returns are pairwise distinct,
    every file it wrote holds the text the compiler gave for its
    combination (none is overwritten by a later one), and no other file is
    touched. *)
Theorem generateAllWorkflows_writes_each_file
    (outputDir : string) (limit : option Z) (files : gmap string string) :
  (∀ c c' i j,
     c ∈ allCombinations → c' ∈ allCombinations →
     pathJoin (pathResolve outputDir) (combinationFileName c i)
     = pathJoin (pathResolve outputDir) (combinationFileName c' j) →
     combinationFileName c i = combinationFileName c' j) →
  let run :=
    generateAllWorkflows generateYaml pathResolve pathJoin outputDir limit
      files in
  NoDup run.1
  ∧ (∀ i c, withinLimit limit 0 allCombinations !! i = Some c →
            run.2 !! pathJoin (pathResolve outputDir)
                       (combinationFileName c i)
            = Some (generateYaml (combinationValues c)))
  ∧ (∀ p, p ∉ run.1 → run.2 !! p = files !! p).
Proof.
  intros Hinj. cbv zeta. unfold generateAllWorkflows. cbv zeta.
  rewrite allLoop_spec. cbn [fst snd app].
  assert (NoDup
            (imap (fun i c =>
                     (pathJoin (pathResolve outputDir)
                        (combinationFileName c (0 + i)),
                      generateYaml (combinationValues c)))
               (withinLimit limit 0 allCombinations)).*1) as Hnd.
  { apply NoDup_alt. intros i j p Hi Hj.
    rewrite list_lookup_fmap, list_lookup_imap in Hi, Hj.
    destruct (withinLimit limit 0 allCombinations !! i) as [ci|] eqn:Hci;
      [|done].
    destruct (withinLimit limit 0 allCombinations !! j) as [cj|] eqn:Hcj;
      [|done].
    simpl in Hi, Hj. injection Hi as <-. injection Hj as Hj.
    apply list_elem_of_lookup_2, withinLimit_elem in Hci, Hcj.
    apply Hinj in Hj; [|done..].
    apply allCombinations_plain in Hci, Hcj.
    symmetry. by apply (combinationFileName_inj cj ci). }
  destruct (foldl_insert_lookup _ files Hnd) as [Hwritten Hother].
  split; [done|]. split; [|done].
  intros i c Hc. apply Hwritten.
  by apply (elem_of_lookup_imap_2
              (fun i c => (pathJoin (pathResolve outputDir)
                             (combinationFileName c (0 + i)),
                           generateYaml (combinationValues c)))).
Qed.

(** X24: the manifest gives back what went into a file name of
    [generateAllWorkflows]: for a combination of the loops, or any other
    whose name, platform, build type, CLI and storage type hold no
    underscore and no dot, the entry of a path with that file name has the
    five fields and the count. *)
Theorem manifest_recovers_fields
    (filePath : string) (c : Combination) (count : nat) :
  c ∈ allCombinations ∨ plainFields c →
  pathBasename filePath = combinationFileName c count →
  m_configuration (manifestEntry pathBasename filePath)
  = {| cfg_name := Some (c_name c);
       cfg_platform := Some (c_platform c);
       cfg_buildType := Some (c_buildType c);
       cfg_expoCli := Some (c_expoCli c);
       cfg_storageType := Some (c_storageType c);
       cfg_index := Some (JSText.numberToString count) |}.
Proof.
  intros Hc Hname.
  assert (plainFields c) as Hplain
    by (destruct Hc; [by apply allCombinations_plain|done]).
  unfold manifestEntry. cbv zeta.
  by rewrite Hname, (combinationFileName_parts c count Hplain).
Qed.

(** X25: no field of the configuration of a manifest entry holds an
    underscore: a name with an underscore in it is not given back. *)
Theorem manifest_fields_have_no_underscore (filePath : string) :
  let cfg := m_configuration (manifestEntry pathBasename filePath) in
  (∀ field s,
     field ∈ [cfg_name cfg; cfg_platform cfg; cfg_buildType cfg;
              cfg_expoCli cfg; cfg_storageType cfg; cfg_index cfg] →
     field = Some s → JS.includes s "_" = false)
  ∧ (∀ c count,
       pathBasename filePath = combinationFileName c count →
       JS.includes (c_name c) "_" = true →
       cfg_name cfg ≠ Some (c_name c)).
Proof.
  cbv zeta.
  assert (∀ field s,
            field ∈ [cfg_name (m_configuration
                                 (manifestEntry pathBasename filePath));
                     cfg_platform (m_configuration
                                     (manifestEntry pathBasename filePath));
                     cfg_buildType (m_configuration
                                      (manifestEntry pathBasename filePath));
                     cfg_expoCli (m_configuration
                                    (manifestEntry pathBasename filePath));
                     cfg_storageType
                       (m_configuration
                          (manifestEntry pathBasename filePath));
                     cfg_index (m_configuration
                                  (manifestEntry pathBasename filePath))] →
            field = Some s → JS.includes s "_" = false) as Hfields.
  { unfold manifestEntry. cbv zeta. cbn [m_configuration cfg_name
      cfg_platform cfg_buildType cfg_expoCli cfg_storageType cfg_index].
    intros field s Hfield ->.
    pose proof (split_parts "_"
                  (JSText.replace ".yml" EmptyString
                     (pathBasename filePath))) as Hparts.
    rewrite Forall_forall in Hparts. apply Hparts.
    repeat (apply elem_of_cons in Hfield as [Hfield|Hfield];
            [symmetry in Hfield; by apply list_elem_of_lookup_2 in Hfield|]).
    by apply elem_of_nil in Hfield. }
  split; [exact Hfields|].
  intros c count _ Hname Hcfg.
  assert (JS.includes (c_name c) "_" = false) as Hno.
  { eapply Hfields; [|exact Hcfg]. apply elem_of_cons. by left. }
  congruence.
Qed.

End WorkflowTesterProperties.

Lemma specificFileName_parts config :
  Forall plainText
    [JS.orElse (projectName config) "test";
     JSText.template (platform config); JSText.template (buildType config);
     JSText.template (expoCli config);
     JSText.template (storageType config)] →
  JSText.split "_"
    (JSText.replace ".yml" EmptyString (specificFileName config))
  = ["workflow"; JS.orElse (projectName config) "test";
     JSText.template (platform config); JSText.template (buildType config);
     JSText.template (expoCli config);
     JSText.template (storageType config)].
Proof.
  intros Hall.
  apply Forall_cons in Hall as [[Hn1 Hn2] Hall].
  apply Forall_cons in Hall as [[Hp1 Hp2] Hall].
  apply Forall_cons in Hall as [[Hb1 Hb2] Hall].
  apply Forall_cons in Hall as [[He1 He2] Hall].
  apply Forall_cons in Hall as [[Hs1 Hs2] _].
  unfold specificFileName.
  rewrite (replace_yml_app "workflow_") by done.
  rewrite (replace_yml_app (JS.orElse (projectName config) "test")),
    (replace_yml_app "_") by done.
  rewrite (replace_yml_app (JSText.template (platform config))),
    (replace_yml_app "_") by done.
  rewrite (replace_yml_app (JSText.template (buildType config))),
    (replace_yml_app "_") by done.
  rewrite (replace_yml_app (JSText.template (expoCli config))),
    (replace_yml_app "_") by done.
  rewrite (replace_yml_app (JSText.template (storageType config))) by done.
  change (JSText.replace ".yml" EmptyString ".yml") with EmptyString.
  rewrite append_nil_r.
  apply (split_concat "_"
           ["workflow"; JS.orElse (projectName config) "test";
            JSText.template (platform config);
            JSText.template (buildType config);
            JSText.template (expoCli config);
            JSText.template (storageType config)]); [done|].
  repeat (apply Forall_cons_2; [done|]). apply Forall_nil_2.
Qed.

(** X26: [generateSpecificWorkflow] writes the text of the compiler to
    the path it returns, under a file name without a count: when the five
    parts of the name hold no underscore and no dot, the manifest entry of
    that path has them (the name ["test"] for a missing or empty project
    name, ["undefined"] for a missing field) and no index. *)
Theorem generateSpecificWorkflow_manifest_has_no_index
    (generateYaml : FormValues → string) (pathResolve : string → string)
    (pathJoin : string → string → string) (pathBasename : string → string)
    (config : FormValues) (outputDir : string) (files : gmap string string) :
  let run :=
    generateSpecificWorkflow generateYaml pathResolve pathJoin config
      outputDir files in
  Forall plainText
    [JS.orElse (projectName config) "test";
     JSText.template (platform config); JSText.template (buildType config);
     JSText.template (expoCli config);
     JSText.template (storageType config)] →
  pathBasename run.1 = specificFileName config →
  run.2 !! run.1 = Some (generateYaml config)
  ∧ (∀ p, p ≠ run.1 → run.2 !! p = files !! p)
  ∧ m_configuration (manifestEntry pathBasename run.1)
    = {| cfg_name := Some (JS.orElse (projectName config) "test");
         cfg_platform := Some (JSText.template (platform config));
         cfg_buildType := Some (JSText.template (buildType config));
         cfg_expoCli := Some (JSText.template (expoCli config));
         cfg_storageType := Some (JSText.template (storageType config));
         cfg_index := None |}.
Proof.
  cbv zeta. unfold generateSpecificWorkflow. cbv zeta. cbn [fst snd].
  intros Hplain Hname. split; [apply lookup_insert_eq|]. split.
  - intros p Hp. by apply lookup_insert_ne.
  - unfold manifestEntry. cbv zeta.
    by rewrite Hname, (specificFileName_parts config Hplain).
Qed.

Lemma generateAllWorkflows_writes_each_file_witness :
  sampleNormalisingJoin "out" "./w.yml" = sampleNormalisingJoin "out" "w.yml"
  ∧ (∀ c c' i j,
       c ∈ allCombinations → c' ∈ allCombinations →
       sampleNormalisingJoin "out" (combinationFileName c i)
       = sampleNormalisingJoin "out" (combinationFileName c' j) →
       combinationFileName c i = combinationFileName c' j)
  ∧ NoDup (generateAllWorkflows (fun _ => "name: sample") id
             sampleNormalisingJoin "out" (Some 2%Z) ∅).1.
Proof.
  assert (∀ c c' i j,
            c ∈ allCombinations → c' ∈ allCombinations →
            sampleNormalisingJoin (id "out") (combinationFileName c i)
            = sampleNormalisingJoin (id "out") (combinationFileName c' j) →
            combinationFileName c i = combinationFileName c' j) as Hinj.
  { intros c c' i j _ _ H.
    change (id "out" +:+ "/" +:+ combinationFileName c i
            = id "out" +:+ "/" +:+ combinationFileName c' j) in H.
    by apply (inj (String.append _)), (inj (String.append _)) in H. }
  split; [reflexivity|]. split; [exact Hinj|].
  apply (generateAllWorkflows_writes_each_file (fun _ => "name: sample") id
           sampleNormalisingJoin "out" (Some 2%Z) ∅ Hinj).
Defined.

Lemma manifest_recovers_fields_witness :
  (sampleCombination ∈ allCombinations ∨ plainFields sampleCombination)
  ∧ sampleBasename
      (samplePathJoin "out" (combinationFileName sampleCombination 7))
    = combinationFileName sampleCombination 7
  ∧ m_configuration
      (manifestEntry sampleBasename
         (samplePathJoin "out" (combinationFileName sampleCombination 7)))
    = {| cfg_name := Some "TestApp"; cfg_platform := Some "android";
         cfg_buildType := Some "dev"; cfg_expoCli := Some "classic";
         cfg_storageType := Some "github-release";
         cfg_index := Some "7" |}.
Proof.
  assert (sampleCombination ∈ allCombinations
          ∨ plainFields sampleCombination) as Hplain
    by (right; by repeat split).
  assert (sampleBasename
            (samplePathJoin "out" (combinationFileName sampleCombination 7))
          = combinationFileName sampleCombination 7) as Hname
    by reflexivity.
  split; [exact Hplain|]. split; [exact Hname|].
  exact (manifest_recovers_fields sampleBasename _ sampleCombination 7 Hplain
           Hname).
Defined.

Lemma generateSpecificWorkflow_manifest_has_no_index_witness :
  let config := baseConfig noOverrides in
  let run :=
    generateSpecificWorkflow (fun _ => "name: sample") id samplePathJoin
      config "out" ∅ in
  Forall plainText
    [JS.orElse (projectName config) "test";
     JSText.template (platform config); JSText.template (buildType config);
     JSText.template (expoCli config);
     JSText.template (storageType config)]
  ∧ sampleBasename run.1 = specificFileName config
  ∧ cfg_index (m_configuration (manifestEntry sampleBasename run.1)) = None.
Proof.
  cbv zeta.
  assert (Forall plainText
            [JS.orElse (projectName (baseConfig noOverrides)) "test";
             JSText.template (platform (baseConfig noOverrides));
             JSText.template (buildType (baseConfig noOverrides));
             JSText.template (expoCli (baseConfig noOverrides));
             JSText.template (storageType (baseConfig noOverrides))])
    as Hplain
    by (repeat (apply Forall_cons_2; [by split|]); apply Forall_nil_2).
  assert (sampleBasename
            (generateSpecificWorkflow (fun _ => "name: sample") id
               samplePathJoin (baseConfig noOverrides) "out" ∅).1
          = specificFileName (baseConfig noOverrides)) as Hname
    by reflexivity.
  split; [exact Hplain|]. split; [exact Hname|].
  destruct (generateSpecificWorkflow_manifest_has_no_index
              (fun _ => "name: sample") id samplePathJoin sampleBasename
              (baseConfig noOverrides) "out" ∅ Hplain Hname)
    as (_ & _ & Hcfg).
  by rewrite Hcfg.
Defined.
